(** * semantic_convnets: data preparation for hierarchical classification

    A shallow embedding of [code/data_utils.py] and of the
    [load_data_pyramid] wrapper of [code/pipeline.py]: the taxonomy builder
    ([create_coarse_to_fine_map]), the taxonomy cache
    ([load_coarse_to_fine_map]), the partitioner ([load_cifar_pyramid]),
    the normalizer ([load_cifar]) and the subset dispatch
    ([load_data_pyramid]); then the decoding of the corpus files
    ([_load_cifar100], [_load_cifar10] and their batch readers) and, of
    [code/pipeline.py], the weight-preloading rule, the command line and
    the functions that train and test a model.

    Conventions.
    - Python exceptions are the constructors of [exn]; a call that can
      raise returns a [result].
    - Python integers are [Z]; label names are [string]s (Python 2 byte
      strings, ordered byte-wise as [String.compare] orders them).
    - A Python [set] of names is a [gset string], the taxonomy [dict] is a
      [gmap string (list string)]; its iteration order is whatever
      [map_to_list] gives, and nothing proved below depends on it.
    - A numpy array is the list of its rows along axis 0.  Images are
      opaque to the partitioner (any type [Image]); the normalizer sees a
      row as the flat list of its entries.
    - numpy's floating point numbers are idealised as real numbers. *)

From Stdlib Require Import ZArith Reals Lra Lia String Ascii List.
From Stdlib Require OrderedTypeEx.
From stdpp Require Import gmap strings list sorting.

Local Open Scope Z_scope.

(** ** Exceptions and results *)

Inductive exn : Type :=
  | IndexError
  | ValueError
  | AssertionError
  | IOError
  | UnboundLocalError
  | Exception (msg : string).

Inductive result (A : Type) : Type :=
  | Ok (a : A)
  | Raise (e : exn).
Arguments Ok {A} a.
Arguments Raise {A} e.

#[global] Instance result_ret : MRet result := fun A a => Ok a.
#[global] Instance result_fmap : FMap result := fun A B f r =>
  match r with
  | Ok a => Ok (f a)
  | Raise e => Raise e
  end.
#[global] Instance result_bind : MBind result := fun A B k r =>
  match r with
  | Ok a => k a
  | Raise e => Raise e
  end.

(** ** Python and numpy primitives *)

(** [l[i]] on a Python list: a negative index counts from the end, an
    index outside [-len, len) raises [IndexError]. *)
Definition py_index {A : Type} (l : list A) (i : Z) : result A :=
  let n := Z.of_nat (length l) in
  if decide (0 ≤ i < n) then
    match l !! Z.to_nat i with Some x => Ok x | None => Raise IndexError end
  else if decide (- n ≤ i < 0) then
    match l !! Z.to_nat (n + i) with Some x => Ok x | None => Raise IndexError end
  else Raise IndexError.

(** [a[i]] for [i] produced by [xrange]: row [i] of the array, or
    [IndexError] past its end. *)
Definition np_row {A : Type} (a : list A) (i : nat) : result A :=
  match a !! i with
  | Some x => Ok x
  | None => Raise IndexError
  end.

(** [set(s)] for a string [s]: the set of its one-character strings. *)
Definition chars (s : string) : list string :=
  (fun a => String a EmptyString) <$> list_ascii_of_string s.

(** A label as the test loop sees it: Python compares values of different
    types as unequal, so an integer is never a member of a set of names. *)
Inductive pyval : Type :=
  | PyInt (z : Z)
  | PyStr (s : string).

Definition py_in (v : pyval) (names : gset string) : bool :=
  match v with
  | PyStr s => bool_decide (s ∈ names)
  | PyInt _ => false
  end.

(** [np.stack((fine, coarse)).swapaxes(0,1)]: one row [fine_id, coarse_id]
    per sample; [np.stack] refuses arrays of different shapes. *)
Definition stack_labels (fine coarse : list Z) : result (list (Z * Z)) :=
  if decide (length fine = length coarse) then Ok (zip fine coarse)
  else Raise ValueError.

(** The order of Python 2 byte strings: lexicographic on the bytes. *)
Definition str_le (a b : string) : Prop := String.leb a b = true.

#[global] Instance str_le_dec : RelDecision str_le.
Proof. intros a b. unfold str_le. apply _. Defined.

(** Label arrays: CIFAR-10 labels are a 1-D array, CIFAR-100 labels the
    2-D array built by [stack_labels]. *)
Inductive labels : Type :=
  | Labels1 (y : list Z)
  | Labels2 (y : list (Z * Z)).

(** [y.shape[0]] *)
Definition labels_len (y : labels) : nat :=
  match y with
  | Labels1 y => length y
  | Labels2 y => length y
  end.

(** [y[i]] read as a row [fine_id, coarse_id] (so that [y[i, 0]] is its
    first entry); a 1-D array has no second axis. *)
Definition np_item (y : labels) (i : nat) : result (Z * Z) :=
  match y with
  | Labels2 rows => np_row rows i
  | Labels1 _ => Raise IndexError
  end.

(** ** The world outside the core

    The byte layout of the corpus files and of the pickled taxonomy is
    the business of external collaborators.  The world records what the
    raw loaders return and which blobs the working directory holds. *)

Abbreviation taxonomy := (gmap string (list string)).

(** The [pickle] library, restricted to the one kind of object this
    repository dumps into [coarse_to_fine_map.pickle]. *)
Class Pickle (blob : Type) : Type := {
  pickle_dumps : taxonomy → blob;
  pickle_loads : blob → result taxonomy
}.

(** What the [pickle] documentation promises. *)
Class PickleRoundTrip (blob : Type) `{Pickle blob} : Prop :=
  pickle_loads_dumps : ∀ T : taxonomy, pickle_loads (pickle_dumps T) = Ok T.

(** A codec to instantiate the interface with: the blob is the item
    stream of the mapping. *)
#[local] Instance items_pickle : Pickle (list (string * list string)) := {|
  pickle_dumps T := map_to_list T;
  pickle_loads b := Ok (list_to_map b)
|}.

Record cifar100_raw (Image : Type) : Type := {
  Xtr : list Image; Y_fine_tr : list Z; Y_coarse_tr : list Z;
  Xte : list Image; Y_fine_te : list Z; Y_coarse_te : list Z
}.
Arguments Xtr {Image}.
Arguments Y_fine_tr {Image}.
Arguments Y_coarse_tr {Image}.
Arguments Xte {Image}.
Arguments Y_fine_te {Image}.
Arguments Y_coarse_te {Image}.

Record cifar10_raw (Image : Type) : Type := {
  Xtr10 : list Image; Ytr10 : list Z;
  Xte10 : list Image; Yte10 : list Z
}.
Arguments Xtr10 {Image}.
Arguments Ytr10 {Image}.
Arguments Xte10 {Image}.
Arguments Yte10 {Image}.

(** The eight values [load_cifar_pyramid] returns. *)
Record pyramid (Image : Type) : Type := {
  X_train_joint : list Image;
  y_train_joint : list (Z * Z);
  X_train_gate : list Image;
  y_train_gate : list (Z * Z);
  fine_or_coarse_train_gate : list Z;
  X_test : list Image;
  y_test : labels;
  fine_or_coarse_test : list Z
}.
Arguments X_train_joint {Image}.
Arguments y_train_joint {Image}.
Arguments X_train_gate {Image}.
Arguments y_train_gate {Image}.
Arguments fine_or_coarse_train_gate {Image}.
Arguments X_test {Image}.
Arguments y_test {Image}.
Arguments fine_or_coarse_test {Image}.

Record world (Image blob : Type) : Type := {
  (** [_load_cifar100(CIFAR100_DIR)] *)
  _load_cifar100 : result (cifar100_raw Image);
  (** [_load_cifar10(CIFAR10_DIR)] *)
  _load_cifar10 : result (cifar10_raw Image);
  (** the [fine_label_names] and [coarse_label_names] of the CIFAR-100
      [meta] file *)
  cifar100_meta : result (list string * list string);
  (** [load_cifar100_prefeaturized()], unpacked into eight values *)
  load_cifar100_prefeaturized : result (pyramid Image);
  (** the files of the working directory *)
  files : gmap string blob
}.
Arguments _load_cifar100 {Image blob}.
Arguments _load_cifar10 {Image blob}.
Arguments cifar100_meta {Image blob}.
Arguments load_cifar100_prefeaturized {Image blob}.
Arguments files {Image blob}.

Definition write_file {Image blob} (path : string) (b : blob)
    (w : world Image blob) : world Image blob :=
  {| _load_cifar100 := _load_cifar100 w;
     _load_cifar10 := _load_cifar10 w;
     cifar100_meta := cifar100_meta w;
     load_cifar100_prefeaturized := load_cifar100_prefeaturized w;
     files := <[path := b]> (files w) |}.

(** ** data_utils.py *)

Module DataUtils.

Definition coarse_to_fine_map_path : string := "coarse_to_fine_map.pickle".

Section Loaders.
Context {Image blob : Type} `{Pickle blob}.
Implicit Types (w : world Image blob).

(** [load_cifar_train_test(dataset)] *)
Definition load_cifar_train_test w (dataset : string)
    : result (list Image * labels * list Image * labels) :=
  if bool_decide (dataset ∈ ["cifar10"; "cifar100"]) then
    if bool_decide (dataset = "cifar10") then
      raw ← _load_cifar10 w;
      Ok (Xtr10 raw, Labels1 (Ytr10 raw), Xte10 raw, Labels1 (Yte10 raw))
    else
      raw ← _load_cifar100 w;
      y_train ← stack_labels (Y_fine_tr raw) (Y_coarse_tr raw);
      y_test ← stack_labels (Y_fine_te raw) (Y_coarse_te raw);
      Ok (Xtr raw, Labels2 y_train, Xte raw, Labels2 y_test)
  else Raise AssertionError.

(** [load_cifar100_label_names(label_type='all')], the only way it is
    called. *)
Definition load_cifar100_label_names w : result (list string * list string) :=
  cifar100_meta w.

(** [load_coarse_to_fine_map()] *)
Definition load_coarse_to_fine_map w : result taxonomy :=
  match files w !! coarse_to_fine_map_path with
  | Some b => pickle_loads b
  | None => Raise IOError
  end.

(** *** The taxonomy builder *)

(** The first loop of [create_coarse_to_fine_map], over the rows of
    [y_train]; the accumulator is the [defaultdict(set)]. *)
Fixpoint collect_fine_labels (fine_label_names coarse_label_names : list string)
    (y_train : list (Z * Z)) (coarse_to_fine_map : gmap string (gset string))
    : result (gmap string (gset string)) :=
  match y_train with
  | [] => Ok coarse_to_fine_map
  | row :: rest =>
      coarse_label ← py_index coarse_label_names row.2;
      fine_label ← py_index fine_label_names row.1;
      let bucket := default ∅ (coarse_to_fine_map !! coarse_label) in
      let bucket' :=
        if bool_decide (fine_label ∉ bucket) then bucket ∪ {[fine_label]}
        else bucket in
      collect_fine_labels fine_label_names coarse_label_names rest
        (<[coarse_label := bucket']> coarse_to_fine_map)
  end.

(** [sorted(list(s))] for a set of names *)
Definition sorted (s : gset string) : list string :=
  merge_sort str_le (elements s).

(** [y_train[:, 0]] and [y_train[:, 1]] need a 2-D array. *)
Definition label_columns (y : labels) : result (list (Z * Z)) :=
  match y with
  | Labels2 rows => Ok rows
  | Labels1 _ => Raise IndexError
  end.

(** [pickle.dump(coarse_to_fine_map, open('coarse_to_fine_map.pickle',
    'wb+'))]: the file is created or replaced. *)
Definition dump_coarse_to_fine_map (coarse_to_fine_map : taxonomy) w
    : world Image blob :=
  write_file coarse_to_fine_map_path (pickle_dumps coarse_to_fine_map) w.

(** [create_coarse_to_fine_map()]: the taxonomy it returns and the world
    it leaves behind. *)
Definition create_coarse_to_fine_map w : result (taxonomy * world Image blob) :=
  '(X_train, y_train, X_test, y_test) ← load_cifar_train_test w "cifar100";
  '(fine_label_names, coarse_label_names) ← load_cifar100_label_names w;
  rows ← label_columns y_train;
  sets ← collect_fine_labels fine_label_names coarse_label_names rows ∅;
  let coarse_to_fine_map : taxonomy := sorted <$> sets in
  Ok (coarse_to_fine_map, dump_coarse_to_fine_map coarse_to_fine_map w).

(** *** The partitioner *)

Record label_sets : Type := {
  fine_labels_joint : gset string;
  fine_labels_gate : gset string;
  fine_labels_only_test : gset string
}.

(** The loop over [coarse_to_fine_map.iteritems()]. *)
Fixpoint label_sets_loop (items : list (string * list string))
    (acc : label_sets) : result label_sets :=
  match items with
  | [] => Ok acc
  | (coarse_label, fine_labels) :: rest =>
      let joint := fine_labels_joint acc ∪ list_to_set (take 2 fine_labels) in
      let gate := fine_labels_gate acc ∪ list_to_set (take 4 fine_labels) in
      fifth ← py_index fine_labels 4;
      label_sets_loop rest
        {| fine_labels_joint := joint;
           fine_labels_gate := gate;
           fine_labels_only_test :=
             fine_labels_only_test acc ∪ list_to_set (chars fifth) |}
  end.

Definition compute_label_sets (coarse_to_fine_map : taxonomy) : result label_sets :=
  label_sets_loop (map_to_list coarse_to_fine_map)
    {| fine_labels_joint := ∅; fine_labels_gate := ∅;
       fine_labels_only_test := ∅ |}.

(** The five lists the training loop appends to. *)
Record train_lists : Type := {
  tl_X_joint : list Image;
  tl_y_joint : list (Z * Z);
  tl_X_gate : list Image;
  tl_y_gate : list (Z * Z);
  tl_flags : list Z
}.

(** The loop over [xrange(X_train.shape[0])]; its indices are those of
    [X_train], so that [X_train[i]] is always there. *)
Fixpoint train_loop (fine_label_names : list string) (sets : label_sets)
    (X_train : list Image) (y_train : labels) (indices : list nat)
    (acc : train_lists) : result train_lists :=
  match indices with
  | [] => Ok acc
  | i :: rest =>
      row ← np_item y_train i;
      fine_label ← py_index fine_label_names row.1;
      x ← np_row X_train i;
      let acc1 :=
        if bool_decide (fine_label ∈ fine_labels_joint sets) then
          {| tl_X_joint := tl_X_joint acc ++ [x];
             tl_y_joint := tl_y_joint acc ++ [row];
             tl_X_gate := tl_X_gate acc;
             tl_y_gate := tl_y_gate acc;
             tl_flags := tl_flags acc |}
        else acc in
      let acc2 :=
        if bool_decide (fine_label ∈ fine_labels_gate sets) then
          {| tl_X_joint := tl_X_joint acc1;
             tl_y_joint := tl_y_joint acc1;
             tl_X_gate := tl_X_gate acc1 ++ [x];
             tl_y_gate := tl_y_gate acc1 ++ [row];
             tl_flags :=
               tl_flags acc1 ++
               [if bool_decide (fine_label ∈ fine_labels_joint sets)
                then 0 else 1] |}
        else acc1 in
      train_loop fine_label_names sets X_train y_train rest acc2
  end.

(** The loop over [xrange(X_test.shape[0])]: [fine_label] is the integer
    [y_test[i,0]] itself. *)
Fixpoint test_loop (sets : label_sets) (y_test : labels)
    (indices : list nat) (flags : list Z) : result (list Z) :=
  match indices with
  | [] => Ok flags
  | i :: rest =>
      row ← np_item y_test i;
      let fine_label := PyInt row.1 in
      test_loop sets y_test rest
        (flags ++ [if py_in fine_label (fine_labels_joint sets) then 0 else 1])
  end.

(** [load_cifar_pyramid()] *)
Definition load_cifar_pyramid w : result (pyramid Image) :=
  '(X_train, y_train, X_test, y_test) ← load_cifar_train_test w "cifar100";
  coarse_to_fine_map ← load_coarse_to_fine_map w;
  '(fine_label_names, coarse_label_names) ← load_cifar100_label_names w;
  sets ← compute_label_sets coarse_to_fine_map;
  tr ← train_loop fine_label_names sets X_train y_train
         (seq 0 (length X_train))
         {| tl_X_joint := []; tl_y_joint := []; tl_X_gate := [];
            tl_y_gate := []; tl_flags := [] |};
  flags ← test_loop sets y_test (seq 0 (length X_test)) [];
  Ok {| X_train_joint := tl_X_joint tr;
        y_train_joint := tl_y_joint tr;
        X_train_gate := tl_X_gate tr;
        y_train_gate := tl_y_gate tr;
        fine_or_coarse_train_gate := tl_flags tr;
        X_test := X_test;
        y_test := y_test;
        fine_or_coarse_test := flags |}.

(** *** The subset dispatch *)

(** What [load_data_pyramid] hands back: one of four tuples, or [None]
    when the function falls off its end. *)
Inductive subset : Type :=
  | SubsetAll (p : pyramid Image)
  | SubsetJoint (X : list Image) (y : list (Z * Z))
  | SubsetGate (X : list Image) (y : list (Z * Z)) (flags : list Z)
  | SubsetTest (X : list Image) (y : labels) (flags : list Z)
  | PyNone.

Definition load_data_pyramid w (dataset return_subset : string) : result subset :=
  p ← (if bool_decide (dataset = "cifar100_joint") then load_cifar_pyramid w
       else if bool_decide (dataset = "cifar100_joint_prefeaturized")
       then load_cifar100_prefeaturized w
       else Raise (Exception ("Dataset " +:+ dataset +:+ " not found. ")));
  if bool_decide (return_subset = "all") then Ok (SubsetAll p)
  else if bool_decide (return_subset = "joint_only") then
    Ok (SubsetJoint (X_train_joint p) (y_train_joint p))
  else if bool_decide (return_subset = "gate_only") then
    Ok (SubsetGate (X_train_gate p) (y_train_gate p) (fine_or_coarse_train_gate p))
  else if bool_decide (return_subset = "test_only") then
    Ok (SubsetTest (X_test p) (y_test p) (fine_or_coarse_test p))
  else Ok PyNone.

End Loaders.

(** *** The normalizer *)

(** [range(a, b)] *)
Definition py_range (a b : Z) : list Z :=
  (fun k => a + Z.of_nat k) <$> seq 0 (Z.to_nat (b - a)).

(** [a[mask]] for a list [mask] of integers: the rows picked one by one, a
    fresh array. *)
Fixpoint np_take {A : Type} (a : list A) (mask : list Z) : result (list A) :=
  match mask with
  | [] => Ok []
  | i :: rest =>
      x ← py_index a i;
      xs ← np_take a rest;
      Ok (x :: xs)
  end.

Definition labels_take (y : labels) (mask : list Z) : result labels :=
  match y with
  | Labels1 y => Labels1 <$> np_take y mask
  | Labels2 y => Labels2 <$> np_take y mask
  end.

Section Normalizer.
Local Open Scope R_scope.

(** [EPSILON = 1e-8] *)
Definition EPSILON : R := / 10 ^ 8.

(** A batch of images: one row per sample, a row being the flat list of
    the sample's entries (all rows of one length). *)
Abbreviation tensor := (list (list R)).

Definition np_sum (l : list R) : R := foldr Rplus 0 l.

(** [np.mean] of a 1-D array, in exact arithmetic: the rounding of
    float64 is left out.  On an empty array numpy returns [nan] with a
    [RuntimeWarning]; the quotient [0 / 0] written here has no such
    meaning, and what is proved below of the value of a run's statistics
    assumes a training tensor with at least one entry. *)
Definition np_mean1 (l : list R) : R := np_sum l / INR (length l).

(** [np.mean(X)]: the mean of the flattened array *)
Definition np_mean (X : tensor) : R := np_mean1 (concat X).

(** The entries at position [j], one per sample. *)
Definition column (j : nat) (X : tensor) : list R :=
  (fun row => nth j row 0) <$> X.

(** [np.std] of a 1-D array: [sqrt(mean(abs(x - x.mean())**2))], in exact
    arithmetic as [np_mean1] is.  On equal entries it is 0 here; numpy
    gets exactly 0 there when the sum of the entries is exact in float64,
    as it is for the whole numbers that images are made of (see
    [Images.byte_valued]), and a residue of rounding otherwise. *)
Definition np_std1 (l : list R) : R :=
  sqrt (np_mean1 ((fun x => Rabs (x - np_mean1 l) ^ 2) <$> l)).

(** [np.std(X, axis=0)]: one standard deviation per position *)
Definition np_std_axis0 (X : tensor) : list R :=
  (fun j => np_std1 (column j X)) <$> seq 0 (length (hd [] X)).

(** What a run of [load_cifar] writes out: the two [print]s, and the
    [RuntimeWarning] numpy issues when it divides by zero (the quotient
    itself, [inf] or [nan], has no counterpart among the reals). *)
Inductive event : Type :=
  | Printed (r : R)
  | DivideByZeroWarning.

(** [X -= c] *)
Definition np_isub (X : tensor) (c : R) : tensor :=
  fmap (M := list) (fmap (M := list) (fun x => x - c)) X.

(** [X /= d] *)
Definition np_idiv (X : tensor) (d : R) : list event * tensor :=
  (if Req_dec_T d 0 then
     if bool_decide (concat X = []) then [] else [DivideByZeroWarning]
   else [],
   fmap (M := list) (fmap (M := list) (fun x => x / d)) X).

Record splits : Type := {
  s_X_train : tensor; s_y_train : labels;
  s_X_val : tensor; s_y_val : labels;
  s_X_test : tensor; s_y_test : labels
}.

Context {blob : Type}.
Implicit Types (w : world (list R) blob).

(** The subsampling of [load_cifar]. *)
Definition subsample (X_train : tensor) (y_train : labels)
    (X_test : tensor) (y_test : labels)
    (num_training num_validation num_test : Z) : result splits :=
  let mask := py_range num_training (num_training + num_validation) in
  X_val ← np_take X_train mask;
  y_val ← labels_take y_train mask;
  let mask := py_range 0 num_training in
  X_train ← np_take X_train mask;
  y_train ← labels_take y_train mask;
  let mask := py_range 0 num_test in
  X_test ← np_take X_test mask;
  y_test ← labels_take y_test mask;
  Ok {| s_X_train := X_train; s_y_train := y_train;
        s_X_val := X_val; s_y_val := y_val;
        s_X_test := X_test; s_y_test := y_test |}.

(** [load_cifar(num_training, num_validation, num_test, dataset,
    normalize)], reading the module's global [EPSILON] as [eps]. *)
Definition load_cifar_eps (eps : R) w
    (num_training num_validation num_test : Z) (dataset : string)
    (normalize : bool) : list event * result splits :=
  if bool_decide (dataset ∈ ["cifar10"; "cifar100"]) then
    match
      (if bool_decide (dataset = "cifar10") then
         raw ← _load_cifar10 w;
         Ok (Xtr10 raw, Labels1 (Ytr10 raw), Xte10 raw, Labels1 (Yte10 raw))
       else
         raw ← _load_cifar100 w;
         y_train ← stack_labels (Y_fine_tr raw) (Y_coarse_tr raw);
         y_test ← stack_labels (Y_fine_te raw) (Y_coarse_te raw);
         Ok (Xtr raw, Labels2 y_train, Xte raw, Labels2 y_test))
    with
    | Raise e => ([], Raise e)
    | Ok (X_train, y_train, X_test, y_test) =>
        let mean_image := np_mean X_train in
        let std_deviation := np_mean1 (np_std_axis0 X_train) in
        let out := [Printed mean_image; Printed std_deviation] in
        match subsample X_train y_train X_test y_test
                num_training num_validation num_test with
        | Raise e => (out, Raise e)
        | Ok s =>
            if normalize then
              let X_train := np_isub (s_X_train s) mean_image in
              let X_val := np_isub (s_X_val s) mean_image in
              let X_test := np_isub (s_X_test s) mean_image in
              let '(w1, X_train) := np_idiv X_train (std_deviation + eps) in
              let '(w2, X_val) := np_idiv X_val (std_deviation + eps) in
              let '(w3, X_test) := np_idiv X_test (std_deviation + eps) in
              (out ++ w1 ++ w2 ++ w3,
               Ok {| s_X_train := X_train; s_y_train := s_y_train s;
                     s_X_val := X_val; s_y_val := s_y_val s;
                     s_X_test := X_test; s_y_test := s_y_test s |})
            else (out, Ok s)
        end
    end
  else ([], Raise AssertionError).

Definition load_cifar := load_cifar_eps EPSILON.

End Normalizer.

End DataUtils.

(** ** pipeline.py *)

Module Pipeline.

Section Dispatch.
Context {Image blob : Type} `{Pickle blob}.
Implicit Types (w : world Image blob).

(** [load_data_pyramid(dataset, return_subset)] as [pipeline.py]
    redefines it: an unknown dataset is only reported, and the eight
    names stay unbound. *)
Definition load_data_pyramid w (dataset return_subset : string)
    : result (DataUtils.subset (Image := Image)) :=
  bound ← (if bool_decide (dataset = "cifar100_joint")
           then Some <$> DataUtils.load_cifar_pyramid w
           else Ok None);
  let read (k : pyramid Image → DataUtils.subset) : result DataUtils.subset :=
    match bound with
    | Some p => Ok (k p)
    | None => Raise UnboundLocalError
    end in
  if bool_decide (return_subset = "all") then read DataUtils.SubsetAll
  else if bool_decide (return_subset = "joint_only") then
    read (fun p => DataUtils.SubsetJoint (X_train_joint p) (y_train_joint p))
  else if bool_decide (return_subset = "gate_only") then
    read (fun p => DataUtils.SubsetGate (X_train_gate p) (y_train_gate p)
                     (fine_or_coarse_train_gate p))
  else if bool_decide (return_subset = "test_only") then
    read (fun p => DataUtils.SubsetTest (X_test p) (y_test p)
                     (fine_or_coarse_test p))
  else Ok DataUtils.PyNone.

End Dispatch.

End Pipeline.

(** ** The notions the specification speaks of *)

Module Spec.

(** The partition policy: of a bucket's names the first two go to the
    joint set, the first four to the gate set, the fifth is test-only. *)
Definition joint_set (T : taxonomy) : gset string :=
  ⋃ ((fun item => list_to_set (take 2 item.2)) <$> map_to_list T).

Definition gate_set (T : taxonomy) : gset string :=
  ⋃ ((fun item => list_to_set (take 4 item.2)) <$> map_to_list T).

Definition test_only_set (T : taxonomy) : gset string :=
  ⋃ ((fun item => list_to_set (take 1 (drop 4 item.2))) <$> map_to_list T).

(** The name of a sample's fine label, when its id has one. *)
Definition fine_name (fine_label_names : list string) (row : Z * Z)
    : option string :=
  match py_index fine_label_names row.1 with
  | Ok name => Some name
  | Raise _ => None
  end.

(** "The sample's fine-label name is in the set". *)
Definition named_in (fine_label_names : list string) (names : gset string)
    (row : Z * Z) : bool :=
  match fine_name fine_label_names row with
  | Some name => bool_decide (name ∈ names)
  | None => false
  end.

(** 0 = predict fine, 1 = predict coarse *)
Definition routing_flag (fine_label_names : list string) (T : taxonomy)
    (row : Z * Z) : Z :=
  if named_in fine_label_names (joint_set T) row then 0 else 1.

(** The fine-label names observed under a coarse-label name. *)
Definition observed (fine_label_names coarse_label_names : list string)
    (y_train : list (Z * Z)) (coarse fine : string) : Prop :=
  ∃ row, row ∈ y_train ∧
         py_index coarse_label_names row.2 = Ok coarse ∧
         py_index fine_label_names row.1 = Ok fine.

(** Rows [a, a + b) of a label array. *)
Definition labels_rows (a b : nat) (y : labels) : labels :=
  match y with
  | Labels1 y => Labels1 (take b (drop a y))
  | Labels2 y => Labels2 (take b (drop a y))
  end.

(** Both ids of the row have names. *)
Definition named (fine_label_names coarse_label_names : list string)
    (row : Z * Z) : Prop :=
  ∃ c f, py_index coarse_label_names row.2 = Ok c ∧
         py_index fine_label_names row.1 = Ok f.

Section Statistics.
Local Open Scope R_scope.

(** The number of samples and of positions per sample. *)
Definition samples (X : list (list R)) : nat := length X.
Definition positions (X : list (list R)) : nat := length (hd [] X).

Definition rectangular (X : list (list R)) : Prop :=
  Forall (fun row => length row = positions X) X.

Definition total (l : list R) : R := foldr Rplus 0 l.


(** The standard deviation at position [j], along the sample axis. *)
Definition position_std (X : list (list R)) (j : nat) : R :=
  let mu := total ((fun row => nth j row 0) <$> X) / INR (samples X) in
  sqrt (total ((fun row => (nth j row 0 - mu) * (nth j row 0 - mu)) <$> X)
        / INR (samples X)).

(** The mean over the positions of the per-position standard
    deviation. *)
Definition scale (X : list (list R)) : R :=
  total (position_std X <$> seq 0 (positions X)) / INR (positions X).

End Statistics.

End Spec.

(** ** Image tensors as the corpus readers produce them

    Images are decoded from bytes, so their entries are whole numbers from
    0 to 255.  On such entries the sums numpy takes are exact in float64
    (as long as they stay below [2^53]), and a position at which all
    samples agree has standard deviation exactly 0 there, as it has
    here. *)

Module Images.

Definition byte (x : R) : Prop := ∃ k : Z, 0 ≤ k ≤ 255 ∧ x = IZR k.

Definition byte_valued (X : list (list R)) : Prop := Forall (Forall byte) X.

End Images.

(** ** The end-to-end scenario of the specification

    Two coarse classes of five fine classes each, ten training samples
    and ten test samples, one per fine label; images are numbered. *)

Module Scenario.

Definition T : taxonomy :=
  {[ "c0" := ["f0"; "f1"; "f2"; "f3"; "f4"];
     "c1" := ["f5"; "f6"; "f7"; "f8"; "f9"] ]}.

Definition fine_label_names : list string :=
  ["f0"; "f1"; "f2"; "f3"; "f4"; "f5"; "f6"; "f7"; "f8"; "f9"].

Definition coarse_label_names : list string := ["c0"; "c1"].

Definition raw : cifar100_raw nat :=
  {| Xtr := [100; 101; 102; 103; 104; 105; 106; 107; 108; 109]%nat;
     Y_fine_tr := [0; 1; 2; 3; 4; 5; 6; 7; 8; 9];
     Y_coarse_tr := [0; 0; 0; 0; 0; 1; 1; 1; 1; 1];
     Xte := [200; 201; 202; 203; 204; 205; 206; 207; 208; 209]%nat;
     Y_fine_te := [0; 1; 2; 3; 4; 5; 6; 7; 8; 9];
     Y_coarse_te := [0; 0; 0; 0; 0; 1; 1; 1; 1; 1] |}.

(** Before the taxonomy is built: no cache file yet. *)
Definition fresh : world nat (list (string * list string)) :=
  {| _load_cifar100 := Ok raw;
     _load_cifar10 := Raise IOError;
     cifar100_meta := Ok (fine_label_names, coarse_label_names);
     load_cifar100_prefeaturized := Raise IOError;
     files := ∅ |}.

(** With the taxonomy in the cache. *)
Definition cached : world nat (list (string * list string)) :=
  DataUtils.dump_coarse_to_fine_map T fresh.

End Scenario.

(** ** Small corpora for the normalizer

    CIFAR-10 shaped worlds whose images have a single entry. *)

Module Pixels.
Local Open Scope R_scope.

Definition corpus (X_train : list (list R)) (y_train : list Z)
    (X_test : list (list R)) (y_test : list Z) : world (list R) unit :=
  {| _load_cifar100 := Raise IOError;
     _load_cifar10 :=
       Ok {| Xtr10 := X_train; Ytr10 := y_train;
             Xte10 := X_test; Yte10 := y_test |};
     cifar100_meta := Raise IOError;
     load_cifar100_prefeaturized := Raise IOError;
     files := ∅ |}.

(** Two corpora that differ in their second training image only. *)
Definition dark_X : list (list R) := [[0]; [0]].
Definition lit_X : list (list R) := [[0]; [2]].
Definition dark : world (list R) unit := corpus dark_X [3; 4]%Z [[1]] [5]%Z.
Definition lit : world (list R) unit := corpus lit_X [3; 4]%Z [[1]] [5]%Z.

(** The corpus [lit] with other labels and another test image. *)
Definition lit' : world (list R) unit := corpus lit_X [8; 9]%Z [[6]] [7]%Z.

(** A corpus of identical images. *)
Definition flat_X : list (list R) := [[5]; [5]].
Definition flat : world (list R) unit := corpus flat_X [3; 4]%Z [[7]] [5]%Z.

End Pixels.

(** ** pipeline.py: preloading weights and the command line

    Standard output is left out here: the [print]s of these functions
    show on no result. *)

Module Preload.

(** [sub in s] for two strings: [sub] starts at some position of [s]. *)
Fixpoint py_str_in (sub s : string) : bool :=
  String.prefix sub s ||
  match s with
  | EmptyString => false
  | String _ s' => py_str_in sub s'
  end.

(** [get_weights_to_preload_function(model_id, checkpoint_model_id,
    is_training)(existing_var_op_name)]: the name under which the variable
    is looked up in the checkpoint, or [None] to leave it out. *)
Definition get_weights_to_preload_function (model_id : string)
    (checkpoint_model_id : option string) (is_training : bool)
    (existing_var_op_name : string) : option string :=
  if negb is_training then Some existing_var_op_name
  else if bool_decide (checkpoint_model_id = Some model_id)
  then Some existing_var_op_name
  else if py_str_in "unique" existing_var_op_name then None
  else Some existing_var_op_name.

End Preload.

Module Cli.

(** How [read_commandline_args] ends. *)
Inductive outcome (A : Type) : Type :=
  | Returned (a : A)
  | SystemExit (code : option Z)
  | AssertionFailed (msg : string).
Arguments Returned {A} a.
Arguments SystemExit {A} code.
Arguments AssertionFailed {A} msg.

(** The loop over the pairs [getopt] has produced. *)
Fixpoint scan_opts (opts : list (string * string))
    (mode model_id checkpoint_model_id : option string)
    : outcome (option string * option string * option string) :=
  match opts with
  | [] => Returned (mode, model_id, checkpoint_model_id)
  | (o, a) :: rest =>
      if bool_decide (o ∈ ["-h"; "--help"]) then SystemExit None
      else if bool_decide (o ∈ ["-t"; "--train_or_test_mode"]) then
        scan_opts rest (Some a) model_id checkpoint_model_id
      else if bool_decide (o ∈ ["-m"; "--model_id"]) then
        scan_opts rest mode (Some a) checkpoint_model_id
      else if bool_decide (o ∈ ["-c"; "--ckpt_model_id"]) then
        scan_opts rest mode model_id (Some a)
      else AssertionFailed "unhandled option"
  end.

(** [read_commandline_args()], given what
    [getopt.getopt(sys.argv[1:], "ht:m:d:c:", ...)] did: [None] when it
    raised [GetoptError], the option pairs and the remaining arguments
    otherwise. *)
Definition read_commandline_args
    (getopt : option (list (string * string) * list string))
    : outcome (string * string * option string) :=
  match getopt with
  | None => SystemExit (Some 2)
  | Some (opts, args) =>
      match scan_opts opts None None None with
      | Returned (mode, model_id, checkpoint_model_id) =>
          Returned (default "train" mode, default "simple_cnn" model_id,
                    checkpoint_model_id)
      | SystemExit code => SystemExit code
      | AssertionFailed msg => AssertionFailed msg
      end
  end.

(** The names of the options that carry a value. *)
Abbreviation mode_options := ["-t"; "--train_or_test_mode"].
Abbreviation model_options := ["-m"; "--model_id"].
Abbreviation ckpt_options := ["-c"; "--ckpt_model_id"].
Abbreviation value_options :=
  ["-t"; "--train_or_test_mode"; "-m"; "--model_id"; "-c"; "--ckpt_model_id"].

(** The values given for an option, in the order of the command line. *)
Definition values (names : list string) (opts : list (string * string))
    : list string :=
  snd <$> filter (fun oa => oa.1 ∈ names) opts.

End Cli.

(** ** data_utils.py: decoding the corpus files

    A batch file is the dictionary it unpickles to; [data] holds one row
    of bytes per image, three colour planes of 32 x 32 one after the
    other. *)

Module RawCorpus.

Record batch100 : Type := {
  batch_label100 : string;
  data100 : list (list Z);
  fine_labels : list Z;
  coarse_labels : list Z
}.

Record batch10 : Type := {
  batch_label10 : string;
  data10 : list (list Z);
  labels10 : list Z
}.

Record disk : Type := {
  files100 : gmap string batch100;
  files10 : gmap string batch10
}.

Definition CIFAR10_DIR : string := "../data/cifar-10-batches-py".
Definition CIFAR100_DIR : string := "../data/cifar-100-python".

(** [os.path.join(a, b)] for a directory [a] without trailing slash and a
    relative [b]. *)
Definition path_join (a b : string) : string := a +:+ "/" +:+ b.

(** The rows of [flat] cut into [count] pieces of [n] entries. *)
Fixpoint chunks {A : Type} (n count : nat) (flat : list A) : list (list A) :=
  match count with
  | O => []
  | S k => take n flat :: chunks n k (drop n flat)
  end.

(** [X.reshape(num_samples, 3, 32, 32)], each image kept as the flat list
    of its 3072 entries: numpy refuses when the sizes do not match. *)
Definition reshape_images {A : Type} (num_samples : Z) (X : list (list A))
    : result (list (list A)) :=
  let flat := concat X in
  if decide (Z.of_nat (length flat) = num_samples * 3072) then
    Ok (chunks 3072 (Z.to_nat num_samples) flat)
  else Raise ValueError.

(** [.transpose(0, 2, 3, 1)] on one image: entry [(h, w, c)] of the
    result is entry [(c, h, w)] of the argument. *)
Definition transpose_image {A : Type} (image : list A) : list A :=
  h ← seq 0 32; w ← seq 0 32; c ← seq 0 3;
  option_list (image !! (c * 1024 + h * 32 + w)%nat).

(** [X.reshape(num_samples, 3, 32, 32).transpose(0,2,3,1).astype("float")] *)
Definition decode_images (num_samples : Z) (X : list (list Z))
    : result (list (list R)) :=
  images ← reshape_images num_samples X;
  Ok (fmap (M := list)
        (fun image : list Z => fmap (M := list) IZR (transpose_image image))
        images).

(** The [num_samples] of [_load_cifar100_batch], by the batch label. *)
Definition expected_samples (batch_label : string) : Z :=
  if bool_decide (batch_label = "training batch 1 of 1") then 50000
  else if bool_decide (batch_label = "testing batch 1 of 1") then 10000
  else 0.

(** [_load_cifar100_batch(filename)] *)
Definition _load_cifar100_batch (d : disk) (filename : string)
    : result (list (list R) * list Z * list Z) :=
  match files100 d !! filename with
  | None => Raise IOError
  | Some datadict =>
      let num_samples := expected_samples (batch_label100 datadict) in
      X ← decode_images num_samples (data100 datadict);
      Ok (X, fine_labels datadict, coarse_labels datadict)
  end.

(** [_load_cifar100(ROOT)] *)
Definition _load_cifar100 (d : disk) (ROOT : string)
    : result (cifar100_raw (list R)) :=
  '(Xtr, Y_fine_tr, Y_coarse_tr) ← _load_cifar100_batch d (path_join ROOT "train");
  '(Xte, Y_fine_te, Y_coarse_te) ← _load_cifar100_batch d (path_join ROOT "test");
  Ok {| Xtr := Xtr; Y_fine_tr := Y_fine_tr; Y_coarse_tr := Y_coarse_tr;
        Xte := Xte; Y_fine_te := Y_fine_te; Y_coarse_te := Y_coarse_te |}.

(** [_load_cifar10_batch(filename)] *)
Definition _load_cifar10_batch (d : disk) (filename : string)
    : result (list (list R) * list Z) :=
  match files10 d !! filename with
  | None => Raise IOError
  | Some datadict =>
      X ← decode_images 10000 (data10 datadict);
      Ok (X, labels10 datadict)
  end.

(** ['data_batch_%d' % (b, )] for [b] from 1 to 5 *)
Definition data_batch (b : nat) : string :=
  "data_batch_" +:+ String (ascii_of_nat (48 + b)) EmptyString.

(** The loop of [_load_cifar10] over the batch numbers: [xs] and [ys]
    grow by one array each. *)
Fixpoint load_batches (d : disk) (ROOT : string) (bs : list nat)
    (xs : list (list (list R))) (ys : list (list Z))
    : result (list (list (list R)) * list (list Z)) :=
  match bs with
  | [] => Ok (xs, ys)
  | b :: rest =>
      '(X, Y) ← _load_cifar10_batch d (path_join ROOT (data_batch b));
      load_batches d ROOT rest (xs ++ [X]) (ys ++ [Y])
  end.

(** [_load_cifar10(ROOT)] *)
Definition _load_cifar10 (d : disk) (ROOT : string)
    : result (cifar10_raw (list R)) :=
  '(xs, ys) ← load_batches d ROOT (seq 1 5) [] [];
  let Xtr := concat xs in
  let Ytr := concat ys in
  '(Xte, Yte) ← _load_cifar10_batch d (path_join ROOT "test_batch");
  Ok {| Xtr10 := Xtr; Ytr10 := Ytr; Xte10 := Xte; Yte10 := Yte |}.

(** A world whose raw loaders read the two corpus directories of a disk;
    it has no label names, no prefeaturized set and no cache. *)
Definition mount {blob : Type} (d : disk) : world (list R) blob :=
  Build_world (list R) blob
    (_load_cifar100 d CIFAR100_DIR) (_load_cifar10 d CIFAR10_DIR)
    (Raise IOError) (Raise IOError) ∅.

(** A disk with one CIFAR-100 file that holds no image. *)
Definition empty_batch : batch100 :=
  {| batch_label100 := "nothing"; data100 := [];
     fine_labels := [7]; coarse_labels := [] |}.

(** A CIFAR-100 training file cut short after two images worth of bytes. *)
Definition short_batch : batch100 :=
  {| batch_label100 := "training batch 1 of 1";
     data100 := [replicate 3072 0; replicate 3072 0];
     fine_labels := [1; 2]; coarse_labels := [0; 0] |}.

Definition short_disk : disk :=
  {| files100 := {[ path_join CIFAR100_DIR "train" := short_batch ]};
     files10 := ∅ |}.

(** A CIFAR-100 file with another batch label: no image, one label pair. *)
Definition stray_batch : batch100 :=
  {| batch_label100 := "batch 1 of 2"; data100 := [];
     fine_labels := [7]; coarse_labels := [3] |}.

Definition stray_disk : disk :=
  {| files100 := {[ path_join CIFAR100_DIR "train" := stray_batch;
                    path_join CIFAR100_DIR "test" := stray_batch ]};
     files10 := ∅ |}.

(** A CIFAR-10 batch file of 10000 images, each the bytes 0 to 255 over
    and over, and a disk that holds it under the six file names of the
    corpus. *)
Definition ramp_row : list Z :=
  (fun i : nat => Z.of_nat i `mod` 256) <$> seq 0 3072.

Definition ramp_labels : list Z := replicate (Z.to_nat 10000) 3.

Definition ramp_batch : batch10 :=
  {| batch_label10 := "training batch 1 of 5";
     data10 := replicate (Z.to_nat 10000) ramp_row;
     labels10 := ramp_labels |}.

Definition batch_names : list string :=
  (data_batch <$> seq 1 5) ++ ["test_batch"].

Definition ramp_disk : disk :=
  {| files100 := ∅;
     files10 := gset_to_gmap ramp_batch
                  (list_to_set (path_join CIFAR10_DIR <$> batch_names)) |}.

(** The images of [ramp_batch], decoded. *)
Definition ramp_images : list (list R) :=
  fmap (M := list)
    (fun image : list Z => fmap (M := list) IZR (transpose_image image))
    (data10 ramp_batch).

(** What [_load_cifar10] makes of [ramp_disk]: the training batches one
    after the other, and the test batch. *)
Definition ramp_raw : cifar10_raw (list R) :=
  {| Xtr10 := concat (replicate 5 ramp_images);
     Ytr10 := concat (replicate 5 ramp_labels);
     Xte10 := ramp_images;
     Yte10 := ramp_labels |}.

End RawCorpus.

(** The raw loaders of the world [w] are the ones that read the disk
    [d]. *)
Definition reads_corpus {blob : Type} (w : world (list R) blob)
    (d : RawCorpus.disk) : Prop :=
  _load_cifar100 w = RawCorpus._load_cifar100 d RawCorpus.CIFAR100_DIR ∧
  _load_cifar10 w = RawCorpus._load_cifar10 d RawCorpus.CIFAR10_DIR.

(** ** Training and testing ([pipeline.py])

    The calls into tflearn, TensorFlow, scikit-learn, the [models] package
    and [utils] are the fields of a [backend]; what [pipeline.py] does
    between them is embedded.  Printing is left out. *)

Module Driver.

(** How a run can end early. *)
Inductive stop : Type :=
  | Raised (e : exn)
  | KeyError
  | SystemExit (code : option Z).

Inductive run (A : Type) : Type :=
  | Done (a : A)
  | Stopped (s : stop).
Arguments Done {A} a.
Arguments Stopped {A} s.

#[global] Instance run_ret : MRet run := @Done.
#[global] Instance run_bind : MBind run := fun A B f m =>
  match m with Done a => f a | Stopped s => Stopped s end.

Definition lift {A : Type} (r : result A) : run A :=
  match r with Ok a => Done a | Raise e => Stopped (Raised e) end.

Definition DATASET_TO_N_CLASSES : gmap string Z :=
  {[ "cifar10" := 10; "cifar100_coarse" := 20; "cifar100_fine" := 100 ]}.

(** An entry of [ALL_MODEL_DICTS]; the dataset of one entry is [None]. *)
Record model_dict : Type := {
  network_type : string;
  dataset : option string
}.

Definition ALL_MODEL_DICTS : gmap string model_dict :=
  list_to_map [
    ("simple_cnn", {| network_type := "simple_cnn"; dataset := Some "cifar10" |});
    ("simple_cnn_cifar100_joint",
     {| network_type := "simple_cnn"; dataset := None |});
    ("simple_cnn_cifar100_coarse",
     {| network_type := "simple_cnn"; dataset := Some "cifar100_coarse" |});
    ("simple_cnn_cifar100_fine",
     {| network_type := "simple_cnn"; dataset := Some "cifar100_fine" |});
    ("simple_cnn_extended1_cifar100_fine",
     {| network_type := "simple_cnn_extended1";
        dataset := Some "cifar100_fine" |});
    ("lenet_cnn_cifar100_coarse",
     {| network_type := "lenet_cnn"; dataset := Some "cifar100_coarse" |});
    ("vggnet_cnn_cifar100_coarse",
     {| network_type := "vggnet_cnn"; dataset := Some "cifar100_coarse" |});
    ("lenet_cnn_cifar100_fine",
     {| network_type := "lenet_cnn"; dataset := Some "cifar100_fine" |});
    ("vggnet_cnn_cifar100_fine",
     {| network_type := "vggnet_cnn"; dataset := Some "cifar100_fine" |});
    ("pyramid_cifar100",
     {| network_type := "pyramid"; dataset := Some "cifar100_joint" |})
  ].

(** [table[key]] for a table with string keys; the key may be [None]. *)
Definition getitem {V : Type} (table : gmap string V) (key : option string)
    : run V :=
  match key ≫= (table !!.) with
  | Some v => Done v
  | None => Stopped KeyError
  end.

(** [Y[:, j]]: a 1-D array has no second axis. *)
Definition np_column (j : nat) (Y : labels) : run labels :=
  match Y with
  | Labels2 rows =>
      Done (Labels1 ((fun row : Z * Z => if j is O then row.1 else row.2)
                       <$> rows))
  | Labels1 _ => Stopped (Raised IndexError)
  end.

(** [np.concatenate((a, b), axis=1)] of two matrices *)
Definition np_concatenate1 (a b : list (list R)) : run (list (list R)) :=
  if decide (length a = length b) then Done (zip_with app a b)
  else Stopped (Raised ValueError).

(** The libraries [pipeline.py] calls. *)
Record backend (Network Model : Type) : Type := {
  (** [<module>.build_network(dims)] of the [models] package, with the
      keyword [get_hidden_reps] where it is passed *)
  build_network : string → option (list Z) → option bool → run Network;
  (** [check_if_path_exists_or_create(path)] of [utils] *)
  check_if_path_exists_or_create : string → run unit;
  (** [tflearn.DNN(network)], with the three directories when they are
      passed *)
  DNN : Network → option (string * string * string) → run Model;
  (** [tf.train.latest_checkpoint(path)] *)
  latest_checkpoint : string → option string;
  (** [os.path.isfile(path)] *)
  isfile : string → bool;
  (** [model.load(checkpoint, weights_only=True, verbose=True,
      variable_name_map=f)] *)
  model_load : Model → string → (string → option string) → run Model;
  (** [datetime.datetime.now().strftime(...)] *)
  now : string;
  (** the [n]-th [shuffle(X, Y)] of the run *)
  shuffle : nat → list (list R) → labels → list (list R) * labels;
  (** [to_categorical(Y, n_classes)] *)
  to_categorical : labels → Z → run (list (list R));
  (** [model.fit(X, Y, ..., run_id=run_id, ...)] *)
  fit : Model → list (list R) → list (list R) → string → run unit;
  (** [model.predict(X)] *)
  predict : Model → list (list R) → run (list (list R));
  (** [np.argmax(A, axis=1)] *)
  argmax1 : list (list R) → run (list Z);
  (** [accuracy_score(pred, truth)] *)
  accuracy_score : list Z → list Z → run R
}.
Arguments build_network {Network Model}.
Arguments check_if_path_exists_or_create {Network Model}.
Arguments DNN {Network Model}.
Arguments latest_checkpoint {Network Model}.
Arguments isfile {Network Model}.
Arguments model_load {Network Model}.
Arguments now {Network Model}.
Arguments shuffle {Network Model}.
Arguments to_categorical {Network Model}.
Arguments fit {Network Model}.
Arguments predict {Network Model}.
Arguments argmax1 {Network Model}.
Arguments accuracy_score {Network Model}.

Section Run.
Context {blob : Type} `{Pickle blob} {Network Model : Type}.
Variable w : world (list R) blob.
Variable tf : backend Network Model.

(** [load_network(network_type, n_classes, pyramid_output_dims,
    get_hidden_reps)] *)
Definition load_network (network_type : string) (n_classes : Z)
    (pyramid_output_dims : option (list Z)) (get_hidden_reps : bool)
    : run Network :=
  if bool_decide (network_type = "simple_cnn") then
    build_network tf "simple_cnn" (Some [n_classes]) (Some get_hidden_reps)
  else if bool_decide (network_type = "lenet_cnn") then
    build_network tf "lenet_cnn" (Some [n_classes]) None
  else if bool_decide (network_type = "lenet_small_cnn") then
    build_network tf "lenet_small_cnn" (Some [n_classes]) None
  else if bool_decide (network_type = "vggnet_cnn") then
    build_network tf "vggnet_cnn" (Some [n_classes]) None
  else if bool_decide (network_type = "simple_cnn_extended1") then
    build_network tf "simple_cnn_extended1" (Some [n_classes])
      (Some get_hidden_reps)
  else if bool_decide (network_type = "pyramid") then
    build_network tf "joint_pyramid_cnn" pyramid_output_dims
      (Some get_hidden_reps)
  else Stopped (SystemExit None).

(** The truth value of a string or [None]. *)
Definition truthy (s : option string) : bool :=
  match s with
  | Some (String _ _) => true
  | _ => false
  end.

(** [load_model(model_id, n_classes, pyramid_output_dims, is_training,
    checkpoint_model_id, get_hidden_reps)] *)
Definition load_model (model_id : string) (n_classes : Z)
    (pyramid_output_dims : option (list Z)) (is_training : bool)
    (checkpoint_model_id : option string) (get_hidden_reps : bool)
    : run Model :=
  if xorb is_training get_hidden_reps then
    model_dict ← getitem ALL_MODEL_DICTS (Some model_id);
    let tensorboard_dir := "../tensorboard_logs/" +:+ model_id +:+ "/" in
    let checkpoint_path := "../checkpoints/" +:+ model_id +:+ "/" in
    let best_checkpoint_path := "../best_checkpoints/" +:+ model_id +:+ "/" in
    _ ← check_if_path_exists_or_create tf tensorboard_dir;
    _ ← check_if_path_exists_or_create tf checkpoint_path;
    _ ← check_if_path_exists_or_create tf best_checkpoint_path;
    network ← load_network (network_type model_dict) n_classes
                pyramid_output_dims get_hidden_reps;
    model ← (if is_training then
               DNN tf network
                 (Some (tensorboard_dir, checkpoint_path, best_checkpoint_path))
             else DNN tf network None);
    if truthy checkpoint_model_id then
      let start_checkpoint_path :=
        "../checkpoints/" +:+ default "" checkpoint_model_id +:+ "/" in
      let checkpoint := latest_checkpoint tf start_checkpoint_path in
      if truthy checkpoint && isfile tf (default "" checkpoint) then
        model_load tf model (default "" checkpoint)
          (Preload.get_weights_to_preload_function model_id
             checkpoint_model_id is_training)
      else Done model
    else Done model
  else Stopped (Raised AssertionError).

(** [load_data(dataset, num_training, num_test)] as [pipeline.py]
    redefines it *)
Definition load_data (dataset : option string) (num_training num_test : Z)
    : run (list (list R) * list (list R) * list (list R) * list (list R)) :=
  '(X, Y, X_test, Y_test) ←
    (if bool_decide (dataset = Some "cifar10") then
       s ← lift (DataUtils.load_cifar w num_training 0 num_test
                   "cifar10" true).2;
       Done (DataUtils.s_X_train s, DataUtils.s_y_train s,
             DataUtils.s_X_test s, DataUtils.s_y_test s)
     else if bool_decide (dataset = Some "cifar100_coarse") then
       s ← lift (DataUtils.load_cifar w num_training 0 num_test
                   "cifar100" true).2;
       Y ← np_column 1 (DataUtils.s_y_train s);
       Y_test ← np_column 1 (DataUtils.s_y_test s);
       Done (DataUtils.s_X_train s, Y, DataUtils.s_X_test s, Y_test)
     else if bool_decide (dataset = Some "cifar100_fine") then
       s ← lift (DataUtils.load_cifar w num_training 0 num_test
                   "cifar100" true).2;
       Y ← np_column 0 (DataUtils.s_y_train s);
       Y_test ← np_column 0 (DataUtils.s_y_test s);
       Done (DataUtils.s_X_train s, Y, DataUtils.s_X_test s, Y_test)
     else Stopped (SystemExit None));
  n_classes ← getitem DATASET_TO_N_CLASSES dataset;
  let '(X, Y) := shuffle tf 0 X Y in
  Y ← to_categorical tf Y n_classes;
  let '(X_test, Y_test) := shuffle tf 1 X_test Y_test in
  Y_test ← to_categorical tf Y_test n_classes;
  Done (X, Y, X_test, Y_test).

(** [train_model(model_id, dataset, checkpoint_model_id)] *)
Definition train_model (model_id : string) (dataset : option string)
    (checkpoint_model_id : option string) : run unit :=
  n_classes ← getitem DATASET_TO_N_CLASSES dataset;
  let run_id := model_id +:+ "_" +:+ now tf in
  model ← load_model model_id n_classes None true checkpoint_model_id false;
  '(X, Y, X_test, Y_test) ← load_data dataset 50000 10000;
  fit tf model X Y run_id.

(** [train_pyramid_model(model_id, dataset, checkpoint_model_id)]; a
    dataset [None] is no dataset [load_data_pyramid] knows.  With
    [joint_only] the loader hands back a pair or raises, so the last
    branch of the [match] is never taken. *)
Definition train_pyramid_model (model_id : string) (dataset : option string)
    (checkpoint_model_id : option string) : run unit :=
  let coarse_dim := 20 in
  let fine_dim := 100 in
  sub ← lift (match dataset with
              | Some dataset => Pipeline.load_data_pyramid w dataset "joint_only"
              | None => Raise UnboundLocalError
              end);
  match sub with
  | DataUtils.SubsetJoint X_train_joint y_train_joint =>
      let '(X_train_joint, y_train_joint) :=
        shuffle tf 0 X_train_joint (Labels2 y_train_joint) in
      y_train_fine ← np_column 0 y_train_joint;
      y_train_coarse ← np_column 1 y_train_joint;
      y_train_fine ← to_categorical tf y_train_fine fine_dim;
      y_train_coarse ← to_categorical tf y_train_coarse coarse_dim;
      y_train_joint ← np_concatenate1 y_train_coarse y_train_fine;
      model ← load_model model_id 10 (Some [coarse_dim; fine_dim]) true
                checkpoint_model_id false;
      let run_id := model_id +:+ "_" +:+ now tf in
      fit tf model X_train_joint y_train_joint run_id
  | _ => Stopped (Raised ValueError)
  end.

(** [test_model(model_id, dataset)]; the result is the accuracy it
    prints. *)
Definition test_model (model_id : string) (dataset : option string) : run R :=
  '(X, Y, X_test, Y_test) ← load_data dataset 50000 10000;
  n_classes ← getitem DATASET_TO_N_CLASSES dataset;
  model ← load_model model_id n_classes None false (Some model_id) false;
  pred_test_probs ← predict tf model X_test;
  pred_test ← argmax1 tf pred_test_probs;
  truth ← argmax1 tf Y_test;
  accuracy_score tf pred_test truth.

(** [main()], given what [getopt] did with the command line *)
Definition main (getopt : option (list (string * string) * list string))
    : run unit :=
  match Cli.read_commandline_args getopt with
  | Cli.Returned (mode, model_id, checkpoint_model_id) =>
      model_dict ← getitem ALL_MODEL_DICTS (Some model_id);
      let dataset := dataset model_dict in
      if bool_decide (mode = "train") then
        if bool_decide (model_id = "pyramid_cifar100") then
          train_pyramid_model model_id dataset checkpoint_model_id
        else train_model model_id dataset checkpoint_model_id
      else if bool_decide (mode = "test") then
        _ ← test_model model_id dataset; Done ()
      else Done ()
  | Cli.SystemExit code => Stopped (SystemExit code)
  | Cli.AssertionFailed _ => Stopped (Raised AssertionError)
  end.

End Run.

(** A backend in which every library call fails. *)
Definition offline : backend unit unit := {|
  build_network _ _ _ := Stopped (Raised IOError);
  check_if_path_exists_or_create _ := Stopped (Raised IOError);
  DNN _ _ := Stopped (Raised IOError);
  latest_checkpoint _ := None;
  isfile _ := false;
  model_load _ _ _ := Stopped (Raised IOError);
  now := "01-01-2017_00-00-00";
  shuffle _ X Y := (X, Y);
  to_categorical _ _ := Stopped (Raised IOError);
  fit _ _ _ _ := Stopped (Raised IOError);
  predict _ _ := Stopped (Raised IOError);
  argmax1 _ := Stopped (Raised IOError);
  accuracy_score _ _ := Stopped (Raised IOError)
|}.

End Driver.

(** * Properties *)

(** ** Results and Python indexing *)

Lemma bind_Ok_inv {A B} (r : result A) (k : A → result B) (b : B) :
  r ≫= k = Ok b → ∃ a, r = Ok a ∧ k a = Ok b.
Proof. destruct r as [a|e]; simpl; [eauto | discriminate]. Qed.

Lemma py_index_nonneg {A} (l : list A) (i : nat) :
  py_index l (Z.of_nat i) =
    match l !! i with Some x => Ok x | None => Raise IndexError end.
Proof.
  unfold py_index. destruct (l !! i) as [x|] eqn:Hi.
  - pose proof (lookup_lt_Some _ _ _ Hi).
    rewrite decide_True by lia. by rewrite Nat2Z.id, Hi.
  - apply lookup_ge_None in Hi.
    rewrite decide_False by lia. rewrite decide_False by lia. done.
Qed.

Lemma py_index_error {A} (l : list A) (i : Z) (e : exn) :
  py_index l i = Raise e → e = IndexError.
Proof.
  unfold py_index. repeat case_decide;
    repeat match goal with |- context [?l !! ?i] => destruct (l !! i) end;
    congruence.
Qed.

(** ** The partitioner: the three global sets *)

Module PartitionFacts.
Import DataUtils.

Lemma fifth_of_short_bucket (l : list string) :
  (length l < 5)%nat → py_index l 4 = Raise IndexError.
Proof.
  intros Hl. change 4 with (Z.of_nat 4). rewrite py_index_nonneg.
  by rewrite (lookup_ge_None_2 l 4) by lia.
Qed.

Lemma fifth_of_full_bucket (l : list string) :
  (5 ≤ length l)%nat → ∃ x, l !! 4%nat = Some x ∧ py_index l 4 = Ok x.
Proof.
  intros Hl. destruct (lookup_lt_is_Some_2 l 4) as [x Hx]; [lia|].
  exists x. split; [done|]. change 4 with (Z.of_nat 4).
  by rewrite py_index_nonneg, Hx.
Qed.

Lemma label_sets_loop_short items acc :
  Exists (fun item => (length item.2 < 5)%nat) items →
  label_sets_loop items acc = Raise IndexError.
Proof.
  intros Hex. revert acc.
  induction items as [|[c l] items IH]; intros acc; [by inversion Hex|].
  simpl. destruct (decide (length l < 5)%nat) as [Hl|Hl].
  - by rewrite fifth_of_short_bucket.
  - destruct (fifth_of_full_bucket l) as (x & _ & ->); [lia|]. simpl.
    apply IH. inversion Hex; subst; [done | assumption].
Qed.

(** The sets the loop has collected when every bucket has a fifth name. *)
Lemma label_sets_loop_full items acc :
  Forall (fun item => (5 ≤ length item.2)%nat) items →
  ∃ only_test,
    label_sets_loop items acc =
      Ok {| fine_labels_joint :=
              fine_labels_joint acc ∪
              ⋃ ((fun item => list_to_set (take 2 item.2)) <$> items);
            fine_labels_gate :=
              fine_labels_gate acc ∪
              ⋃ ((fun item => list_to_set (take 4 item.2)) <$> items);
            fine_labels_only_test := only_test |} ∧
    ∀ x, x ∈ only_test ↔
         x ∈ fine_labels_only_test acc ∨
         ∃ item fifth, item ∈ items ∧ item.2 !! 4%nat = Some fifth ∧
                       x ∈ chars fifth.
Proof.
  intros Hall. revert acc.
  induction Hall as [|[c l] items Hl _ IH]; intros acc.
  - exists (fine_labels_only_test acc). simpl. split.
    + destruct acc; simpl. by rewrite !union_empty_r_L.
    + intros x. split; [by left|]. intros [?|(item & ? & Hin & _)]; [done|].
      by apply elem_of_nil in Hin.
  - simpl in Hl. destruct (fifth_of_full_bucket l Hl) as (fifth & H4 & Hidx).
    simpl. rewrite Hidx. simpl.
    edestruct IH as (only_test & -> & Hot). exists only_test. split.
    + simpl. by rewrite !(assoc_L (∪)).
    + intros x. rewrite Hot. simpl. rewrite elem_of_union, elem_of_list_to_set.
      split.
      * intros [[?|?]|(item & f & Hin & Hf & Hx)].
        -- by left.
        -- right. exists (c, l), fifth. split_and!; [by left|done|done].
        -- right. exists item, f. split_and!; [by right|done|done].
      * intros [?|(item & f & Hin & Hf & Hx)]; [by left; left|].
        apply elem_of_cons in Hin as [->|Hin].
        -- simpl in Hf. rewrite H4 in Hf. injection Hf as ->. by left; right.
        -- right. exists item, f. done.
Qed.

Lemma full_taxonomy_items (T : taxonomy) :
  (∀ c l, T !! c = Some l → (5 ≤ length l)%nat) →
  Forall (fun item => (5 ≤ length item.2)%nat) (map_to_list T).
Proof.
  intros HT. apply Forall_forall. intros [c l] Hin.
  apply elem_of_map_to_list in Hin. simpl. eauto.
Qed.

(** On a taxonomy whose buckets all have five names or more, the
    partitioner's joint and gate sets are the specification's. *)
Lemma compute_label_sets_full (T : taxonomy) :
  (∀ c l, T !! c = Some l → (5 ≤ length l)%nat) →
  ∃ sets, compute_label_sets T = Ok sets ∧
          fine_labels_joint sets = Spec.joint_set T ∧
          fine_labels_gate sets = Spec.gate_set T ∧
          ∀ x, x ∈ fine_labels_only_test sets ↔
               ∃ c l fifth, T !! c = Some l ∧ l !! 4%nat = Some fifth ∧
                            x ∈ chars fifth.
Proof.
  intros HT. unfold compute_label_sets.
  edestruct (label_sets_loop_full (map_to_list T)) as (ot & -> & Hot);
    [by apply full_taxonomy_items|].
  eexists. split; [done|]. simpl. split_and!.
  - apply union_empty_l_L.
  - apply union_empty_l_L.
  - intros x. rewrite Hot. simpl. split.
    + intros [Hx|([c l] & f & Hin & Hf & Hx)]; [by apply not_elem_of_empty in Hx|].
      apply elem_of_map_to_list in Hin. by exists c, l, f.
    + intros (c & l & f & Hin & Hf & Hx). right. exists (c, l), f.
      by rewrite elem_of_map_to_list.
Qed.

Lemma compute_label_sets_short (T : taxonomy) c l :
  T !! c = Some l → (length l < 5)%nat →
  compute_label_sets T = Raise IndexError.
Proof.
  intros Hc Hl. apply label_sets_loop_short, Exists_exists.
  exists (c, l). by rewrite elem_of_map_to_list.
Qed.

End PartitionFacts.

(** ** The partitioner: the two scans *)

Module ScanFacts.
Import DataUtils.

Section Scans.
Context {Image : Type}.
Implicit Types (X : list Image) (rows : list (Z * Z)).
Implicit Types (samples : list (Image * (Z * Z))).

Lemma named_in_Ok names (S : gset string) (row : Z * Z) name :
  py_index names row.1 = Ok name →
  Spec.named_in names S row = bool_decide (name ∈ S).
Proof. intros Hn. unfold Spec.named_in, Spec.fine_name. by rewrite Hn. Qed.

(** The training scan over the indices [k, k + length samples) when
    [samples] are the rows found there and every fine id has a name:
    each of the five lists grows by a stable filter of [samples]. *)
Lemma train_loop_spec names sets X rows samples k acc :
  (∀ j s, samples !! j = Some s →
          X !! (k + j)%nat = Some s.1 ∧ rows !! (k + j)%nat = Some s.2) →
  Forall (fun s => is_Some (Spec.fine_name names s.2)) samples →
  let in_joint s := Spec.named_in names (fine_labels_joint sets) s.2 = true in
  let in_gate s := Spec.named_in names (fine_labels_gate sets) s.2 = true in
  train_loop names sets X (Labels2 rows) (seq k (length samples)) acc =
    Ok {| tl_X_joint := tl_X_joint acc ++ (fst <$> filter in_joint samples);
          tl_y_joint := tl_y_joint acc ++ (snd <$> filter in_joint samples);
          tl_X_gate := tl_X_gate acc ++ (fst <$> filter in_gate samples);
          tl_y_gate := tl_y_gate acc ++ (snd <$> filter in_gate samples);
          tl_flags :=
            tl_flags acc ++
            ((fun s => if Spec.named_in names (fine_labels_joint sets) s.2
                       then 0 else 1) <$> filter in_gate samples) |}.
Proof.
  intros Hrows Hnames in_joint in_gate. revert k acc Hrows.
  induction Hnames as [|[x row] samples Hname _ IH]; intros k acc Hrows.
  - simpl. destruct acc; simpl. by rewrite !app_nil_r.
  - destruct (Hrows 0%nat (x, row) eq_refl) as [HX Hrow].
    rewrite Nat.add_0_r in HX, Hrow. simpl in HX, Hrow.
    destruct Hname as [name Hname]. unfold Spec.fine_name in Hname. simpl in Hname.
    destruct (py_index names row.1) as [name'|] eqn:Hidx; [|discriminate].
    injection Hname as ->.
    cbn [length seq train_loop np_item]. unfold np_row. rewrite Hrow.
    cbn [mbind result_bind]. rewrite Hidx.
    cbn [mbind result_bind]. rewrite HX.
    cbn [mbind result_bind]. rewrite IH; last first.
    { intros j s Hj. replace (S k + j)%nat with (k + S j)%nat by lia.
      by apply (Hrows (S j)). }
    assert (Hj : Spec.named_in names (fine_labels_joint sets) row
                 = bool_decide (name ∈ fine_labels_joint sets))
      by by apply named_in_Ok.
    assert (Hg : Spec.named_in names (fine_labels_gate sets) row
                 = bool_decide (name ∈ fine_labels_gate sets))
      by by apply named_in_Ok.
    assert (HJ' : in_joint (x, row) ↔ name ∈ fine_labels_joint sets).
    { unfold in_joint. cbn [snd]. rewrite Hj. apply bool_decide_eq_true. }
    assert (HG' : in_gate (x, row) ↔ name ∈ fine_labels_gate sets).
    { unfold in_gate. cbn [snd]. rewrite Hg. apply bool_decide_eq_true. }
    destruct (decide (name ∈ fine_labels_joint sets)) as [HJ|HJ];
      destruct (decide (name ∈ fine_labels_gate sets)) as [HG|HG];
      first [rewrite (filter_cons_True in_joint) by tauto
            |rewrite (filter_cons_False in_joint) by tauto];
      first [rewrite (filter_cons_True in_gate) by tauto
            |rewrite (filter_cons_False in_gate) by tauto];
      cbn [fmap list_fmap fst snd]; rewrite ?Hj;
      rewrite ?(bool_decide_eq_true_2 _ HJ), ?(bool_decide_eq_false_2 _ HJ),
              ?(bool_decide_eq_true_2 _ HG), ?(bool_decide_eq_false_2 _ HG);
      cbn [tl_X_joint tl_y_joint tl_X_gate tl_y_gate tl_flags];
      rewrite <- ?app_assoc; reflexivity.
Qed.

(** The test scan asks whether an integer is among the names: never. *)
Lemma test_loop_spec sets rows n k flags :
  (k + n ≤ length rows)%nat →
  test_loop sets (Labels2 rows) (seq k n) flags = Ok (flags ++ replicate n 1).
Proof.
  revert k flags. induction n as [|n IH]; intros k flags Hk.
  - simpl. by rewrite app_nil_r.
  - destruct (lookup_lt_is_Some_2 rows k) as [row Hrow]; [lia|].
    cbn [seq test_loop np_item]. unfold np_row. rewrite Hrow.
    cbn [mbind result_bind py_in]. rewrite IH by lia.
    by rewrite <- app_assoc.
Qed.

Lemma zip_lookup_both X rows j (s : Image * (Z * Z)) :
  zip X rows !! j = Some s → X !! j = Some s.1 ∧ rows !! j = Some s.2.
Proof.
  revert rows j. induction X as [|x X IH]; intros [|r rows] [|j]; simpl;
    try discriminate.
  - by intros [= <-].
  - apply IH.
Qed.

End Scans.

End ScanFacts.

(** ** The partitioner as a whole *)

Module PyramidFacts.
Import DataUtils PartitionFacts ScanFacts.

Section Pyramid.
Context {Image blob : Type} `{Pickle blob}.
Implicit Types (w : world Image blob) (raw : cifar100_raw Image).

Lemma load_cifar_train_test_cifar100 w raw :
  _load_cifar100 w = Ok raw →
  length (Y_fine_tr raw) = length (Y_coarse_tr raw) →
  length (Y_fine_te raw) = length (Y_coarse_te raw) →
  load_cifar_train_test w "cifar100" =
    Ok (Xtr raw, Labels2 (zip (Y_fine_tr raw) (Y_coarse_tr raw)),
        Xte raw, Labels2 (zip (Y_fine_te raw) (Y_coarse_te raw))).
Proof.
  intros Hraw Htr Hte. unfold load_cifar_train_test.
  rewrite bool_decide_eq_true_2
    by apply list_elem_of_further, list_elem_of_here.
  rewrite bool_decide_eq_false_2 by discriminate.
  rewrite Hraw. cbn [mbind result_bind]. unfold stack_labels.
  by rewrite !decide_True by done.
Qed.

(** What a run returns when the corpus is well formed, the taxonomy has
    five names or more in every bucket and every training fine id has a
    name. *)
Lemma load_cifar_pyramid_spec w raw names cnames (T : taxonomy) :
  _load_cifar100 w = Ok raw →
  length (Y_fine_tr raw) = length (Y_coarse_tr raw) →
  length (Y_fine_te raw) = length (Y_coarse_te raw) →
  (length (Xtr raw) ≤ length (Y_fine_tr raw))%nat →
  (length (Xte raw) ≤ length (Y_fine_te raw))%nat →
  cifar100_meta w = Ok (names, cnames) →
  load_coarse_to_fine_map w = Ok T →
  map_Forall (fun _ l => (5 ≤ length l)%nat) T →
  let train := zip (Xtr raw) (zip (Y_fine_tr raw) (Y_coarse_tr raw)) in
  Forall (fun s => is_Some (Spec.fine_name names s.2)) train →
  let in_joint s := Spec.named_in names (Spec.joint_set T) s.2 = true in
  let in_gate s := Spec.named_in names (Spec.gate_set T) s.2 = true in
  load_cifar_pyramid w =
    Ok {| X_train_joint := fst <$> filter in_joint train;
          y_train_joint := snd <$> filter in_joint train;
          X_train_gate := fst <$> filter in_gate train;
          y_train_gate := snd <$> filter in_gate train;
          fine_or_coarse_train_gate :=
            (fun s => Spec.routing_flag names T s.2) <$> filter in_gate train;
          X_test := Xte raw;
          y_test := Labels2 (zip (Y_fine_te raw) (Y_coarse_te raw));
          fine_or_coarse_test := replicate (length (Xte raw)) 1 |}.
Proof.
  intros Hraw Htr Hte HXtr HXte Hmeta HT Hfull train Hnames in_joint in_gate.
  unfold load_cifar_pyramid.
  rewrite (load_cifar_train_test_cifar100 w raw) by done.
  cbn [mbind result_bind]. rewrite HT. cbn [mbind result_bind].
  unfold load_cifar100_label_names. rewrite Hmeta. cbn [mbind result_bind].
  destruct (compute_label_sets_full T) as (sets & -> & HJ & HG & _); [done|].
  cbn [mbind result_bind].
  assert (Hlen : length (Xtr raw) = length train).
  { unfold train. rewrite !length_zip. lia. }
  rewrite Hlen.
  rewrite (train_loop_spec names sets (Xtr raw) _ train); [|
    intros j s Hj; by apply zip_lookup_both | done].
  cbn [mbind result_bind].
  rewrite test_loop_spec by (rewrite length_zip; lia).
  cbn [mbind result_bind]. rewrite HJ, HG. reflexivity.
Qed.

End Pyramid.

(** C4. The gate-training output is the stable filter of the training
    corpus by "fine-label name in the global gate set": the samples pass in
    scan order, and the flag at each position is 0 when that sample's name
    is in the global joint set and 1 otherwise.  The run succeeds whenever
    the corpus is well formed, every bucket of the cached taxonomy has its
    five names and every training fine id has a name. *)
Theorem gate_training_is_stable_filter {Image blob : Type} `{Pickle blob}
    (w : world Image blob) (raw : cifar100_raw Image)
    (names cnames : list string) (T : taxonomy) :
  _load_cifar100 w = Ok raw →
  length (Y_fine_tr raw) = length (Y_coarse_tr raw) →
  length (Y_fine_te raw) = length (Y_coarse_te raw) →
  (length (Xtr raw) ≤ length (Y_fine_tr raw))%nat →
  (length (Xte raw) ≤ length (Y_fine_te raw))%nat →
  cifar100_meta w = Ok (names, cnames) →
  load_coarse_to_fine_map w = Ok T →
  map_Forall (fun _ l => (5 ≤ length l)%nat) T →
  let train := zip (Xtr raw) (zip (Y_fine_tr raw) (Y_coarse_tr raw)) in
  Forall (fun s => is_Some (Spec.fine_name names s.2)) train →
  let in_gate s := Spec.named_in names (Spec.gate_set T) s.2 = true in
  ∃ p, load_cifar_pyramid w = Ok p ∧
       X_train_gate p = fst <$> filter in_gate train ∧
       y_train_gate p = snd <$> filter in_gate train ∧
       fine_or_coarse_train_gate p =
         (fun s => if Spec.named_in names (Spec.joint_set T) s.2 then 0 else 1)
           <$> filter in_gate train ∧
       length (fine_or_coarse_train_gate p) = length (X_train_gate p).
Proof.
  intros Hraw Htr Hte HXtr HXte Hmeta HT Hfull train Hnames in_gate.
  eexists. split.
  - by eapply load_cifar_pyramid_spec.
  - cbn [X_train_gate y_train_gate fine_or_coarse_train_gate].
    split_and!; try reflexivity. by rewrite !length_fmap.
Qed.

Ltac scenario_hyps :=
  repeat match goal with
  | |- _ ∧ _ => split
  | |- @eq (result _) _ _ => vm_compute; reflexivity
  | |- @eq nat _ _ => reflexivity
  | |- (_ ≤ _)%nat => vm_compute; lia
  | |- map_Forall _ _ => apply (bool_decide_unpack _); vm_compute; exact I
  | |- Forall _ _ => repeat constructor; vm_compute; eauto
  end.

Lemma gate_training_is_stable_filter_witness :
  ∃ p, load_cifar_pyramid Scenario.cached = Ok p ∧
       X_train_gate p = [100; 101; 102; 103; 105; 106; 107; 108]%nat ∧
       fine_or_coarse_train_gate p = [0; 0; 1; 1; 0; 0; 1; 1].
Proof.
  destruct (gate_training_is_stable_filter Scenario.cached Scenario.raw
              Scenario.fine_label_names Scenario.coarse_label_names Scenario.T)
    as (p & Hp & HX & _ & Hf & _); [scenario_hyps..|].
  exists p. split_and!; [exact Hp | rewrite HX | rewrite Hf]; by vm_compute.
Defined.

(** C3. A bucket with fewer than five names makes the partitioner raise
    [IndexError] while it collects the label sets, before any scan: no run
    on such a taxonomy returns outputs, and when the corpus and the label
    names load, the error raised is that [IndexError]. *)
Theorem short_bucket_aborts_partition {Image blob : Type} `{Pickle blob}
    (w : world Image blob) (T : taxonomy) (c : string) (l : list string) :
  load_coarse_to_fine_map w = Ok T →
  T !! c = Some l →
  (length l < 5)%nat →
  compute_label_sets T = Raise IndexError ∧
  (∀ p, load_cifar_pyramid w ≠ Ok p) ∧
  (∀ d names, load_cifar_train_test w "cifar100" = Ok d →
              load_cifar100_label_names w = Ok names →
              load_cifar_pyramid w = Raise IndexError).
Proof.
  intros HT Hc Hl.
  pose proof (compute_label_sets_short T c l Hc Hl) as Hsets.
  split_and!; [done | |].
  - intros p. unfold load_cifar_pyramid.
    destruct (load_cifar_train_test w "cifar100") as [[[[??]?]?]|]; [|done].
    cbn [mbind result_bind]. rewrite HT. cbn [mbind result_bind].
    destruct (load_cifar100_label_names w) as [[??]|]; [|done].
    cbn [mbind result_bind]. by rewrite Hsets.
  - intros [[[??]?]?] [??] Hd Hn. unfold load_cifar_pyramid.
    rewrite Hd. cbn [mbind result_bind]. rewrite HT. cbn [mbind result_bind].
    rewrite Hn. cbn [mbind result_bind]. by rewrite Hsets.
Qed.

Lemma short_bucket_aborts_partition_witness :
  load_cifar_pyramid
    (dump_coarse_to_fine_map {[ "c0" := ["f0"; "f1"; "f2"; "f3"] ]} Scenario.fresh)
  = Raise IndexError.
Proof.
  eapply (short_bucket_aborts_partition _
            {[ "c0" := ["f0"; "f1"; "f2"; "f3"] ]} "c0" ["f0"; "f1"; "f2"; "f3"]);
    [by vm_compute | by vm_compute | vm_compute; lia | by vm_compute
    | by vm_compute].
Defined.

(** The flags of the test scan are all 1, whatever the taxonomy and the
    test labels are. *)
Lemma test_loop_flags_one sets y_test indices flags flags' :
  test_loop sets y_test indices flags = Ok flags' →
  flags' = flags ++ replicate (length indices) 1.
Proof.
  revert flags. induction indices as [|i indices IH]; intros flags; simpl.
  - intros [= <-]. by rewrite app_nil_r.
  - destruct (np_item y_test i) as [row|]; simpl; [|done].
    intros Hrest. apply IH in Hrest as ->. by rewrite <- app_assoc.
Qed.

Lemma test_flags_all_one {Image blob : Type} `{Pickle blob}
    (w : world Image blob) (p : pyramid Image) :
  load_cifar_pyramid w = Ok p →
  fine_or_coarse_test p = replicate (length (X_test p)) 1.
Proof.
  unfold load_cifar_pyramid. intros Hp.
  apply bind_Ok_inv in Hp as ([[[X y] Xt] yt] & _ & Hp).
  apply bind_Ok_inv in Hp as (T & _ & Hp).
  apply bind_Ok_inv in Hp as ([fine_names coarse_names] & _ & Hp).
  apply bind_Ok_inv in Hp as (sets & _ & Hp).
  apply bind_Ok_inv in Hp as (tr & _ & Hp).
  apply bind_Ok_inv in Hp as (flags & Hflags & Hp).
  injection Hp as <-. simpl. apply test_loop_flags_one in Hflags as ->.
  by rewrite length_seq.
Qed.

(** C1, on the scenario.  The run succeeds and returns one flag per test
    sample; the first test sample has fine id 0, whose name [f0] is in the
    global joint set, and its flag is 1 (as is every other flag). *)
Lemma test_flag_of_joint_sample :
  ∃ p, load_cifar_pyramid Scenario.cached = Ok p ∧
       length (fine_or_coarse_test p) = length (X_test p) ∧
       np_item (y_test p) 0 = Ok (0, 0) ∧
       Spec.fine_name Scenario.fine_label_names (0, 0) = Some "f0" ∧
       "f0" ∈ Spec.joint_set Scenario.T ∧
       fine_or_coarse_test p !! 0%nat = Some 1 ∧
       fine_or_coarse_test p = replicate 10 1.
Proof.
  eexists. split; [by vm_compute|].
  split_and!; by vm_compute.
Qed.

(** C2, on the scenario.  The partitioner's test-only set holds the
    characters of the fifth names, not the fifth names. *)
Lemma test_only_set_of_scenario :
  ∃ sets, compute_label_sets Scenario.T = Ok sets ∧
          Spec.test_only_set Scenario.T = {[ "f4"; "f9" ]} ∧
          fine_labels_only_test sets = {[ "f"; "4"; "9" ]} ∧
          fine_labels_only_test sets ≠ Spec.test_only_set Scenario.T.
Proof.
  eexists. split; [by vm_compute|].
  split_and!; by vm_compute.
Qed.

(** A bucket of five sorted names whose fifth name shares a character
    with a one-character name of the gate set: the two sets meet. *)
Lemma test_only_set_meets_gate_set :
  ∃ sets, compute_label_sets {[ "c0" := ["a"; "b"; "c"; "d"; "ea"] ]} = Ok sets ∧
          "a" ∈ fine_labels_gate sets ∧ "a" ∈ fine_labels_only_test sets.
Proof.
  eexists. split; [by vm_compute|].
  split; apply (bool_decide_unpack _); by vm_compute.
Qed.

End PyramidFacts.

(** ** The subset dispatch *)

Module DispatchFacts.
Import DataUtils.

(** C10. With a recognised dataset whose data load, a [return_subset]
    that is none of the four known values makes [load_data_pyramid] fall
    off its end and return [None]; so does the redefinition in
    [pipeline.py], which recognises [cifar100_joint] only. *)
Theorem unknown_subset_returns_None {Image blob : Type} `{Pickle blob}
    (w : world Image blob) (dataset return_subset : string)
    (p : pyramid Image) :
  return_subset ∉ ["all"; "joint_only"; "gate_only"; "test_only"] →
  (dataset = "cifar100_joint" → load_cifar_pyramid w = Ok p →
     DataUtils.load_data_pyramid w dataset return_subset = Ok PyNone ∧
     Pipeline.load_data_pyramid w dataset return_subset = Ok PyNone) ∧
  (dataset = "cifar100_joint_prefeaturized" →
   load_cifar100_prefeaturized w = Ok p →
     DataUtils.load_data_pyramid w dataset return_subset = Ok PyNone).
Proof.
  intros Hrs.
  assert (return_subset ≠ "all" ∧ return_subset ≠ "joint_only" ∧
          return_subset ≠ "gate_only" ∧ return_subset ≠ "test_only")
    as (H1 & H2 & H3 & H4).
  { rewrite !not_elem_of_cons in Hrs. tauto. }
  split.
  - intros -> Hp. unfold DataUtils.load_data_pyramid, Pipeline.load_data_pyramid.
    rewrite (bool_decide_eq_true_2 ("cifar100_joint" = "cifar100_joint")) by done.
    rewrite Hp. cbn [fmap result_fmap mbind result_bind].
    by rewrite !bool_decide_eq_false_2 by done.
  - intros -> Hp. unfold DataUtils.load_data_pyramid.
    rewrite (bool_decide_eq_false_2
               ("cifar100_joint_prefeaturized" = "cifar100_joint"))
      by discriminate.
    rewrite (bool_decide_eq_true_2
               ("cifar100_joint_prefeaturized" = "cifar100_joint_prefeaturized"))
      by done.
    rewrite Hp. cbn [mbind result_bind].
    by rewrite !bool_decide_eq_false_2 by done.
Qed.

Lemma unknown_subset_returns_None_witness :
  DataUtils.load_data_pyramid Scenario.cached "cifar100_joint" "train_only"
    = Ok PyNone ∧
  Pipeline.load_data_pyramid Scenario.cached "cifar100_joint" "train_only"
    = Ok PyNone.
Proof.
  eapply (unknown_subset_returns_None Scenario.cached "cifar100_joint"
            "train_only"); [|reflexivity|by vm_compute].
  rewrite !not_elem_of_cons. split_and!; [done..|apply not_elem_of_nil].
Defined.

End DispatchFacts.

(** ** The taxonomy cache *)

Module CacheFacts.
Import DataUtils.

#[local] Instance items_pickle_round_trip :
  PickleRoundTrip (list (string * list string)).
Proof. intros T. simpl. f_equal. apply list_to_map_to_list. Qed.

(** C6. Given that [pickle] reads back what it wrote, loading the cache
    after a taxonomy was dumped into it returns that taxonomy: the same
    coarse keys, and under each key the same sequence of fine names in the
    same order.  In particular the taxonomy [create_coarse_to_fine_map]
    returns is the one a later [load_coarse_to_fine_map] finds. *)
Theorem taxonomy_cache_round_trip {Image blob : Type} `{PickleRoundTrip blob}
    (w : world Image blob) (T : taxonomy) :
  (∃ T', load_coarse_to_fine_map (dump_coarse_to_fine_map T w) = Ok T' ∧
         dom T' = dom T ∧ ∀ c, T' !! c = T !! c) ∧
  (∀ w', create_coarse_to_fine_map w = Ok (T, w') →
         load_coarse_to_fine_map w' = Ok T).
Proof.
  assert (Hload : ∀ w0 : world Image blob,
            load_coarse_to_fine_map (dump_coarse_to_fine_map T w0) = Ok T).
  { intros w0. unfold load_coarse_to_fine_map, dump_coarse_to_fine_map, write_file.
    cbn [files]. rewrite lookup_insert_eq. apply pickle_loads_dumps. }
  split.
  - exists T. by rewrite Hload.
  - intros w' Hcreate. unfold create_coarse_to_fine_map in Hcreate.
    apply bind_Ok_inv in Hcreate as ([[[X y] Xt] yt] & _ & Hcreate).
    apply bind_Ok_inv in Hcreate as ([fine_names coarse_names] & _ & Hcreate).
    apply bind_Ok_inv in Hcreate as (rows & _ & Hcreate).
    apply bind_Ok_inv in Hcreate as (sets & _ & Hcreate).
    injection Hcreate as <- <-. apply Hload.
Qed.

Lemma taxonomy_cache_round_trip_witness :
  load_coarse_to_fine_map (dump_coarse_to_fine_map Scenario.T Scenario.fresh)
    = Ok Scenario.T.
Proof.
  destruct (taxonomy_cache_round_trip (H0 := items_pickle_round_trip)
              Scenario.fresh Scenario.T) as [(T' & HT' & _ & Heq) _].
  rewrite HT'. f_equal. by apply map_eq.
Defined.

End CacheFacts.

(** ** The taxonomy builder *)

Module TaxonomyFacts.
Import DataUtils.

(** *** The order on names *)

Lemma str_compare_lt_trans (a b c : string) :
  String.compare a b = Lt → String.compare b c = Lt → String.compare a c = Lt.
Proof.
  intros Hab Hbc.
  apply OrderedTypeEx.String_as_OT.cmp_lt in Hab, Hbc.
  apply OrderedTypeEx.String_as_OT.cmp_lt.
  by eapply OrderedTypeEx.String_as_OT.lt_trans.
Qed.

Lemma str_le_cases (a b : string) :
  str_le a b ↔ String.compare a b = Lt ∨ a = b.
Proof.
  unfold str_le, String.leb. split.
  - destruct (String.compare a b) eqn:E; [|by left|done].
    right. by apply String.compare_eq_iff.
  - intros [-> | ->]; [done|].
    destruct (String.compare b b) eqn:E; [done..|].
    pose proof (String.compare_antisym b b) as Hanti.
    rewrite E in Hanti. discriminate.
Qed.

#[local] Instance str_le_total : Total str_le.
Proof. intros a b. apply String.leb_total. Qed.

#[local] Instance str_le_trans : Transitive str_le.
Proof.
  intros a b c. rewrite !str_le_cases.
  intros [Hab| ->] [Hbc| ->]; eauto using str_compare_lt_trans.
Qed.

#[local] Instance str_le_antisym : AntiSymm (=) str_le.
Proof. intros a b. apply String.leb_antisym. Qed.

(** *** [sorted] *)

Lemma sorted_StronglySorted (s : gset string) : StronglySorted str_le (sorted s).
Proof. apply StronglySorted_merge_sort; apply _. Qed.

Lemma sorted_Permutation (s : gset string) : sorted s ≡ₚ elements s.
Proof. apply merge_sort_Permutation. Qed.

Lemma sorted_NoDup (s : gset string) : NoDup (sorted s).
Proof. rewrite sorted_Permutation. apply NoDup_elements. Qed.

Lemma elem_of_sorted (s : gset string) (x : string) : x ∈ sorted s ↔ x ∈ s.
Proof. rewrite sorted_Permutation. apply elem_of_elements. Qed.

(** Only one sequence is sorted, duplicate-free and holds given names. *)
Lemma sorted_unique (s : gset string) (l : list string) :
  Sorted str_le l → NoDup l → (∀ x, x ∈ l ↔ x ∈ s) → l = sorted s.
Proof.
  intros Hs Hnd Hel. apply (Sorted_unique str_le); [done| |].
  - apply Sorted_merge_sort; apply _.
  - apply NoDup_Permutation; [done|apply sorted_NoDup|].
    intros x. by rewrite Hel, elem_of_sorted.
Qed.

(** *** The collecting loop *)

Section Collect.
Context (fine_label_names coarse_label_names : list string).
Implicit Types (rows : list (Z * Z)) (m : gmap string (gset string)).

Abbreviation collect :=
  (collect_fine_labels fine_label_names coarse_label_names).
Abbreviation observed := (Spec.observed fine_label_names coarse_label_names).

Abbreviation named := (Spec.named fine_label_names coarse_label_names).

Lemma add_if_new (bucket : gset string) (f : string) :
  (if bool_decide (f ∉ bucket) then bucket ∪ {[f]} else bucket)
  = bucket ∪ {[f]}.
Proof.
  case_bool_decide as Hf; [done|].
  apply set_eq. intros x. rewrite elem_of_union, elem_of_singleton.
  split; [by left|]. by intros [?| ->].
Qed.

Lemma collect_cons row rows m :
  collect (row :: rows) m =
    coarse_label ← py_index coarse_label_names row.2;
    fine_label ← py_index fine_label_names row.1;
    collect rows (<[coarse_label :=
                      default ∅ (m !! coarse_label) ∪ {[fine_label]}]> m).
Proof.
  simpl. destruct (py_index coarse_label_names row.2) as [c|]; [|done].
  simpl. destruct (py_index fine_label_names row.1) as [f|]; [|done].
  simpl. by rewrite add_if_new.
Qed.

Lemma observed_cons row rows c f :
  observed (row :: rows) c f ↔
    (py_index coarse_label_names row.2 = Ok c ∧
     py_index fine_label_names row.1 = Ok f) ∨ observed rows c f.
Proof.
  unfold Spec.observed. split.
  - intros (r & Hin & Hc & Hf). apply elem_of_cons in Hin as [->|Hin].
    + by left.
    + right. by exists r.
  - intros [[Hc Hf]|(r & Hin & Hc & Hf)].
    + exists row. split; [by left|done].
    + exists r. split; [by right|done].
Qed.

Lemma collect_total rows m :
  Forall named rows → ∃ m', collect rows m = Ok m'.
Proof.
  intros Hall. revert m.
  induction Hall as [|row rows (c & f & Hc & Hf) _ IH]; intros m.
  - by exists m.
  - rewrite collect_cons, Hc. cbn [mbind result_bind]. rewrite Hf. apply IH.
Qed.

Lemma collect_error rows m e :
  collect rows m = Raise e → e = IndexError.
Proof.
  revert m. induction rows as [|row rows IH]; intros m; [done|].
  rewrite collect_cons.
  destruct (py_index coarse_label_names row.2) as [c|e1] eqn:Hc.
  - cbn [mbind result_bind].
    destruct (py_index fine_label_names row.1) as [f|e2] eqn:Hf.
    + apply IH.
    + intros [= <-]. by eapply py_index_error.
  - intros [= <-]. by eapply py_index_error.
Qed.

(** What the dictionary holds after the loop: a key for every coarse
    name that was there or was observed, and under it the names that
    were there or were observed under it. *)
Lemma collect_Ok rows m m' :
  collect rows m = Ok m' →
  ∀ c, (is_Some (m' !! c) ↔ is_Some (m !! c) ∨ ∃ f, observed rows c f) ∧
       (∀ f, f ∈ default ∅ (m' !! c) ↔
             f ∈ default ∅ (m !! c) ∨ observed rows c f).
Proof.
  revert m. induction rows as [|row rows IH]; intros m.
  - intros [= <-] c. split.
    + split; [by left|]. intros [?|(f & r & Hin & _)]; [done|].
      by apply elem_of_nil in Hin.
    + intros f. split; [by left|]. intros [?|(r & Hin & _)]; [done|].
      by apply elem_of_nil in Hin.
  - rewrite collect_cons. intros Hm'.
    apply bind_Ok_inv in Hm' as (c0 & Hc0 & Hm').
    apply bind_Ok_inv in Hm' as (f0 & Hf0 & Hm').
    intros c. destruct (IH _ Hm' c) as [IHkey IHval]. split.
    + rewrite IHkey. setoid_rewrite observed_cons.
      destruct (decide (c0 = c)) as [->|Hne].
      * rewrite lookup_insert_eq. split.
        -- intros _. right. exists f0. by left.
        -- intros _. left. by eexists.
      * rewrite lookup_insert_ne by done. split.
        -- intros [?|(f & Hobs)]; [by left|]. right. exists f. by right.
        -- intros [?|(f & [[Hc _]|Hobs])]; [by left| |right; by exists f].
           congruence.
    + intros f. rewrite IHval, observed_cons.
      destruct (decide (c0 = c)) as [->|Hne].
      * rewrite lookup_insert_eq. cbn [default from_option]; unfold Datatypes.id.
        rewrite elem_of_union, elem_of_singleton. split.
        -- intros [[?| ->]|?]; [by left|right; by left|right; by right].
        -- intros [?|[[_ Hf]|?]]; [by left; left| |by right].
           left; right. congruence.
      * rewrite lookup_insert_ne by done. split.
        -- intros [?|?]; [by left|right; by right].
        -- intros [?|[[Hc _]|?]]; [by left| |by right]. congruence.
Qed.

(** Two rows may be scanned in either order. *)
Lemma collect_swap row1 row2 rows m :
  collect (row1 :: row2 :: rows) m = collect (row2 :: row1 :: rows) m.
Proof.
  rewrite !collect_cons.
  destruct (py_index coarse_label_names row1.2) as [c1|e1] eqn:Hc1;
    cbn [mbind result_bind];
    [destruct (py_index fine_label_names row1.1) as [f1|e1] eqn:Hf1|];
    cbn [mbind result_bind]; rewrite ?collect_cons;
    (destruct (py_index coarse_label_names row2.2) as [c2|e2] eqn:Hc2;
     cbn [mbind result_bind];
     [destruct (py_index fine_label_names row2.1) as [f2|e2] eqn:Hf2|];
     cbn [mbind result_bind]); rewrite ?collect_cons, ?Hc1, ?Hf1;
    cbn [mbind result_bind];
    repeat match goal with
           | H : py_index _ _ = Raise ?e |- _ =>
               apply py_index_error in H; subst e
           end; try reflexivity.
  f_equal. destruct (decide (c1 = c2)) as [->|Hne].
  - rewrite !lookup_insert_eq, !insert_insert_eq.
    cbn [default from_option]; unfold Datatypes.id.
    by rewrite <- !(assoc_L (∪)), (comm_L (∪) {[f2]}).
  - rewrite !lookup_insert_ne by done. by apply insert_insert_ne.
Qed.

(** The scan order does not matter, for the dictionary or for the
    error. *)
Lemma collect_Permutation rows rows' :
  rows ≡ₚ rows' → ∀ m, collect rows m = collect rows' m.
Proof.
  induction 1 as [|row rows rows' _ IH|row1 row2 rows|rows1 rows2 rows3 _ IH1 _ IH2];
    intros m.
  - done.
  - rewrite !collect_cons.
    destruct (py_index coarse_label_names row.2); [|done].
    cbn [mbind result_bind].
    destruct (py_index fine_label_names row.1); [|done]. apply IH.
  - apply collect_swap.
  - by rewrite IH1.
Qed.

End Collect.

(** *** The builder *)

Lemma create_coarse_to_fine_map_unfold {Image blob : Type} `{Pickle blob}
    (w : world Image blob) (raw : cifar100_raw Image)
    (fine_label_names coarse_label_names : list string) :
  _load_cifar100 w = Ok raw →
  length (Y_fine_tr raw) = length (Y_coarse_tr raw) →
  length (Y_fine_te raw) = length (Y_coarse_te raw) →
  cifar100_meta w = Ok (fine_label_names, coarse_label_names) →
  create_coarse_to_fine_map w =
    sets ← collect_fine_labels fine_label_names coarse_label_names
              (zip (Y_fine_tr raw) (Y_coarse_tr raw)) ∅;
    Ok (sorted <$> sets, dump_coarse_to_fine_map (sorted <$> sets) w).
Proof.
  intros Hraw Htr Hte Hmeta. unfold create_coarse_to_fine_map.
  rewrite (PyramidFacts.load_cifar_train_test_cifar100 w raw) by done.
  cbn [mbind result_bind]. unfold load_cifar100_label_names. by rewrite Hmeta.
Qed.

(** C7. The taxonomy the builder returns has a key for exactly the coarse
    names observed in the training labels, and under each key the sorted,
    duplicate-free sequence of exactly the fine names observed under it;
    the builder returns it whenever the corpus loads and every label id
    has a name.  Scanning the same label rows in another order gives the
    same result. *)
Theorem taxonomy_sorted_and_scan_order_independent
    {Image blob : Type} `{Pickle blob}
    (w : world Image blob) (raw : cifar100_raw Image)
    (fine_label_names coarse_label_names : list string) :
  _load_cifar100 w = Ok raw →
  length (Y_fine_tr raw) = length (Y_coarse_tr raw) →
  length (Y_fine_te raw) = length (Y_coarse_te raw) →
  cifar100_meta w = Ok (fine_label_names, coarse_label_names) →
  let y_train := zip (Y_fine_tr raw) (Y_coarse_tr raw) in
  let observed := Spec.observed fine_label_names coarse_label_names y_train in
  (Forall (Spec.named fine_label_names coarse_label_names) y_train →
   ∃ T w', create_coarse_to_fine_map w = Ok (T, w') ∧
           (∀ c, is_Some (T !! c) ↔ ∃ f, observed c f) ∧
           (∀ c l, T !! c = Some l →
                   StronglySorted str_le l ∧ NoDup l ∧
                   ∀ f, f ∈ l ↔ observed c f)) ∧
  (∀ (w2 : world Image blob) (raw2 : cifar100_raw Image),
     _load_cifar100 w2 = Ok raw2 →
     length (Y_fine_tr raw2) = length (Y_coarse_tr raw2) →
     length (Y_fine_te raw2) = length (Y_coarse_te raw2) →
     cifar100_meta w2 = Ok (fine_label_names, coarse_label_names) →
     zip (Y_fine_tr raw2) (Y_coarse_tr raw2) ≡ₚ y_train →
     fst <$> create_coarse_to_fine_map w2 = fst <$> create_coarse_to_fine_map w).
Proof.
  intros Hraw Htr Hte Hmeta y_train observed. split.
  - intros Hnamed.
    rewrite (create_coarse_to_fine_map_unfold w raw fine_label_names
               coarse_label_names) by done.
    destruct (collect_total fine_label_names coarse_label_names y_train ∅ Hnamed)
      as [sets Hsets].
    fold y_train. rewrite Hsets. cbn [mbind result_bind].
    eexists _, _. split; [reflexivity|].
    pose proof (collect_Ok _ _ _ _ _ Hsets) as Hchar. split.
    + intros c. rewrite lookup_fmap, fmap_is_Some.
      destruct (Hchar c) as [-> _]. rewrite lookup_empty. split.
      * intros [[? [=]]|?]. done.
      * by right.
    + intros c l. rewrite lookup_fmap. intros Hl.
      apply fmap_Some in Hl as (s & Hs & ->). split_and!.
      * apply sorted_StronglySorted.
      * apply sorted_NoDup.
      * intros f. rewrite elem_of_sorted.
        destruct (Hchar c) as [_ Hval]. specialize (Hval f).
        rewrite Hs, lookup_empty in Hval. cbn [default from_option] in Hval.
        unfold Datatypes.id in Hval. rewrite Hval. split; [|by right].
        intros [Hf|?]; [by apply not_elem_of_empty in Hf|done].
  - intros w2 raw2 Hraw2 Htr2 Hte2 Hmeta2 Hperm.
    rewrite (create_coarse_to_fine_map_unfold w raw fine_label_names
               coarse_label_names) by done.
    rewrite (create_coarse_to_fine_map_unfold w2 raw2 fine_label_names
               coarse_label_names) by done.
    rewrite (collect_Permutation _ _ _ _ Hperm). fold y_train.
    by destruct (collect_fine_labels _ _ y_train ∅).
Qed.

Lemma taxonomy_sorted_and_scan_order_independent_witness :
  fst <$> create_coarse_to_fine_map Scenario.fresh = Ok Scenario.T.
Proof.
  destruct (taxonomy_sorted_and_scan_order_independent Scenario.fresh
              Scenario.raw Scenario.fine_label_names
              Scenario.coarse_label_names) as [Hbuild _];
    [by vm_compute..|].
  destruct Hbuild as (T & w' & Hcreate & _).
  { repeat constructor; vm_compute; eauto. }
  rewrite Hcreate. cbn [fmap result_fmap fst]. f_equal.
  assert (Hrun : fst <$> create_coarse_to_fine_map Scenario.fresh
                 = Ok Scenario.T) by by vm_compute.
  rewrite Hcreate in Hrun. by injection Hrun.
Defined.

End TaxonomyFacts.

(** ** The normalizer *)

Module NormalizerFacts.
Import DataUtils.

(** *** Subsampling *)

Lemma py_range_cons (a : Z) (n : nat) :
  py_range a (a + Z.of_nat (S n)) = a :: py_range (a + 1) (a + 1 + Z.of_nat n).
Proof.
  unfold py_range.
  replace (a + Z.of_nat (S n) - a) with (Z.of_nat (S n)) by lia.
  replace (a + 1 + Z.of_nat n - (a + 1)) with (Z.of_nat n) by lia.
  rewrite !Nat2Z.id. cbn [seq fmap list_fmap]. f_equal; [lia|].
  rewrite <- fmap_S_seq, <- list_fmap_compose. apply list_fmap_ext.
  intros _ k _. simpl. lia.
Qed.

Lemma np_take_range {A} (l : list A) (a b : nat) :
  (a + b ≤ length l)%nat →
  np_take l (py_range (Z.of_nat a) (Z.of_nat a + Z.of_nat b))
  = Ok (take b (drop a l)).
Proof.
  revert a. induction b as [|b IH]; intros a Hab.
  - unfold py_range. by replace (Z.of_nat a + Z.of_nat 0 - Z.of_nat a) with 0 by lia.
  - rewrite py_range_cons. cbn [np_take]. rewrite py_index_nonneg.
    destruct (lookup_lt_is_Some_2 l a) as [x Hx]; [lia|]. rewrite Hx.
    cbn [mbind result_bind].
    replace (Z.of_nat a + 1) with (Z.of_nat (S a)) by lia.
    rewrite IH by lia. cbn [mbind result_bind]. f_equal.
    rewrite (drop_S l x a Hx). done.
Qed.

Lemma labels_take_range (y : labels) (a b : nat) :
  (a + b ≤ labels_len y)%nat →
  labels_take y (py_range (Z.of_nat a) (Z.of_nat a + Z.of_nat b))
  = Ok (Spec.labels_rows a b y).
Proof.
  intros Hab. destruct y as [y|y]; simpl in *; by rewrite np_take_range.
Qed.

Lemma np_take_prefix {A} (l : list A) (n : nat) :
  (n ≤ length l)%nat → np_take l (py_range 0 (Z.of_nat n)) = Ok (take n l).
Proof. intros Hn. by apply (np_take_range l 0 n). Qed.

Lemma labels_take_prefix (y : labels) (n : nat) :
  (n ≤ labels_len y)%nat →
  labels_take y (py_range 0 (Z.of_nat n)) = Ok (Spec.labels_rows 0 n y).
Proof. intros Hn. by apply (labels_take_range y 0 n). Qed.

(** The three splits, for split sizes within the corpus. *)
Lemma subsample_spec (X_train : list (list R)) (y_train : labels)
    (X_test : list (list R)) (y_test : labels) (nt nv nte : nat) :
  (nt + nv ≤ length X_train)%nat → (nt + nv ≤ labels_len y_train)%nat →
  (nte ≤ length X_test)%nat → (nte ≤ labels_len y_test)%nat →
  subsample X_train y_train X_test y_test
    (Z.of_nat nt) (Z.of_nat nv) (Z.of_nat nte) =
  Ok {| s_X_train := take nt X_train;
        s_y_train := Spec.labels_rows 0 nt y_train;
        s_X_val := take nv (drop nt X_train);
        s_y_val := Spec.labels_rows nt nv y_train;
        s_X_test := take nte X_test;
        s_y_test := Spec.labels_rows 0 nte y_test |}.
Proof.
  intros H1 H2 H3 H4. unfold subsample.
  rewrite np_take_range, labels_take_range by lia. cbn [mbind result_bind].
  rewrite !np_take_prefix, !labels_take_prefix by lia.
  reflexivity.
Qed.

(** *** The two statistics *)

Section Statistics.
Local Open Scope R_scope.
Implicit Types (X : list (list R)) (l : list R).





(** [np.std] along the sample axis, at one position. *)
Lemma np_std1_column X (j : nat) :
  np_std1 (column j X) = Spec.position_std X j.
Proof.
  unfold np_std1, Spec.position_std, np_mean1, column, Spec.samples.
  rewrite !length_fmap. f_equal. f_equal.
  rewrite <- list_fmap_compose. unfold np_sum, Spec.total. f_equal.
  apply list_fmap_ext. intros _ row _. cbn [compose].
  rewrite pow2_abs. unfold np_sum. simpl. ring.
Qed.

(** [np.mean(np.std(X_train, axis=0))] is the mean over the positions of
    the per-position standard deviation. *)
Lemma std_deviation_spec X : np_mean1 (np_std_axis0 X) = Spec.scale X.
Proof.
  unfold np_mean1, np_std_axis0, Spec.scale, Spec.positions.
  rewrite length_fmap, length_seq. f_equal. unfold np_sum, Spec.total.
  f_equal. apply list_fmap_ext. intros _ j _. apply np_std1_column.
Qed.


(** No warning when the divisor is not zero. *)
Lemma np_idiv_quiet X (d : R) : d ≠ 0 → (np_idiv X d).1 = [].
Proof. intros Hd. unfold np_idiv. cbn [fst]. by destruct (Req_dec_T d 0). Qed.

End Statistics.

(** *** A run of [load_cifar] *)

Section Run.
Local Open Scope R_scope.
Context {blob : Type}.
Implicit Types (w : world (list R) blob).

(** Lines 137 to 143 are the body of [load_cifar_train_test]. *)
Lemma load_cifar_eps_unfold eps w nt nv nte dataset normalize
    X_train y_train X_test y_test :
  load_cifar_train_test w dataset = Ok (X_train, y_train, X_test, y_test) →
  load_cifar_eps eps w nt nv nte dataset normalize =
    let mean_image := np_mean X_train in
    let std_deviation := np_mean1 (np_std_axis0 X_train) in
    let out := [Printed mean_image; Printed std_deviation] in
    match subsample X_train y_train X_test y_test nt nv nte with
    | Raise e => (out, Raise e)
    | Ok s =>
        if normalize then
          let d := std_deviation + eps in
          (out ++ (np_idiv (np_isub (s_X_train s) mean_image) d).1
               ++ (np_idiv (np_isub (s_X_val s) mean_image) d).1
               ++ (np_idiv (np_isub (s_X_test s) mean_image) d).1,
           Ok {| s_X_train := (np_idiv (np_isub (s_X_train s) mean_image) d).2;
                 s_y_train := s_y_train s;
                 s_X_val := (np_idiv (np_isub (s_X_val s) mean_image) d).2;
                 s_y_val := s_y_val s;
                 s_X_test := (np_idiv (np_isub (s_X_test s) mean_image) d).2;
                 s_y_test := s_y_test s |})
        else (out, Ok s)
    end.
Proof.
  unfold load_cifar_train_test, load_cifar_eps.
  destruct (bool_decide (dataset ∈ ["cifar10"; "cifar100"])); [|done].
  intros ->. cbv zeta.
  destruct (subsample X_train y_train X_test y_test nt nv nte) as [s|e];
    [|done].
  destruct normalize; [|done]. reflexivity.
Qed.

End Run.



Lemma EPSILON_pos : (0 < EPSILON)%R.
Proof. unfold EPSILON. apply Rinv_0_lt_compat, pow_lt. lra. Qed.

Lemma total_zeros (l : list R) : Forall (fun x => x = 0%R) l → Spec.total l = 0%R.
Proof.
  induction 1 as [|x l -> _ IH]; [done|].
  unfold Spec.total in *. cbn [foldr]. rewrite IH. lra.
Qed.

Lemma scale_zero_variance (X : list (list R)) :
  (∀ j, (j < Spec.positions X)%nat → Spec.position_std X j = 0%R) →
  Spec.scale X = 0%R.
Proof.
  intros Hzero. unfold Spec.scale. rewrite total_zeros.
  - unfold Rdiv. apply Rmult_0_l.
  - apply Forall_fmap, Forall_forall. intros j Hj.
    apply elem_of_seq in Hj. apply Hzero. lia.
Qed.



(** [np.mean(np.std(X, axis=0))] is not [np.std(X)]: one sample with
    entries 0 and 2 has no spread along the sample axis, and spread 1 as a
    flat array. *)
Lemma scale_is_not_flat_std :
  np_mean1 (np_std_axis0 [[0; 2]]%R) = 0%R ∧ np_std1 (concat [[0; 2]]%R) = 1%R.
Proof.
  split.
  - rewrite std_deviation_spec. apply scale_zero_variance. intros j _.
    unfold Spec.position_std, Spec.total, Spec.samples. simpl.
    match goal with |- sqrt ?a = _ => replace a with 0%R by field end.
    apply sqrt_0.
  - unfold np_std1, np_mean1, np_sum. simpl.
    replace ((0 + (2 + 0)) / (1 + 1))%R with 1%R by lra.
    rewrite (Rabs_left (0 - 1)), (Rabs_right (2 - 1)) by lra.
    match goal with |- sqrt ?a = _ => replace a with 1%R by lra end.
    apply sqrt_1.
Qed.

(** *** Which data the statistics see *)

Lemma dark_statistics :
  np_mean Pixels.dark_X = 0%R ∧ np_mean1 (np_std_axis0 Pixels.dark_X) = 0%R.
Proof.
  split.
  - unfold np_mean, np_mean1, np_sum. simpl. lra.
  - rewrite std_deviation_spec. apply scale_zero_variance. intros j Hj.
    assert (j = 0%nat) as -> by (vm_compute in Hj; lia).
    unfold Spec.position_std, Spec.total, Spec.samples, Pixels.dark_X. simpl.
    match goal with |- sqrt ?a = _ => replace a with 0%R by field end.
    apply sqrt_0.
Qed.

Lemma lit_statistics :
  np_mean Pixels.lit_X = 1%R ∧ np_mean1 (np_std_axis0 Pixels.lit_X) = 1%R.
Proof.
  split.
  - unfold np_mean, np_mean1, np_sum. simpl. lra.
  - rewrite std_deviation_spec.
    unfold Spec.scale, Spec.position_std, Spec.total, Spec.samples,
      Spec.positions, Pixels.lit_X. simpl.
    match goal with |- context [sqrt ?a] => replace a with 1%R by field end.
    rewrite sqrt_1. lra.
Qed.



(** C5, as stated, fails.  The corpora [dark] and [lit] have the same first
    training image and the same test image; with one training and one
    validation sample the two runs return equal training tensors and equal
    test tensors, their validation tensors differ, and so do the mean and
    the scale they print.  (The runs do not normalize, so that the tensors
    returned are the splits themselves.) *)
Lemma validation_rows_change_statistics :
  ∃ s1 s2,
    load_cifar Pixels.dark 1 1 1 "cifar10" false
      = ([Printed 0%R; Printed 0%R], Ok s1) ∧
    load_cifar Pixels.lit 1 1 1 "cifar10" false
      = ([Printed 1%R; Printed 1%R], Ok s2) ∧
    s_X_train s1 = s_X_train s2 ∧ s_X_test s1 = s_X_test s2 ∧
    s_X_val s1 = [[0%R]] ∧ s_X_val s2 = [[2%R]] ∧
    Printed 0%R ≠ Printed 1%R.
Proof.
  destruct dark_statistics as [Hm1 Hs1], lit_statistics as [Hm2 Hs2].
  eexists _, _. split_and!.
  - unfold load_cifar.
    rewrite (load_cifar_eps_unfold _ Pixels.dark _ _ _ _ _ Pixels.dark_X
               (Labels1 [3; 4]) [[1%R]] (Labels1 [5])) by reflexivity.
    rewrite (subsample_spec _ _ _ _ 1 1 1) by (simpl; lia).
    cbv zeta. rewrite Hm1, Hs1. reflexivity.
  - unfold load_cifar.
    rewrite (load_cifar_eps_unfold _ Pixels.lit _ _ _ _ _ Pixels.lit_X
               (Labels1 [3; 4]) [[1%R]] (Labels1 [5])) by reflexivity.
    rewrite (subsample_spec _ _ _ _ 1 1 1) by (simpl; lia).
    cbv zeta. rewrite Hm2, Hs2. reflexivity.
  - reflexivity.
  - reflexivity.
  - reflexivity.
  - reflexivity.
  - intros [= H01]. lra.
Qed.

(** C5, amended.  The two numbers a run prints are computed from the
    training tensor as loaded, before the validation rows are taken out of
    it, and from nothing else: two runs that load equal training tensors
    print the same mean and the same scale, whatever their test tensors,
    labels, split sizes, [eps] and [normalize] flag are. *)
Theorem statistics_depend_on_loaded_training_tensor {blob : Type}
    (w1 w2 : world (list R) blob) (eps1 eps2 : R) (dataset1 dataset2 : string)
    (nt1 nv1 nte1 nt2 nv2 nte2 : Z) (normalize1 normalize2 : bool)
    (X_train : list (list R)) (y_train1 y_train2 : labels)
    (X_test1 X_test2 : list (list R)) (y_test1 y_test2 : labels) :
  load_cifar_train_test w1 dataset1 = Ok (X_train, y_train1, X_test1, y_test1) →
  load_cifar_train_test w2 dataset2 = Ok (X_train, y_train2, X_test2, y_test2) →
  let run1 := load_cifar_eps eps1 w1 nt1 nv1 nte1 dataset1 normalize1 in
  let run2 := load_cifar_eps eps2 w2 nt2 nv2 nte2 dataset2 normalize2 in
  take 2 run1.1 = [Printed (np_mean X_train);
                   Printed (np_mean1 (np_std_axis0 X_train))] ∧
  take 2 run2.1 = take 2 run1.1.
Proof.
  intros Hraw1 Hraw2 run1 run2.
  assert (Hprints : ∀ (w : world (list R) blob) eps nt nv nte dataset normalize
                      y_train X_test y_test,
            load_cifar_train_test w dataset
              = Ok (X_train, y_train, X_test, y_test) →
            take 2 (load_cifar_eps eps w nt nv nte dataset normalize).1
              = [Printed (np_mean X_train);
                 Printed (np_mean1 (np_std_axis0 X_train))]).
  { intros w eps nt nv nte dataset normalize y_train X_test y_test Hraw.
    rewrite (load_cifar_eps_unfold _ _ _ _ _ _ _ _ _ _ _ Hraw). cbv zeta.
    destruct (subsample _ _ _ _ _ _ _); [|done]. by destruct normalize. }
  unfold run1, run2.
  by rewrite (Hprints _ _ _ _ _ _ _ _ _ _ Hraw1), (Hprints _ _ _ _ _ _ _ _ _ _ Hraw2).
Qed.

Lemma statistics_depend_on_loaded_training_tensor_witness :
  take 2 (load_cifar Pixels.lit' 2 0 1 "cifar10" false).1
  = take 2 (load_cifar Pixels.lit 1 1 1 "cifar10" true).1.
Proof.
  apply (statistics_depend_on_loaded_training_tensor Pixels.lit Pixels.lit'
           EPSILON EPSILON "cifar10" "cifar10" 1 1 1 2 0 1 true false
           Pixels.lit_X (Labels1 [3; 4]) (Labels1 [8; 9])
           [[1%R]] [[6%R]] (Labels1 [5]) (Labels1 [7])); reflexivity.
Defined.

End NormalizerFacts.

(** ** The partitioner: what every returning run satisfies *)

Module PyramidMore.
Import DataUtils PartitionFacts ScanFacts PyramidFacts.

Section Inversion.
Context {Image blob : Type} `{Pickle blob}.
Implicit Types (w : world Image blob) (raw : cifar100_raw Image).
Implicit Types (X : list Image) (rows : list (Z * Z)).

Lemma load_cifar_train_test_cifar100_inv w X y Xt yt :
  load_cifar_train_test w "cifar100" = Ok (X, y, Xt, yt) →
  ∃ raw, _load_cifar100 w = Ok raw ∧
         length (Y_fine_tr raw) = length (Y_coarse_tr raw) ∧
         length (Y_fine_te raw) = length (Y_coarse_te raw) ∧
         X = Xtr raw ∧ y = Labels2 (zip (Y_fine_tr raw) (Y_coarse_tr raw)) ∧
         Xt = Xte raw ∧ yt = Labels2 (zip (Y_fine_te raw) (Y_coarse_te raw)).
Proof.
  unfold load_cifar_train_test.
  rewrite bool_decide_eq_true_2
    by apply list_elem_of_further, list_elem_of_here.
  rewrite bool_decide_eq_false_2 by discriminate.
  intros Hrun. apply bind_Ok_inv in Hrun as (raw & Hraw & Hrun).
  apply bind_Ok_inv in Hrun as (ytr & Htr & Hrun).
  apply bind_Ok_inv in Hrun as (yte & Hte & Hrun).
  unfold stack_labels in Htr, Hte.
  destruct (decide (length (Y_fine_tr raw) = length (Y_coarse_tr raw)));
    [|discriminate].
  destruct (decide (length (Y_fine_te raw) = length (Y_coarse_te raw)));
    [|discriminate].
  injection Htr as <-. injection Hte as <-. injection Hrun as <- <- <- <-.
  by exists raw.
Qed.

Lemma label_sets_loop_Ok_inv items acc sets :
  label_sets_loop items acc = Ok sets →
  Forall (fun item => (5 ≤ length item.2)%nat) items.
Proof.
  revert acc. induction items as [|[c l] items IH]; intros acc; [by constructor|].
  simpl. intros Hrun. apply bind_Ok_inv in Hrun as (fifth & Hfifth & Hrun).
  constructor; [|by eapply IH]. simpl.
  destruct (decide (5 ≤ length l)%nat) as [|Hshort]; [done|].
  rewrite fifth_of_short_bucket in Hfifth by lia. discriminate.
Qed.

Lemma compute_label_sets_Ok_inv (T : taxonomy) sets :
  compute_label_sets T = Ok sets →
  map_Forall (fun _ l => (5 ≤ length l)%nat) T.
Proof.
  intros Hrun c l Hc. apply label_sets_loop_Ok_inv in Hrun.
  rewrite Forall_forall in Hrun. apply (Hrun (c, l)).
  by apply elem_of_map_to_list.
Qed.

Lemma train_loop_Ok_inv names sets X rows indices acc acc' :
  train_loop names sets X (Labels2 rows) indices acc = Ok acc' →
  Forall (fun i => is_Some (X !! i) ∧
                   ∃ row, rows !! i = Some row ∧
                          is_Some (Spec.fine_name names row)) indices.
Proof.
  revert acc. induction indices as [|i indices IH]; intros acc; [by constructor|].
  cbn [train_loop np_item]. intros Hrun.
  apply bind_Ok_inv in Hrun as (row & Hrow & Hrun).
  apply bind_Ok_inv in Hrun as (name & Hname & Hrun).
  apply bind_Ok_inv in Hrun as (x & Hx & Hrun).
  constructor; [|by eapply IH].
  unfold np_row in Hrow, Hx.
  destruct (rows !! i) as [row'|] eqn:Hi; [|discriminate]. injection Hrow as ->.
  destruct (X !! i) as [x'|]; [|discriminate].
  split; [by eexists|]. exists row. split; [done|].
  unfold Spec.fine_name. rewrite Hname. by eexists.
Qed.

Lemma test_loop_Ok_inv sets rows indices flags flags' :
  test_loop sets (Labels2 rows) indices flags = Ok flags' →
  Forall (fun i => is_Some (rows !! i)) indices.
Proof.
  revert flags. induction indices as [|i indices IH]; intros flags;
    [by constructor|].
  cbn [test_loop np_item]. intros Hrun.
  apply bind_Ok_inv in Hrun as (row & Hrow & Hrun).
  constructor; [|by eapply IH].
  unfold np_row in Hrow. destruct (rows !! i); [by eexists|discriminate].
Qed.

(** An array indexed over all of [xrange(len(X))] is at least as long. *)
Lemma covered_length {A B} (X : list A) (rows : list B) :
  Forall (fun i => is_Some (rows !! i)) (seq 0 (length X)) →
  (length X ≤ length rows)%nat.
Proof.
  intros Hall. destruct (decide (length X ≤ length rows)%nat) as [|Hlt]; [done|].
  rewrite Forall_forall in Hall.
  destruct (Hall (length rows)) as [r Hr].
  - apply elem_of_seq. lia.
  - apply lookup_lt_Some in Hr. lia.
Qed.

(** A run that returns has met the conditions under which
    [load_cifar_pyramid_spec] describes its outputs. *)
Lemma load_cifar_pyramid_Ok_inv w p :
  load_cifar_pyramid w = Ok p →
  ∃ raw names cnames (T : taxonomy),
    _load_cifar100 w = Ok raw ∧
    length (Y_fine_tr raw) = length (Y_coarse_tr raw) ∧
    length (Y_fine_te raw) = length (Y_coarse_te raw) ∧
    (length (Xtr raw) ≤ length (Y_fine_tr raw))%nat ∧
    (length (Xte raw) ≤ length (Y_fine_te raw))%nat ∧
    cifar100_meta w = Ok (names, cnames) ∧
    load_coarse_to_fine_map w = Ok T ∧
    map_Forall (fun _ l => (5 ≤ length l)%nat) T ∧
    Forall (fun s => is_Some (Spec.fine_name names s.2))
      (zip (Xtr raw) (zip (Y_fine_tr raw) (Y_coarse_tr raw))).
Proof.
  unfold load_cifar_pyramid. intros Hp.
  apply bind_Ok_inv in Hp as ([[[X y] Xt] yt] & Hload & Hp).
  apply bind_Ok_inv in Hp as (T & HT & Hp).
  apply bind_Ok_inv in Hp as ([names cnames] & Hmeta & Hp).
  apply bind_Ok_inv in Hp as (sets & Hsets & Hp).
  apply bind_Ok_inv in Hp as (tr & Htrain & Hp).
  apply bind_Ok_inv in Hp as (flags & Htest & _).
  apply load_cifar_train_test_cifar100_inv in Hload
    as (raw & Hraw & Htr & Hte & -> & -> & -> & ->).
  apply train_loop_Ok_inv in Htrain. apply test_loop_Ok_inv in Htest.
  assert (HXtr : (length (Xtr raw) ≤ length (Y_fine_tr raw))%nat).
  { pose proof (covered_length (Xtr raw) (zip (Y_fine_tr raw) (Y_coarse_tr raw)))
      as Hcov. rewrite length_zip in Hcov. etrans; [apply Hcov|lia].
    eapply Forall_impl; [exact Htrain|]. intros i [_ (row & -> & _)]. by eexists. }
  assert (HXte : (length (Xte raw) ≤ length (Y_fine_te raw))%nat).
  { pose proof (covered_length (Xte raw) (zip (Y_fine_te raw) (Y_coarse_te raw)))
      as Hcov. rewrite length_zip in Hcov. etrans; [by apply Hcov|lia]. }
  exists raw, names, cnames, T. split_and!; try done.
  - by eapply compute_label_sets_Ok_inv.
  - apply Forall_lookup. intros j [x row] Hj.
    apply zip_lookup_both in Hj as [HX Hrow]. simpl in *.
    rewrite Forall_forall in Htrain.
    destruct (Htrain j) as [_ (row' & Hrow' & Hname)].
    + apply elem_of_seq. apply lookup_lt_Some in HX. lia.
    + congruence.
Qed.

(** The eight outputs of any run that returns. *)
Lemma load_cifar_pyramid_Ok w raw names cnames (T : taxonomy) p :
  _load_cifar100 w = Ok raw →
  cifar100_meta w = Ok (names, cnames) →
  load_coarse_to_fine_map w = Ok T →
  load_cifar_pyramid w = Ok p →
  let train := zip (Xtr raw) (zip (Y_fine_tr raw) (Y_coarse_tr raw)) in
  let in_joint s := Spec.named_in names (Spec.joint_set T) s.2 = true in
  let in_gate s := Spec.named_in names (Spec.gate_set T) s.2 = true in
  p = {| X_train_joint := fst <$> filter in_joint train;
         y_train_joint := snd <$> filter in_joint train;
         X_train_gate := fst <$> filter in_gate train;
         y_train_gate := snd <$> filter in_gate train;
         fine_or_coarse_train_gate :=
           (fun s => Spec.routing_flag names T s.2) <$> filter in_gate train;
         X_test := Xte raw;
         y_test := Labels2 (zip (Y_fine_te raw) (Y_coarse_te raw));
         fine_or_coarse_test := replicate (length (Xte raw)) 1 |}.
Proof.
  intros Hraw Hmeta HT Hp train in_joint in_gate.
  destruct (load_cifar_pyramid_Ok_inv w p Hp)
    as (raw' & names' & cnames' & T' & Hraw' & Htr & Hte & HXtr & HXte
        & Hmeta' & HT' & Hfull & Hnames).
  rewrite Hraw in Hraw'. injection Hraw' as <-.
  rewrite Hmeta in Hmeta'. injection Hmeta' as <- <-.
  rewrite HT in HT'. injection HT' as <-.
  pose proof (load_cifar_pyramid_spec w raw names cnames T Hraw Htr Hte HXtr
                HXte Hmeta HT Hfull Hnames) as Hspec.
  rewrite Hp in Hspec. by injection Hspec.
Qed.

End Inversion.

(** *** The label sets *)

Lemma elem_of_joint_set (T : taxonomy) (x : string) :
  x ∈ Spec.joint_set T ↔ ∃ c l, T !! c = Some l ∧ x ∈ take 2 l.
Proof.
  unfold Spec.joint_set. rewrite elem_of_union_list. split.
  - intros (X & HX & Hx). apply list_elem_of_fmap in HX as ([c l] & -> & Hin).
    apply elem_of_map_to_list in Hin. apply elem_of_list_to_set in Hx.
    by exists c, l.
  - intros (c & l & Hc & Hx). exists (list_to_set (take 2 l)). split.
    + apply list_elem_of_fmap. exists (c, l). split; [done|].
      by apply elem_of_map_to_list.
    + by apply elem_of_list_to_set.
Qed.

Lemma elem_of_gate_set (T : taxonomy) (x : string) :
  x ∈ Spec.gate_set T ↔ ∃ c l, T !! c = Some l ∧ x ∈ take 4 l.
Proof.
  unfold Spec.gate_set. rewrite elem_of_union_list. split.
  - intros (X & HX & Hx). apply list_elem_of_fmap in HX as ([c l] & -> & Hin).
    apply elem_of_map_to_list in Hin. apply elem_of_list_to_set in Hx.
    by exists c, l.
  - intros (c & l & Hc & Hx). exists (list_to_set (take 4 l)). split.
    + apply list_elem_of_fmap. exists (c, l). split; [done|].
      by apply elem_of_map_to_list.
    + by apply elem_of_list_to_set.
Qed.

Lemma joint_set_subseteq_gate_set (T : taxonomy) :
  Spec.joint_set T ⊆ Spec.gate_set T.
Proof.
  intros x. rewrite elem_of_joint_set, elem_of_gate_set.
  intros (c & l & Hc & Hx). exists c, l. split; [done|].
  apply elem_of_take in Hx as (i & Hi & Hlt). apply elem_of_take.
  exists i. split; [done|lia].
Qed.

(** Whenever the loop over the taxonomy gets through, every bucket has five
    names or more, the joint set holds the first two names of every
    bucket and nothing else, the gate set the first four and nothing else,
    and so the joint set lies within the gate set. *)
Theorem label_sets_characterised (T : taxonomy) (sets : label_sets) :
  compute_label_sets T = Ok sets →
  map_Forall (fun _ l => (5 ≤ length l)%nat) T ∧
  (∀ x, x ∈ fine_labels_joint sets ↔ ∃ c l, T !! c = Some l ∧ x ∈ take 2 l) ∧
  (∀ x, x ∈ fine_labels_gate sets ↔ ∃ c l, T !! c = Some l ∧ x ∈ take 4 l) ∧
  fine_labels_joint sets ⊆ fine_labels_gate sets.
Proof.
  intros Hrun. pose proof (compute_label_sets_Ok_inv T sets Hrun) as Hfull.
  destruct (compute_label_sets_full T Hfull) as (sets' & Hrun' & HJ & HG & _).
  rewrite Hrun in Hrun'. injection Hrun' as <-.
  rewrite HJ, HG. split_and!; [done|..].
  - apply elem_of_joint_set.
  - apply elem_of_gate_set.
  - apply joint_set_subseteq_gate_set.
Qed.

Lemma label_sets_characterised_witness :
  ∃ sets, compute_label_sets Scenario.T = Ok sets ∧
          fine_labels_joint sets ⊆ fine_labels_gate sets.
Proof.
  eexists. split; [by vm_compute|].
  eapply (label_sets_characterised Scenario.T). by vm_compute.
Defined.

(** The size of a union of disjoint slices. *)
Lemma size_union_take (n : nat) (items : list (string * list string)) :
  NoDup items.*1 →
  Forall (fun item => NoDup item.2 ∧ (n ≤ length item.2)%nat) items →
  (∀ it1 it2, it1 ∈ items → it2 ∈ items → it1.1 ≠ it2.1 →
              ∀ x, x ∈ it1.2 → x ∉ it2.2) →
  size (⋃ ((fun item => list_to_set (C := gset string) (take n item.2))
             <$> items))
  = (n * length items)%nat.
Proof.
  induction items as [|[c l] items IH]; intros Hkeys Hall Hdisj.
  - rewrite fmap_nil, union_list_nil, size_empty. simpl. lia.
  - rewrite fmap_cons, union_list_cons.
    rewrite fmap_cons in Hkeys. apply NoDup_cons in Hkeys as [Hc Hkeys].
    apply Forall_cons in Hall as [[Hnd Hlen] Hall]. simpl in Hnd, Hlen.
    cbn [snd length]. rewrite size_union.
    + rewrite size_list_to_set by (eapply sublist_NoDup; [done|apply sublist_take]).
      rewrite length_take. rewrite IH; [lia|done|done|].
      intros it1 it2 H1 H2. apply Hdisj; by right.
    + intros x Hx1 Hx2. apply elem_of_list_to_set in Hx1.
      apply elem_of_union_list in Hx2 as (X & HX & Hx2).
      apply list_elem_of_fmap in HX as ([c' l'] & -> & Hin).
      apply elem_of_list_to_set in Hx2.
      refine (Hdisj (c, l) (c', l') _ _ _ x _ _); simpl.
      * by left.
      * by right.
      * intros ->. apply Hc. apply list_elem_of_fmap. by exists (c', l').
      * by eapply subseteq_take.
      * by eapply subseteq_take.
Qed.

(** When the buckets hold five distinct names or more each and no name
    sits in two buckets, the joint set has two names per bucket and the
    gate set four (40 and 80 for the 20 superclasses of CIFAR-100). *)
Theorem label_sets_sizes (T : taxonomy) :
  map_Forall (fun _ l => NoDup l ∧ (5 ≤ length l)%nat) T →
  (∀ c1 c2 l1 l2, c1 ≠ c2 → T !! c1 = Some l1 → T !! c2 = Some l2 →
                  ∀ x, x ∈ l1 → x ∉ l2) →
  ∃ sets, compute_label_sets T = Ok sets ∧
          size (fine_labels_joint sets) = (2 * size T)%nat ∧
          size (fine_labels_gate sets) = (4 * size T)%nat.
Proof.
  intros Hall Hdisj.
  destruct (compute_label_sets_full T) as (sets & Hrun & HJ & HG & _).
  { intros c l Hc. by destruct (Hall c l Hc). }
  exists sets. split; [done|]. rewrite HJ, HG.
  unfold Spec.joint_set, Spec.gate_set.
  rewrite <- (length_map_to_list T).
  assert (Hitems : ∀ n, (n ≤ 5)%nat →
            Forall (fun item : string * list string =>
                      NoDup item.2 ∧ (n ≤ length item.2)%nat) (map_to_list T)).
  { intros n Hn. apply Forall_forall. intros [c l] Hin.
    apply elem_of_map_to_list in Hin. destruct (Hall c l Hin). simpl.
    split; [done|lia]. }
  assert (Hpairs : ∀ it1 it2 : string * list string,
            it1 ∈ map_to_list T → it2 ∈ map_to_list T → it1.1 ≠ it2.1 →
            ∀ x, x ∈ it1.2 → x ∉ it2.2).
  { intros [c1 l1] [c2 l2] H1 H2 Hne. apply elem_of_map_to_list in H1, H2.
    by eapply Hdisj. }
  split; (apply size_union_take;
    [apply NoDup_fst_map_to_list | apply Hitems; lia | exact Hpairs]).
Qed.

Lemma label_sets_sizes_witness :
  ∃ sets, compute_label_sets Scenario.T = Ok sets ∧
          size (fine_labels_joint sets) = 4%nat ∧
          size (fine_labels_gate sets) = 8%nat.
Proof.
  apply (label_sets_sizes Scenario.T).
  - apply (bool_decide_unpack _). vm_compute. exact I.
  - intros c1 c2 l1 l2 Hne H1 H2 x Hx.
    assert (Hdec : map_Forall (fun c1 l1 =>
                     map_Forall (fun c2 l2 =>
                       c1 ≠ c2 → Forall (fun x : string => x ∉ l2) l1)
                       Scenario.T) Scenario.T)
      by (apply (bool_decide_unpack _); vm_compute; exact I).
    pose proof (Hdec c1 l1 H1 c2 l2 H2 Hne) as Hall.
    rewrite Forall_forall in Hall. by apply Hall.
Defined.

(** *** The training outputs *)

(** The joint-training output is the stable filter of the training corpus
    by "fine-label name in the global joint set": in every run that
    returns, images and label rows pass in scan order and stay aligned. *)
Theorem joint_training_is_stable_filter {Image blob : Type} `{Pickle blob}
    (w : world Image blob) (raw : cifar100_raw Image)
    (names cnames : list string) (T : taxonomy) (p : pyramid Image) :
  _load_cifar100 w = Ok raw →
  cifar100_meta w = Ok (names, cnames) →
  load_coarse_to_fine_map w = Ok T →
  load_cifar_pyramid w = Ok p →
  let train := zip (Xtr raw) (zip (Y_fine_tr raw) (Y_coarse_tr raw)) in
  let in_joint s := Spec.named_in names (Spec.joint_set T) s.2 = true in
  X_train_joint p = fst <$> filter in_joint train ∧
  y_train_joint p = snd <$> filter in_joint train ∧
  length (y_train_joint p) = length (X_train_joint p).
Proof.
  intros Hraw Hmeta HT Hp train in_joint.
  rewrite (load_cifar_pyramid_Ok w raw names cnames T p Hraw Hmeta HT Hp).
  cbn [X_train_joint y_train_joint]. split_and!; try reflexivity.
  by rewrite !length_fmap.
Qed.

Lemma joint_training_is_stable_filter_witness :
  ∃ p, load_cifar_pyramid Scenario.cached = Ok p ∧
       X_train_joint p = [100; 101; 105; 106]%nat ∧
       y_train_joint p = [(0, 0); (1, 0); (5, 1); (6, 1)].
Proof.
  eexists. split; [by vm_compute|].
  destruct (joint_training_is_stable_filter Scenario.cached Scenario.raw
              Scenario.fine_label_names Scenario.coarse_label_names Scenario.T
              _ eq_refl eq_refl ltac:(by vm_compute) ltac:(by vm_compute))
    as (HX & Hy & _).
  split; [rewrite HX | rewrite Hy]; by vm_compute.
Defined.

Lemma gate_flagged_zero {A : Type} (in_joint in_gate : A → Prop)
    `{!∀ s, Decision (in_joint s), !∀ s, Decision (in_gate s)}
    (flag : A → Z) (l : list A) :
  (∀ s, in_joint s → in_gate s) →
  (∀ s, flag s = 0 ↔ in_joint s) →
  fst <$> filter (fun g : A * Z => g.2 = 0)
            (zip (filter in_gate l) (flag <$> filter in_gate l))
  = filter in_joint l.
Proof.
  intros Hsub Hflag. induction l as [|s l IH]; [done|].
  destruct (decide (in_gate s)) as [Hg|Hg].
  - rewrite (filter_cons_True in_gate) by done.
    cbn [fmap list_fmap zip zip_with].
    destruct (decide (in_joint s)) as [Hj|Hj].
    + rewrite (filter_cons_True in_joint) by done.
      rewrite filter_cons_True by (by apply Hflag).
      cbn [fmap list_fmap fst]. by f_equal.
    + rewrite (filter_cons_False in_joint) by done.
      rewrite filter_cons_False by (cbn [snd]; by rewrite Hflag). done.
  - rewrite (filter_cons_False in_gate) by done.
    rewrite (filter_cons_False in_joint) by (intros ?; by apply Hg, Hsub). done.
Qed.

(** In every run that returns, the joint-training samples are exactly the
    gate-training samples whose routing flag is 0, in the same order. *)
Theorem joint_is_gate_flagged_zero {Image blob : Type} `{Pickle blob}
    (w : world Image blob) (p : pyramid Image) :
  load_cifar_pyramid w = Ok p →
  zip (X_train_joint p) (y_train_joint p)
  = fst <$> filter (fun g => g.2 = 0)
              (zip (zip (X_train_gate p) (y_train_gate p))
                   (fine_or_coarse_train_gate p)).
Proof.
  intros Hp.
  destruct (load_cifar_pyramid_Ok_inv w p Hp)
    as (raw & names & cnames & T & Hraw & _ & _ & _ & _ & Hmeta & HT & _ & _).
  rewrite (load_cifar_pyramid_Ok w raw names cnames T p Hraw Hmeta HT Hp).
  cbn [X_train_joint y_train_joint X_train_gate y_train_gate
       fine_or_coarse_train_gate].
  rewrite !zip_fst_snd. symmetry.
  apply (gate_flagged_zero
           (fun s => Spec.named_in names (Spec.joint_set T) s.2 = true)
           (fun s => Spec.named_in names (Spec.gate_set T) s.2 = true)
           (fun s => Spec.routing_flag names T s.2)).
  - intros [x row]. cbn [snd]. unfold Spec.named_in.
    destruct (Spec.fine_name names row) as [name|]; [|done].
    rewrite !bool_decide_eq_true. apply joint_set_subseteq_gate_set.
  - intros [x row]. cbn [snd]. unfold Spec.routing_flag.
    by destruct (Spec.named_in names (Spec.joint_set T) row).
Qed.

Lemma joint_is_gate_flagged_zero_witness :
  ∃ p, load_cifar_pyramid Scenario.cached = Ok p ∧
       zip (X_train_joint p) (y_train_joint p)
       = fst <$> filter (fun g => g.2 = 0)
                   (zip (zip (X_train_gate p) (y_train_gate p))
                        (fine_or_coarse_train_gate p)).
Proof.
  eexists. split; [by vm_compute|].
  apply (joint_is_gate_flagged_zero Scenario.cached). by vm_compute.
Defined.

(** *** The test outputs and the missing cache *)

(** In every run that returns, the test images and test label rows come
    back as loaded, none dropped or moved, whatever the taxonomy is, with
    one routing flag per test image (each of them 1). *)
Theorem test_split_passes_through {Image blob : Type} `{Pickle blob}
    (w : world Image blob) (raw : cifar100_raw Image) (p : pyramid Image) :
  _load_cifar100 w = Ok raw →
  load_cifar_pyramid w = Ok p →
  X_test p = Xte raw ∧
  y_test p = Labels2 (zip (Y_fine_te raw) (Y_coarse_te raw)) ∧
  (length (Xte raw) ≤ labels_len (y_test p))%nat ∧
  fine_or_coarse_test p = replicate (length (Xte raw)) 1.
Proof.
  intros Hraw Hp.
  destruct (load_cifar_pyramid_Ok_inv w p Hp)
    as (raw' & names & cnames & T & Hraw' & _ & Hte & _ & HXte & Hmeta & HT & _).
  rewrite Hraw in Hraw'. injection Hraw' as <-.
  rewrite (load_cifar_pyramid_Ok w raw names cnames T p Hraw Hmeta HT Hp).
  cbn [X_test y_test fine_or_coarse_test labels_len]. split_and!; try done.
  rewrite length_zip. lia.
Qed.

Lemma test_split_passes_through_witness :
  ∃ p, load_cifar_pyramid Scenario.cached = Ok p ∧
       X_test p = Xte Scenario.raw.
Proof.
  eexists. split; [by vm_compute|].
  eapply (test_split_passes_through Scenario.cached Scenario.raw);
    [reflexivity | by vm_compute].
Defined.

(** Without the cache file the partitioner does not return, and it
    rebuilds nothing: once the corpus has loaded it raises the [IOError]
    of the failed [open]. *)
Theorem missing_cache_raises_IOError {Image blob : Type} `{Pickle blob}
    (w : world Image blob) :
  files w !! coarse_to_fine_map_path = None →
  (∀ p, load_cifar_pyramid w ≠ Ok p) ∧
  (∀ d, load_cifar_train_test w "cifar100" = Ok d →
        load_cifar_pyramid w = Raise IOError).
Proof.
  intros Hmissing.
  assert (Hload : load_coarse_to_fine_map w = Raise IOError)
    by (unfold load_coarse_to_fine_map; by rewrite Hmissing).
  split.
  - intros p Hp. apply load_cifar_pyramid_Ok_inv in Hp
      as (_ & _ & _ & T & _ & _ & _ & _ & _ & _ & HT & _). congruence.
  - intros [[[X y] Xt] yt] Hd. unfold load_cifar_pyramid.
    rewrite Hd. cbn [mbind result_bind]. by rewrite Hload.
Qed.

Lemma missing_cache_raises_IOError_witness :
  load_cifar_pyramid Scenario.fresh = Raise IOError.
Proof.
  eapply (missing_cache_raises_IOError Scenario.fresh); by vm_compute.
Defined.

End PyramidMore.

(** ** The taxonomy builder: what every returning run satisfies *)

Module TaxonomyMore.
Import DataUtils TaxonomyFacts.

Lemma py_index_Ok_elem_of {A} (l : list A) (i : Z) (x : A) :
  py_index l i = Ok x → x ∈ l.
Proof.
  unfold py_index. repeat case_decide; try discriminate.
  - destruct (l !! Z.to_nat i) eqn:E; [|discriminate].
    intros [= <-]. by eapply list_elem_of_lookup_2.
  - destruct (l !! Z.to_nat _) eqn:E; [|discriminate].
    intros [= <-]. by eapply list_elem_of_lookup_2.
Qed.

Lemma collect_Ok_named fine_label_names coarse_label_names rows m m' :
  collect_fine_labels fine_label_names coarse_label_names rows m = Ok m' →
  Forall (Spec.named fine_label_names coarse_label_names) rows.
Proof.
  revert m. induction rows as [|row rows IH]; intros m; [by constructor|].
  rewrite collect_cons. intros Hrun.
  apply bind_Ok_inv in Hrun as (c & Hc & Hrun).
  apply bind_Ok_inv in Hrun as (f & Hf & Hrun).
  constructor; [by exists c, f|by eapply IH].
Qed.

Section Builder.
Context {Image blob : Type} `{Pickle blob}.
Implicit Types (w : world Image blob).

(** The steps a returning run of the builder has gone through. *)
Lemma create_coarse_to_fine_map_Ok_inv w (T : taxonomy) w' :
  create_coarse_to_fine_map w = Ok (T, w') →
  ∃ raw names cnames sets,
    _load_cifar100 w = Ok raw ∧
    length (Y_fine_tr raw) = length (Y_coarse_tr raw) ∧
    length (Y_fine_te raw) = length (Y_coarse_te raw) ∧
    cifar100_meta w = Ok (names, cnames) ∧
    collect_fine_labels names cnames
      (zip (Y_fine_tr raw) (Y_coarse_tr raw)) ∅ = Ok sets ∧
    T = sorted <$> sets ∧
    w' = dump_coarse_to_fine_map T w.
Proof.
  unfold create_coarse_to_fine_map. intros Hrun.
  apply bind_Ok_inv in Hrun as ([[[X y] Xt] yt] & Hload & Hrun).
  apply bind_Ok_inv in Hrun as ([names cnames] & Hmeta & Hrun).
  apply bind_Ok_inv in Hrun as (rows & Hrows & Hrun).
  apply bind_Ok_inv in Hrun as (sets & Hsets & Hrun).
  apply PyramidMore.load_cifar_train_test_cifar100_inv in Hload
    as (raw & Hraw & Htr & Hte & -> & -> & -> & ->).
  injection Hrows as <-. injection Hrun as <- <-.
  by exists raw, names, cnames, sets.
Qed.

(** Dumping a taxonomy changes nothing the builder reads. *)
Lemma create_after_dump w (T0 : taxonomy) :
  fst <$> create_coarse_to_fine_map (dump_coarse_to_fine_map T0 w)
  = fst <$> create_coarse_to_fine_map w.
Proof.
  unfold create_coarse_to_fine_map.
  change (load_cifar_train_test (dump_coarse_to_fine_map T0 w) "cifar100")
    with (load_cifar_train_test w "cifar100").
  change (load_cifar100_label_names (dump_coarse_to_fine_map T0 w))
    with (load_cifar100_label_names w).
  destruct (load_cifar_train_test w "cifar100") as [[[[X y] Xt] yt]|]; [|done].
  cbn [mbind result_bind].
  destruct (load_cifar100_label_names w) as [[names cnames]|]; [|done].
  cbn [mbind result_bind]. destruct (label_columns y) as [rows|]; [|done].
  cbn [mbind result_bind].
  by destruct (collect_fine_labels names cnames rows ∅).
Qed.

Lemma dump_dump w (T : taxonomy) :
  dump_coarse_to_fine_map T (dump_coarse_to_fine_map T w)
  = dump_coarse_to_fine_map T w.
Proof.
  unfold dump_coarse_to_fine_map, write_file. cbn [files]. f_equal.
  apply insert_insert_eq.
Qed.

End Builder.

(** Building the taxonomy a second time changes nothing: the same taxonomy
    comes back and the world stays as the first run left it.  The first
    run itself touches no file but the cache, and leaves the corpus and
    the label names as they were. *)
Theorem create_coarse_to_fine_map_twice {Image blob : Type} `{Pickle blob}
    (w w' : world Image blob) (T : taxonomy) :
  create_coarse_to_fine_map w = Ok (T, w') →
  create_coarse_to_fine_map w' = Ok (T, w') ∧
  (∀ path, path ≠ coarse_to_fine_map_path → files w' !! path = files w !! path) ∧
  _load_cifar100 w' = _load_cifar100 w ∧
  _load_cifar10 w' = _load_cifar10 w ∧
  cifar100_meta w' = cifar100_meta w.
Proof.
  intros Hrun.
  destruct (create_coarse_to_fine_map_Ok_inv w T w' Hrun)
    as (raw & names & cnames & sets & _ & _ & _ & _ & _ & _ & ->).
  split_and!; try reflexivity.
  - pose proof (create_after_dump w T) as Hfst. rewrite Hrun in Hfst.
    destruct (create_coarse_to_fine_map (dump_coarse_to_fine_map T w))
      as [[T2 w2]|] eqn:Hrun2; [|done].
    injection Hfst as ->.
    destruct (create_coarse_to_fine_map_Ok_inv _ _ _ Hrun2)
      as (_ & _ & _ & _ & _ & _ & _ & _ & _ & _ & ->).
    by rewrite dump_dump.
  - intros path Hpath. unfold dump_coarse_to_fine_map, write_file. cbn [files].
    by rewrite lookup_insert_ne.
Qed.

Lemma create_coarse_to_fine_map_twice_witness :
  create_coarse_to_fine_map Scenario.cached = Ok (Scenario.T, Scenario.cached).
Proof.
  eapply (create_coarse_to_fine_map_twice Scenario.fresh). by vm_compute.
Defined.

(** Every key of a built taxonomy is one of the coarse label names and
    every name in a bucket one of the fine label names; no bucket is
    empty, none is longer than the table of fine names, and there are no
    more buckets than coarse names. *)
Theorem taxonomy_names_come_from_tables {Image blob : Type} `{Pickle blob}
    (w w' : world Image blob) (names cnames : list string) (T : taxonomy) :
  cifar100_meta w = Ok (names, cnames) →
  create_coarse_to_fine_map w = Ok (T, w') →
  (∀ c l, T !! c = Some l →
          c ∈ cnames ∧ l ≠ [] ∧ (∀ f, f ∈ l → f ∈ names) ∧
          (length l ≤ length names)%nat) ∧
  (size T ≤ length cnames)%nat.
Proof.
  intros Hmeta Hrun.
  destruct (create_coarse_to_fine_map_Ok_inv w T w' Hrun)
    as (raw & names' & cnames' & sets & _ & _ & _ & Hmeta' & Hsets & -> & _).
  rewrite Hmeta in Hmeta'. injection Hmeta' as <- <-.
  pose proof (collect_Ok _ _ _ _ _ Hsets) as Hchar.
  assert (Hbucket : ∀ c l, (sorted <$> sets) !! c = Some l →
            c ∈ cnames ∧ l ≠ [] ∧ (∀ f, f ∈ l → f ∈ names) ∧
            (length l ≤ length names)%nat).
  { intros c l. rewrite lookup_fmap. intros Hl.
    apply fmap_Some in Hl as (s & Hs & ->).
    destruct (Hchar c) as [Hkey Hval].
    assert (Hobs : ∃ f, Spec.observed names cnames
                          (zip (Y_fine_tr raw) (Y_coarse_tr raw)) c f).
    { destruct Hkey as [[Hempty|Hobs] _]; [by eexists| |done].
      rewrite lookup_empty in Hempty. by destruct Hempty. }
    assert (Hin : ∀ f, f ∈ sorted s → f ∈ names).
    { intros f Hf. apply elem_of_sorted in Hf. specialize (Hval f).
      rewrite Hs, lookup_empty in Hval. cbn [default from_option] in Hval.
      unfold Datatypes.id in Hval. apply Hval in Hf as [Hf|Hf].
      - by apply not_elem_of_empty in Hf.
      - destruct Hf as (row & _ & _ & Hf). by eapply py_index_Ok_elem_of. }
    split_and!.
    - destruct Hobs as (f & row & _ & Hc & _). by eapply py_index_Ok_elem_of.
    - destruct Hobs as (f & Hobs). intros Hnil.
      assert (f ∈ sorted s) as Hf.
      { apply elem_of_sorted. specialize (Hval f). rewrite Hs in Hval.
        apply Hval. by right. }
      rewrite Hnil in Hf. by apply elem_of_nil in Hf.
    - done.
    - apply submseteq_length, NoDup_submseteq; [apply sorted_NoDup|done]. }
  split; [done|].
  rewrite <- (length_map_to_list (sorted <$> sets)).
  rewrite <- (length_fmap fst).
  apply submseteq_length, NoDup_submseteq.
  - apply NoDup_fst_map_to_list.
  - intros c Hc. apply list_elem_of_fmap in Hc as ([c' l] & -> & Hin).
    apply elem_of_map_to_list in Hin. by destruct (Hbucket c' l Hin).
Qed.

Lemma taxonomy_names_come_from_tables_witness :
  (size Scenario.T ≤ 2)%nat.
Proof.
  eapply (taxonomy_names_come_from_tables Scenario.fresh
            (dump_coarse_to_fine_map Scenario.T Scenario.fresh)
            Scenario.fine_label_names Scenario.coarse_label_names Scenario.T);
    [reflexivity | by vm_compute].
Defined.

End TaxonomyMore.

(** ** The builder and the partitioner, one after the other *)

Module EndToEnd.
Import DataUtils PyramidFacts TaxonomyMore.

(** Given that [pickle] reads back what it wrote: once the builder has
    returned a taxonomy with five names or more in every bucket, the
    partitioner finds that taxonomy in the cache and returns, provided the
    corpus has a label row for each image.  No name lookup can fail, the
    builder has done them all. *)
Theorem build_then_partition {Image blob : Type} `{PickleRoundTrip blob}
    (w w' : world Image blob) (raw : cifar100_raw Image) (T : taxonomy) :
  _load_cifar100 w = Ok raw →
  create_coarse_to_fine_map w = Ok (T, w') →
  map_Forall (fun _ l => (5 ≤ length l)%nat) T →
  (length (Xtr raw) ≤ length (Y_fine_tr raw))%nat →
  (length (Xte raw) ≤ length (Y_fine_te raw))%nat →
  load_coarse_to_fine_map w' = Ok T ∧
  ∃ p, load_cifar_pyramid w' = Ok p ∧
       length (fine_or_coarse_train_gate p) = length (X_train_gate p) ∧
       length (fine_or_coarse_test p) = length (Xte raw).
Proof.
  intros Hraw Hrun Hfull HXtr HXte.
  destruct (create_coarse_to_fine_map_Ok_inv w T w' Hrun)
    as (raw' & names & cnames & sets & Hraw' & Htr & Hte & Hmeta & Hsets
        & HT & ->).
  rewrite Hraw in Hraw'. injection Hraw' as <-.
  assert (Hload : load_coarse_to_fine_map (dump_coarse_to_fine_map T w) = Ok T).
  { unfold load_coarse_to_fine_map, dump_coarse_to_fine_map, write_file.
    cbn [files]. rewrite lookup_insert_eq. apply pickle_loads_dumps. }
  split; [done|]. eexists. split.
  - eapply (load_cifar_pyramid_spec (dump_coarse_to_fine_map T w) raw names
              cnames T); try done.
    apply collect_Ok_named in Hsets. apply Forall_lookup.
    intros j [x row] Hj. apply ScanFacts.zip_lookup_both in Hj as [_ Hrow].
    rewrite Forall_lookup in Hsets.
    destruct (Hsets j row Hrow) as (c & f & _ & Hf).
    unfold Spec.fine_name. cbn [snd]. rewrite Hf. by eexists.
  - cbn [fine_or_coarse_train_gate X_train_gate fine_or_coarse_test].
    by rewrite !length_fmap, length_replicate.
Qed.

Lemma build_then_partition_witness :
  ∃ p, load_cifar_pyramid Scenario.cached = Ok p.
Proof.
  destruct (build_then_partition (H0 := CacheFacts.items_pickle_round_trip)
              Scenario.fresh Scenario.cached Scenario.raw Scenario.T)
    as (_ & p & Hp & _);
    [reflexivity | by vm_compute
    | apply (bool_decide_unpack _); vm_compute; exact I
    | vm_compute; lia | vm_compute; lia |].
  by exists p.
Defined.

End EndToEnd.

(** ** The normalizer: more on a run of [load_cifar] *)

Module NormalizerMore.
Import DataUtils NormalizerFacts.

Section Algebra.
Local Open Scope R_scope.
Implicit Types (X : list (list R)) (l : list R).

Lemma np_sum_nonneg l : Forall (fun x => 0 <= x) l → 0 <= np_sum l.
Proof.
  unfold np_sum. induction 1 as [|x l Hx _ IH]; cbn [foldr]; lra.
Qed.

Lemma np_mean1_nonneg l : Forall (fun x => 0 <= x) l → 0 <= np_mean1 l.
Proof.
  intros Hl. unfold np_mean1. destruct l as [|x l].
  - unfold np_sum. cbn [foldr]. rewrite Rdiv_0_l. lra.
  - apply Rle_mult_inv_pos; [by apply np_sum_nonneg|].
    apply lt_0_INR. simpl. lia.
Qed.

(** The scale is never negative. *)
Lemma std_deviation_nonneg X : 0 <= np_mean1 (np_std_axis0 X).
Proof.
  apply np_mean1_nonneg. unfold np_std_axis0.
  apply Forall_fmap, Forall_forall. intros j _. apply sqrt_pos.
Qed.

End Algebra.

(** *** Failing masks *)

Lemma np_take_error {A} (a : list A) (mask : list Z) (e : exn) :
  np_take a mask = Raise e → e = IndexError.
Proof.
  induction mask as [|i mask IH]; [done|]. cbn [np_take].
  destruct (py_index a i) as [x|e1] eqn:Hi; cbn [mbind result_bind].
  - destruct (np_take a mask) as [xs|e2]; cbn [mbind result_bind]; [done|].
    intros [= <-]. by apply IH.
  - intros [= <-]. by eapply py_index_error.
Qed.

Lemma np_take_out_of_range {A} (a : list A) (mask : list Z) :
  Exists (fun i => Z.of_nat (length a) ≤ i) mask →
  np_take a mask = Raise IndexError.
Proof.
  intros Hex. destruct (np_take a mask) as [xs|e] eqn:Htake.
  - exfalso. revert xs Htake.
    induction Hex as [i mask Hi|i mask _ IH]; intros xs; cbn [np_take]; intros Htake.
    + apply bind_Ok_inv in Htake as (x & Hx & _).
      unfold py_index in Hx. rewrite !decide_False in Hx by lia. discriminate.
    + apply bind_Ok_inv in Htake as (x & _ & Htake).
      apply bind_Ok_inv in Htake as (xs' & Htake & _). by eapply IH.
  - f_equal. by eapply np_take_error.
Qed.

Lemma last_of_py_range (a n : Z) : 0 < n → a + n - 1 ∈ py_range a (a + n).
Proof.
  intros Hn. unfold py_range. apply list_elem_of_fmap.
  exists (Z.to_nat (n - 1)). split; [lia|]. apply elem_of_seq. lia.
Qed.

Lemma labels_take_error (y : labels) (mask : list Z) (e : exn) :
  labels_take y mask = Raise e → e = IndexError.
Proof.
  destruct y as [y|y]; cbn [labels_take fmap result_fmap];
    destruct (np_take y mask) eqn:Htake; try done;
    intros [= <-]; by eapply np_take_error.
Qed.

Lemma subsample_error (X_train : list (list R)) y_train
    (X_test : list (list R)) y_test nt nv nte (e : exn) :
  subsample X_train y_train X_test y_test nt nv nte = Raise e → e = IndexError.
Proof.
  unfold subsample.
  repeat match goal with
  | |- context [np_take ?a ?m] =>
      let H := fresh "H" in
      destruct (np_take a m) eqn:H; cbn [mbind result_bind];
      [|intros [= <-]; by eapply np_take_error]
  | |- context [labels_take ?a ?m] =>
      let H := fresh "H" in
      destruct (labels_take a m) eqn:H; cbn [mbind result_bind];
      [|intros [= <-]; by eapply labels_take_error]
  end.
  done.
Qed.

(** *** Runs *)

(** Once a training tensor of byte-valued images with at least one entry
    has loaded, no run with [eps > 0] divides by zero, whatever the
    labels, the test tensor, the split sizes and the [normalize] flag: the
    scale is not negative, so the divisor [scale + eps] is positive.  (On
    a training tensor without entries numpy's two statistics are [nan];
    nothing is said of that case.) *)
Theorem load_cifar_never_divides_by_zero {blob : Type}
    (w : world (list R) blob) (eps : R) (nt nv nte : Z) (dataset : string)
    (normalize : bool) (X_train : list (list R)) (y_train : labels)
    (X_test : list (list R)) (y_test : labels) :
  load_cifar_train_test w dataset = Ok (X_train, y_train, X_test, y_test) →
  concat X_train ≠ [] → Images.byte_valued X_train →
  (0 < eps)%R →
  (0 < np_mean1 (np_std_axis0 X_train) + eps)%R ∧
  DivideByZeroWarning ∉ (load_cifar_eps eps w nt nv nte dataset normalize).1.
Proof.
  intros Hraw Hentries Hbytes Heps.
  pose proof (std_deviation_nonneg X_train) as Hscale.
  split; [lra|].
  rewrite (load_cifar_eps_unfold _ _ _ _ _ _ _ _ _ _ _ Hraw). cbv zeta.
  assert (Hprints : DivideByZeroWarning ∉
            [Printed (np_mean X_train);
             Printed (np_mean1 (np_std_axis0 X_train))]).
  { rewrite !not_elem_of_cons. split_and!; [done..|apply not_elem_of_nil]. }
  destruct (subsample X_train y_train X_test y_test nt nv nte) as [s|e];
    [|exact Hprints].
  destruct normalize; [|exact Hprints].
  rewrite !np_idiv_quiet by lra. by rewrite !app_nil_r.
Qed.

Lemma load_cifar_never_divides_by_zero_witness :
  (0 < np_mean1 (np_std_axis0 Pixels.flat_X) + EPSILON)%R ∧
  DivideByZeroWarning ∉ (load_cifar Pixels.flat 1 1 1 "cifar10" true).1.
Proof.
  apply (load_cifar_never_divides_by_zero Pixels.flat EPSILON 1 1 1 "cifar10"
           true Pixels.flat_X (Labels1 [3; 4]) [[7%R]] (Labels1 [5])).
  - reflexivity.
  - done.
  - unfold Images.byte_valued.
    repeat (match goal with |- Forall _ _ => constructor end);
      exists 5; (split; [lia|reflexivity]).
  - apply EPSILON_pos.
Defined.

(** For split sizes within the corpus, the training split is the first
    [num_training] rows and the validation split the [num_validation] rows
    right after them: put end to end they are the first
    [num_training + num_validation] rows, so no row is in both.  The
    label arrays are cut at the same places. *)
Theorem splits_are_consecutive_slices {blob : Type}
    (w : world (list R) blob) (eps : R) (dataset : string)
    (X_train : list (list R)) (y_train : labels)
    (X_test : list (list R)) (y_test : labels) (nt nv nte : nat) :
  load_cifar_train_test w dataset = Ok (X_train, y_train, X_test, y_test) →
  (nt + nv ≤ length X_train)%nat → (nt + nv ≤ labels_len y_train)%nat →
  (nte ≤ length X_test)%nat → (nte ≤ labels_len y_test)%nat →
  ∃ s, (load_cifar_eps eps w (Z.of_nat nt) (Z.of_nat nv) (Z.of_nat nte)
          dataset false).2 = Ok s ∧
       s_X_train s ++ s_X_val s = take (nt + nv) X_train ∧
       length (s_X_train s) = nt ∧ length (s_X_val s) = nv ∧
       length (s_X_test s) = nte ∧
       labels_len (s_y_train s) = nt ∧ labels_len (s_y_val s) = nv ∧
       labels_len (s_y_test s) = nte.
Proof.
  intros Hraw H1 H2 H3 H4.
  rewrite (load_cifar_eps_unfold _ _ _ _ _ _ _ _ _ _ _ Hraw).
  rewrite subsample_spec by done. cbv zeta. cbn [snd].
  eexists. split; [reflexivity|].
  cbn [s_X_train s_y_train s_X_val s_y_val s_X_test s_y_test].
  split_and!.
  - apply take_take_drop.
  - rewrite length_take. lia.
  - rewrite length_take, length_drop. lia.
  - rewrite length_take. lia.
  - destruct y_train; simpl in *; rewrite length_take, length_drop; lia.
  - destruct y_train; simpl in *; rewrite length_take, length_drop; lia.
  - destruct y_test; simpl in *; rewrite length_take, length_drop; lia.
Qed.

Lemma splits_are_consecutive_slices_witness :
  ∃ s, (load_cifar Pixels.lit 1 1 1 "cifar10" false).2 = Ok s ∧
       s_X_train s ++ s_X_val s = Pixels.lit_X.
Proof.
  destruct (splits_are_consecutive_slices Pixels.lit EPSILON "cifar10"
              Pixels.lit_X (Labels1 [3; 4]) [[1%R]] (Labels1 [5]) 1 1 1)
    as (s & Hs & Happ & _); [reflexivity | simpl; lia ..|].
  by exists s.
Defined.

(** A split reaching past the end of its tensor makes the run raise
    [IndexError], after the two statistics were printed. *)
Theorem oversize_split_raises_IndexError {blob : Type}
    (w : world (list R) blob) (eps : R) (dataset : string) (normalize : bool)
    (X_train : list (list R)) (y_train : labels)
    (X_test : list (list R)) (y_test : labels) (nt nv nte : Z) :
  load_cifar_train_test w dataset = Ok (X_train, y_train, X_test, y_test) →
  (0 < nv ∧ Z.of_nat (length X_train) < nt + nv) ∨
  (0 < nt ∧ Z.of_nat (length X_train) < nt) ∨
  (0 < nte ∧ Z.of_nat (length X_test) < nte) →
  load_cifar_eps eps w nt nv nte dataset normalize
  = ([Printed (np_mean X_train); Printed (np_mean1 (np_std_axis0 X_train))],
     Raise IndexError).
Proof.
  intros Hraw Hover.
  rewrite (load_cifar_eps_unfold _ _ _ _ _ _ _ _ _ _ _ Hraw). cbv zeta.
  destruct (subsample X_train y_train X_test y_test nt nv nte) as [s|e] eqn:Hs.
  - exfalso. unfold subsample in Hs.
    apply bind_Ok_inv in Hs as (X_val & HXval & Hs).
    apply bind_Ok_inv in Hs as (y_val & _ & Hs).
    apply bind_Ok_inv in Hs as (X_tr & HXtr & Hs).
    apply bind_Ok_inv in Hs as (y_tr & _ & Hs).
    apply bind_Ok_inv in Hs as (X_te & HXte & _).
    destruct Hover as [[Hnv Hlen]|[[Hnt Hlen]|[Hnte Hlen]]].
    + rewrite np_take_out_of_range in HXval; [discriminate|].
      apply Exists_exists. exists (nt + nv - 1). split; [|lia].
      by apply last_of_py_range.
    + rewrite np_take_out_of_range in HXtr; [discriminate|].
      apply Exists_exists. exists (0 + nt - 1). split; [|lia].
      by apply (last_of_py_range 0 nt).
    + rewrite np_take_out_of_range in HXte; [discriminate|].
      apply Exists_exists. exists (0 + nte - 1). split; [|lia].
      by apply (last_of_py_range 0 nte).
  - apply subsample_error in Hs as ->. done.
Qed.

Lemma oversize_split_raises_IndexError_witness :
  (load_cifar Pixels.lit 2 1 1 "cifar10" true).2 = Raise IndexError.
Proof.
  unfold load_cifar.
  rewrite (oversize_split_raises_IndexError Pixels.lit EPSILON "cifar10" true
             Pixels.lit_X (Labels1 [3; 4]) [[1%R]] (Labels1 [5]) 2 1 1);
    [reflexivity | reflexivity | left; simpl; lia].
Defined.

End NormalizerMore.

(** ** The subset dispatch: datasets *)

Module DispatchMore.
Import DataUtils.

(** A dataset name that is neither [cifar100_joint] nor
    [cifar100_joint_prefeaturized] makes the loader of [data_utils.py]
    raise its "not found" exception without loading anything.  The
    redefinition in [pipeline.py] loads nothing either, but goes on: it
    raises [UnboundLocalError] for the four known subsets and returns
    [None] for any other. *)
Theorem unknown_dataset_is_rejected {Image blob : Type} `{Pickle blob}
    (w : world Image blob) (dataset return_subset : string) :
  dataset ∉ ["cifar100_joint"; "cifar100_joint_prefeaturized"] →
  DataUtils.load_data_pyramid w dataset return_subset
    = Raise (Exception ("Dataset " +:+ dataset +:+ " not found. ")) ∧
  Pipeline.load_data_pyramid w dataset return_subset
    = if bool_decide
           (return_subset ∈ ["all"; "joint_only"; "gate_only"; "test_only"])
      then Raise UnboundLocalError else Ok PyNone.
Proof.
  intros Hds. rewrite !not_elem_of_cons in Hds. destruct Hds as (H1 & H2 & _).
  split.
  - unfold DataUtils.load_data_pyramid.
    rewrite (bool_decide_eq_false_2 (dataset = "cifar100_joint")) by exact H1.
    by rewrite (bool_decide_eq_false_2
                  (dataset = "cifar100_joint_prefeaturized")) by exact H2.
  - unfold Pipeline.load_data_pyramid.
    rewrite (bool_decide_eq_false_2 (dataset = "cifar100_joint")) by exact H1.
    cbn [mbind result_bind].
    destruct (decide (return_subset
                        ∈ ["all"; "joint_only"; "gate_only"; "test_only"]))
      as [Hrs|Hrs].
    + rewrite (bool_decide_eq_true_2 _ Hrs).
      rewrite !elem_of_cons, elem_of_nil in Hrs.
      by destruct Hrs as [-> | [-> | [-> | [-> | []]]]].
    + rewrite (bool_decide_eq_false_2 _ Hrs).
      rewrite !not_elem_of_cons in Hrs. destruct Hrs as (Ha & Hj & Hg & Ht & _).
      rewrite (bool_decide_eq_false_2 _ Ha), (bool_decide_eq_false_2 _ Hj),
        (bool_decide_eq_false_2 _ Hg), (bool_decide_eq_false_2 _ Ht).
      reflexivity.
Qed.

Lemma unknown_dataset_is_rejected_witness :
  DataUtils.load_data_pyramid Scenario.cached "cifar10" "all"
    = Raise (Exception "Dataset cifar10 not found. ") ∧
  Pipeline.load_data_pyramid Scenario.cached "cifar10" "all"
    = Raise UnboundLocalError.
Proof.
  apply (unknown_dataset_is_rejected Scenario.cached "cifar10" "all").
  rewrite !not_elem_of_cons. split_and!; [done..|apply not_elem_of_nil].
Defined.

(** On [cifar100_joint] the two definitions of [load_data_pyramid] do the
    same, for every [return_subset] and whether the load succeeds or
    not. *)
Theorem pipeline_agrees_on_cifar100_joint {Image blob : Type} `{Pickle blob}
    (w : world Image blob) (return_subset : string) :
  Pipeline.load_data_pyramid w "cifar100_joint" return_subset
  = DataUtils.load_data_pyramid w "cifar100_joint" return_subset.
Proof.
  unfold Pipeline.load_data_pyramid, DataUtils.load_data_pyramid.
  rewrite (bool_decide_eq_true_2 ("cifar100_joint" = "cifar100_joint")) by done.
  destruct (load_cifar_pyramid w) as [p|e]; [|done].
  cbn [fmap result_fmap mbind result_bind].
  by repeat case_bool_decide.
Qed.

End DispatchMore.

(** ** Preloading weights *)

Module PreloadFacts.
Import Preload.

Lemma prefix_spec (sub s : string) :
  String.prefix sub s = true ↔ ∃ post, s = sub +:+ post.
Proof.
  revert s. induction sub as [|a sub IH]; intros s.
  - destruct s; simpl; (split; [intros _; by eexists|done]).
  - destruct s as [|b s]; simpl.
    + split; [done|]. by intros (post & [=]).
    + destruct (ascii_dec a b) as [->|Hne].
      * rewrite IH. split.
        -- intros (post & ->). by exists post.
        -- intros (post & [= ->]). by exists post.
      * split; [done|]. intros (post & [= -> _]). done.
Qed.

(** [py_str_in] is the substring test. *)
Lemma py_str_in_spec (sub s : string) :
  py_str_in sub s = true ↔ ∃ pre post, s = pre +:+ sub +:+ post.
Proof.
  induction s as [|b s IH]; cbn [py_str_in]; rewrite orb_true_iff, prefix_spec.
  - split.
    + intros [(post & Hs)|[=]]. by exists "", post.
    + intros ([|c pre] & post & Hs); [|discriminate]. left. by exists post.
  - rewrite IH. split.
    + intros [(post & Hs)|(pre & post & ->)].
      * by exists "", post.
      * by exists (String b pre), post.
    + intros ([|c pre] & post & Hs).
      * left. by exists post.
      * right. injection Hs as -> ->. by exists pre, post.
Qed.

(** The preloading rule never renames a variable: it keeps the name or
    leaves the variable out.  A variable is left out exactly when training
    starts from another model's checkpoint and ["unique"] occurs somewhere
    in its name; in test mode, and when the checkpoint is the model's
    own, every variable is preloaded. *)
Theorem preload_rule (model_id : string) (checkpoint_model_id : option string)
    (is_training : bool) (name : string) :
  let r := get_weights_to_preload_function model_id checkpoint_model_id
             is_training name in
  (r = None ∨ r = Some name) ∧
  (r = None ↔
   is_training = true ∧ checkpoint_model_id ≠ Some model_id ∧
   ∃ pre post, name = pre +:+ "unique" +:+ post).
Proof.
  unfold get_weights_to_preload_function.
  destruct is_training; cbn [negb].
  - case_bool_decide as Hckpt.
    + split; [by right|]. split; [done|]. by intros (_ & ? & _).
    + destruct (py_str_in "unique" name) eqn:Hin.
      * apply py_str_in_spec in Hin. split; [by left|]. done.
      * split; [by right|]. split; [done|]. intros (_ & _ & Hsub).
        apply py_str_in_spec in Hsub. congruence.
  - split; [by right|]. split; [done|]. by intros ([=] & _).
Qed.

End PreloadFacts.

(** ** The command line *)

Module CliFacts.
Import Cli.

(** The last value given for an option, or what was there before. *)
Lemma last_values_cons_in names o a rest init :
  o ∈ names →
  from_option Some init (last (values names ((o, a) :: rest)))
  = from_option Some (Some a) (last (values names rest)).
Proof.
  intros Ho. unfold values. rewrite filter_cons_True by done.
  cbn [fmap list_fmap snd]. rewrite last_cons.
  by destruct (last (_ <$> _)).
Qed.

Lemma last_values_cons_notin names o a rest :
  o ∉ names → values names ((o, a) :: rest) = values names rest.
Proof. intros Ho. unfold values. by rewrite filter_cons_False by done. Qed.

Ltac option_name o H :=
  rewrite ?elem_of_cons, ?elem_of_nil in H;
  repeat destruct H as [H|H]; try done; subst o.

Ltac other_name :=
  rewrite !not_elem_of_cons; split_and!; [done..|apply not_elem_of_nil].

Lemma scan_opts_values opts mode model_id ckpt :
  Forall (fun oa => oa.1 ∈ value_options) opts →
  scan_opts opts mode model_id ckpt
  = Returned (from_option Some mode (last (values mode_options opts)),
              from_option Some model_id (last (values model_options opts)),
              from_option Some ckpt (last (values ckpt_options opts))).
Proof.
  intros Hall. revert mode model_id ckpt.
  induction Hall as [|[o a] opts Ho _ IH]; intros mode model_id ckpt.
  - cbn. by destruct mode, model_id, ckpt.
  - cbn [fst] in Ho. cbn [scan_opts]. option_name o Ho.
    all: rewrite ?(bool_decide_eq_false_2 (_ ∈ ["-h"; "--help"])) by other_name.
    all: repeat first
      [ rewrite bool_decide_eq_true_2
          by (repeat first [apply list_elem_of_here|apply list_elem_of_further])
      | rewrite bool_decide_eq_false_2 by other_name ].
    all: rewrite IH.
    all: repeat first
      [ rewrite last_values_cons_in
          by (repeat first [apply list_elem_of_here|apply list_elem_of_further])
      | rewrite last_values_cons_notin by other_name ].
    all: reflexivity.
Qed.

(** When every option is one of [-t], [-m], [-c] or their long forms, the
    arguments are read without error: the last value given for an option
    is the one that counts, the mode defaults to [train], the model to
    [simple_cnn], and the checkpoint model to [None]. *)
Theorem read_commandline_args_last_wins (opts : list (string * string))
    (args : list string) :
  Forall (fun oa => oa.1 ∈ value_options) opts →
  read_commandline_args (Some (opts, args))
  = Returned (default "train" (last (values mode_options opts)),
              default "simple_cnn" (last (values model_options opts)),
              last (values ckpt_options opts)).
Proof.
  intros Hall. unfold read_commandline_args.
  rewrite scan_opts_values by done.
  by destruct (last (values mode_options opts)),
              (last (values model_options opts)),
              (last (values ckpt_options opts)).
Qed.

Lemma read_commandline_args_last_wins_witness :
  read_commandline_args
    (Some ([("-t", "test"); ("-m", "lenet_cnn_cifar100_fine");
            ("--train_or_test_mode", "train")], []))
  = Returned ("train", "lenet_cnn_cifar100_fine", None).
Proof.
  rewrite read_commandline_args_last_wins; [reflexivity|].
  repeat constructor; cbn [fst];
    repeat first [apply list_elem_of_here|apply list_elem_of_further].
Defined.

Lemma scan_opts_unhandled pre o a post mode model_id ckpt :
  Forall (fun oa => oa.1 ∈ value_options) pre →
  o ∉ "-h" :: "--help" :: value_options →
  scan_opts (pre ++ (o, a) :: post) mode model_id ckpt
  = AssertionFailed "unhandled option".
Proof.
  intros Hpre Ho. revert mode model_id ckpt.
  induction Hpre as [|[o' a'] pre Ho' _ IH]; intros mode model_id ckpt.
  - cbn [app scan_opts]. rewrite !not_elem_of_cons in Ho.
    destruct Ho as (? & ? & ? & ? & ? & ? & ? & ? & _).
    by rewrite !bool_decide_eq_false_2 by other_name.
  - cbn [fst] in Ho'. cbn [app scan_opts]. option_name o' Ho'.
    all: rewrite ?(bool_decide_eq_false_2 (_ ∈ ["-h"; "--help"])) by other_name.
    all: repeat first
      [ rewrite bool_decide_eq_true_2
          by (repeat first [apply list_elem_of_here|apply list_elem_of_further])
      | rewrite bool_decide_eq_false_2 by other_name ].
    all: apply IH.
Qed.

(** An option that is none of [-h], [-t], [-m], [-c] and their long forms
    stops the program with the assertion "unhandled option", once the
    options before it were read.  The option [-d], which the option string
    ["ht:m:d:c:"] lets [getopt] accept and the usage text names, is such
    an option. *)
Theorem unhandled_option_asserts (pre post : list (string * string))
    (o a : string) (args : list string) :
  Forall (fun oa => oa.1 ∈ value_options) pre →
  o ∉ "-h" :: "--help" :: value_options →
  read_commandline_args (Some (pre ++ (o, a) :: post, args))
  = AssertionFailed "unhandled option".
Proof.
  intros Hpre Ho. unfold read_commandline_args.
  by rewrite scan_opts_unhandled.
Qed.

Lemma unhandled_option_asserts_witness :
  read_commandline_args
    (Some ([("-t", "train"); ("-m", "simple_cnn"); ("-d", "cifar10")], []))
  = AssertionFailed "unhandled option".
Proof.
  apply (unhandled_option_asserts [("-t", "train"); ("-m", "simple_cnn")] []
           "-d" "cifar10" []).
  - repeat constructor; cbn [fst];
      repeat first [apply list_elem_of_here|apply list_elem_of_further].
  - rewrite !not_elem_of_cons. split_and!; [done..|apply not_elem_of_nil].
Defined.

End CliFacts.

(** ** Reading the corpus files *)

Module RawCorpusFacts.
Import RawCorpus.

Section ListBind.
Context {A B : Type}.
Implicit Types (f : A → list B) (l : list A).

Lemma bind_length_uniform f l (k : nat) :
  (∀ y, y ∈ l → length (f y) = k) → length (l ≫= f) = (length l * k)%nat.
Proof.
  induction l as [|y l IH]; intros Hk; [done|].
  rewrite bind_cons, length_app, IH, Hk.
  - cbn [length]. lia.
  - apply list_elem_of_here.
  - intros z Hz. by apply Hk, list_elem_of_further.
Qed.

Lemma bind_lookup_uniform f l (k i j : nat) x :
  (∀ y, y ∈ l → length (f y) = k) → l !! i = Some x → (j < k)%nat →
  (l ≫= f) !! (i * k + j)%nat = f x !! j.
Proof.
  revert i. induction l as [|y l IH]; intros i Hk Hi Hj; [done|].
  rewrite bind_cons. destruct i as [|i]; cbn in Hi.
  - injection Hi as ->. rewrite lookup_app_l; [done|].
    rewrite Hk by apply list_elem_of_here. lia.
  - rewrite lookup_app_r by (rewrite Hk by apply list_elem_of_here; lia).
    rewrite Hk by apply list_elem_of_here.
    replace (S i * k + j - k)%nat with (i * k + j)%nat by lia.
    apply IH; [|done..]. intros z Hz. by apply Hk, list_elem_of_further.
Qed.

End ListBind.

Section Chunks.
Context {A : Type}.
Implicit Types (flat : list A) (X : list (list A)).

Lemma chunks_length (n count : nat) flat : length (chunks n count flat) = count.
Proof.
  revert flat. induction count as [|k IH]; intros flat; cbn; [done|].
  by rewrite IH.
Qed.

Lemma chunks_Forall (n count : nat) flat :
  length flat = (count * n)%nat →
  Forall (fun image => length image = n) (chunks n count flat).
Proof.
  revert flat. induction count as [|k IH]; intros flat Hlen; cbn; [done|].
  constructor.
  - rewrite length_take. lia.
  - apply IH. rewrite length_drop. lia.
Qed.

Lemma concat_length_uniform (n : nat) X :
  Forall (fun row => length row = n) X →
  length (concat X) = (length X * n)%nat.
Proof.
  induction 1 as [|row X Hrow _ IH]; [done|].
  cbn. rewrite length_app, IH, Hrow. lia.
Qed.

Lemma chunks_concat (n : nat) X :
  Forall (fun row => length row = n) X →
  chunks n (length X) (concat X) = X.
Proof.
  induction 1 as [|row X Hrow _ IH]; [done|].
  cbn. subst n. by rewrite take_app_length, drop_app_length, IH.
Qed.

Lemma transpose_image_length (image : list A) :
  length image = 3072%nat → length (transpose_image image) = 3072%nat.
Proof.
  intros Hlen. unfold transpose_image.
  rewrite (bind_length_uniform _ _ 96); [by rewrite length_seq|].
  intros h Hh%elem_of_seq.
  rewrite (bind_length_uniform _ _ 3); [by rewrite length_seq|].
  intros w Hw%elem_of_seq.
  rewrite (bind_length_uniform _ _ 1); [by rewrite length_seq|].
  intros c Hc%elem_of_seq.
  destruct (lookup_lt_is_Some_2 image (c * 1024 + h * 32 + w)) as [x ->];
    [lia|done].
Qed.

Lemma transpose_image_lookup (image : list A) (h w c : nat) :
  length image = 3072%nat → (h < 32)%nat → (w < 32)%nat → (c < 3)%nat →
  transpose_image image !! ((h * 32 + w) * 3 + c)%nat
  = image !! (c * 1024 + h * 32 + w)%nat.
Proof.
  intros Hlen Hh Hw Hc. unfold transpose_image.
  assert (Hone : ∀ h' w' c', (h' < 32)%nat → (w' < 32)%nat → (c' < 3)%nat →
            length (option_list (image !! (c' * 1024 + h' * 32 + w')%nat))
            = 1%nat).
  { intros h' w' c' ? ? ?.
    destruct (lookup_lt_is_Some_2 image (c' * 1024 + h' * 32 + w'))
      as [x ->]; [lia|done]. }
  replace ((h * 32 + w) * 3 + c)%nat with (h * 96 + (w * 3 + c))%nat by lia.
  rewrite (bind_lookup_uniform _ _ 96 h (w * 3 + c) h).
  - rewrite (bind_lookup_uniform _ _ 3 w c w).
    + replace c with (c * 1 + 0)%nat at 1 by lia.
      rewrite (bind_lookup_uniform _ _ 1 c 0 c).
      * destruct (lookup_lt_is_Some_2 image (c * 1024 + h * 32 + w))
          as [x ->]; [lia|done].
      * intros c' Hc'%elem_of_seq. apply Hone; lia.
      * by rewrite lookup_seq_lt.
      * lia.
    + intros w' Hw'%elem_of_seq.
      rewrite (bind_length_uniform _ _ 1); [by rewrite length_seq|].
      intros c' Hc'%elem_of_seq. apply Hone; lia.
    + by rewrite lookup_seq_lt.
    + done.
  - intros h' Hh'%elem_of_seq.
    rewrite (bind_length_uniform _ _ 3); [by rewrite length_seq|].
    intros w' Hw'%elem_of_seq.
    rewrite (bind_length_uniform _ _ 1); [by rewrite length_seq|].
    intros c' Hc'%elem_of_seq. apply Hone; lia.
  - by rewrite lookup_seq_lt.
  - lia.
Qed.

End Chunks.

(** What a successful decoding looks like, whatever the rows hold. *)
Lemma decode_images_Ok_inv (num_samples : Z) (X : list (list Z)) images :
  RawCorpus.decode_images num_samples X = Ok images →
  Z.of_nat (length (concat X)) = num_samples * 3072 ∧
  Z.of_nat (length images) = num_samples ∧
  Forall (fun image => length image = 3072%nat) images.
Proof.
  unfold RawCorpus.decode_images, RawCorpus.reshape_images.
  destruct (decide _) as [Hsize|]; [|done]. cbn [mbind result_bind].
  intros [= <-]. split; [done|].
  assert (0 ≤ num_samples) by lia.
  split.
  - rewrite length_fmap, chunks_length. lia.
  - apply Forall_fmap, Forall_forall. intros image Himage.
    unfold compose. rewrite length_fmap. apply transpose_image_length.
    revert image Himage. apply Forall_forall, chunks_Forall. lia.
Qed.

Lemma chunks_Forall_entries {A : Type} (P : A → Prop) (n count : nat)
    (flat : list A) :
  Forall P flat → Forall (Forall P) (chunks n count flat).
Proof.
  revert flat. induction count as [|k IH]; intros flat Hflat; cbn; [done|].
  constructor; [by apply Forall_take|]. by apply IH, Forall_drop.
Qed.

Lemma transpose_image_Forall {A : Type} (P : A → Prop) (image : list A) :
  Forall P image → Forall P (transpose_image image).
Proof.
  intros Himage. apply Forall_forall. intros x. unfold transpose_image.
  intros (h & Hx & _)%list_elem_of_bind.
  apply list_elem_of_bind in Hx as (w & Hx & _).
  apply list_elem_of_bind in Hx as (c & Hx & _).
  destruct (image !! (c * 1024 + h * 32 + w)%nat) as [y|] eqn:Hy;
    cbn [option_list] in Hx.
  - apply list_elem_of_singleton in Hx as ->.
    by eapply (Forall_lookup_1 P image).
  - by apply not_elem_of_nil in Hx.
Qed.

(** The images decoded from bytes are byte-valued. *)
Lemma decode_images_byte_valued (num_samples : Z) (X : list (list Z)) images :
  RawCorpus.decode_images num_samples X = Ok images →
  Forall (Forall (fun k => 0 ≤ k ≤ 255)) X →
  Images.byte_valued images.
Proof.
  unfold RawCorpus.decode_images, RawCorpus.reshape_images.
  destruct (decide _) as [Hsize|]; [|done]. cbn [mbind result_bind].
  intros [= <-] Hbytes. unfold Images.byte_valued.
  apply Forall_fmap.
  eapply Forall_impl;
    [apply (chunks_Forall_entries (fun k => 0 ≤ k ≤ 255)), Forall_concat,
       Hbytes|].
  intros image Himage. unfold compose. apply Forall_fmap.
  eapply Forall_impl; [by apply transpose_image_Forall|].
  intros k Hk. by exists k.
Qed.

(** An [N x 3072] array of bytes is decoded into [N] images of [3072]
    floats with the channel last: entry [(h, w, c)] of image [n] is the
    byte at position [c * 1024 + h * 32 + w] of row [n]. *)
Theorem decode_images_channels_last (num_samples : Z) (X : list (list Z)) :
  Z.of_nat (length X) = num_samples →
  Forall (fun row => length row = 3072%nat) X →
  ∃ images,
    RawCorpus.decode_images num_samples X = Ok images ∧
    length images = length X ∧
    ∀ (n : nat) row (h w c : nat),
      X !! n = Some row → (h < 32)%nat → (w < 32)%nat → (c < 3)%nat →
      ∃ image,
        images !! n = Some image ∧ length image = 3072%nat ∧
        image !! ((h * 32 + w) * 3 + c)%nat
        = IZR <$> row !! (c * 1024 + h * 32 + w)%nat.
Proof.
  intros HN Hrows. eexists. split; [|split].
  - unfold RawCorpus.decode_images, RawCorpus.reshape_images.
    rewrite (concat_length_uniform 3072) by done.
    rewrite decide_True by lia. cbn [mbind result_bind].
    rewrite <- HN, Nat2Z.id, chunks_concat by done. reflexivity.
  - by rewrite length_fmap.
  - intros n row h w c Hrow Hh Hw Hc.
    pose proof (Forall_lookup_1 _ _ _ _ Hrows Hrow) as Hlen. cbn in Hlen.
    eexists. split; [|split].
    + by rewrite list_lookup_fmap, Hrow.
    + by rewrite length_fmap, transpose_image_length.
    + by rewrite list_lookup_fmap, transpose_image_lookup.
Qed.

Lemma decode_images_channels_last_witness :
  ∃ images,
    RawCorpus.decode_images 1 [Z.of_nat <$> seq 0 3072] = Ok images ∧
    length images = 1%nat ∧
    ∀ (n : nat) row (h w c : nat),
      [Z.of_nat <$> seq 0 3072] !! n = Some row →
      (h < 32)%nat → (w < 32)%nat → (c < 3)%nat →
      ∃ image,
        images !! n = Some image ∧ length image = 3072%nat ∧
        image !! ((h * 32 + w) * 3 + c)%nat
        = IZR <$> row !! (c * 1024 + h * 32 + w)%nat.
Proof.
  apply (decode_images_channels_last 1 [Z.of_nat <$> seq 0 3072]).
  - reflexivity.
  - constructor; [|constructor]. by rewrite length_fmap, length_seq.
Defined.

Lemma cifar100_batch_Ok_inv d filename X Y_fine Y_coarse :
  RawCorpus._load_cifar100_batch d filename = Ok (X, Y_fine, Y_coarse) →
  ∃ datadict,
    RawCorpus.files100 d !! filename = Some datadict ∧
    RawCorpus.decode_images
      (expected_samples (RawCorpus.batch_label100 datadict))
      (RawCorpus.data100 datadict) = Ok X ∧
    Y_fine = RawCorpus.fine_labels datadict ∧
    Y_coarse = RawCorpus.coarse_labels datadict.
Proof.
  unfold RawCorpus._load_cifar100_batch.
  destruct (RawCorpus.files100 d !! filename) as [datadict|]; [|done].
  intros Hrun. apply bind_Ok_inv in Hrun as (X' & HX & [= <- <- <-]).
  by exists datadict.
Qed.

(** When a CIFAR-100 file is loaded, the number of images is fixed by its
    batch label: 50000 for the training batch, 10000 for the testing
    batch, and none for any other label.  Every image has 3072 entries.
    The two label lists are handed on as they are in the file: their
    lengths are not compared with the number of images. *)
Theorem cifar100_batch_shape (d : RawCorpus.disk) (filename : string)
    (X : list (list R)) (Y_fine Y_coarse : list Z) :
  RawCorpus._load_cifar100_batch d filename = Ok (X, Y_fine, Y_coarse) →
  ∃ datadict,
    RawCorpus.files100 d !! filename = Some datadict ∧
    Z.of_nat (length X)
      = expected_samples (RawCorpus.batch_label100 datadict) ∧
    Z.of_nat (length (concat (RawCorpus.data100 datadict)))
      = expected_samples (RawCorpus.batch_label100 datadict) * 3072 ∧
    Forall (fun image => length image = 3072%nat) X ∧
    Y_fine = RawCorpus.fine_labels datadict ∧
    Y_coarse = RawCorpus.coarse_labels datadict.
Proof.
  intros (datadict & Hfile & HX & -> & ->)%cifar100_batch_Ok_inv.
  apply decode_images_Ok_inv in HX as (Hsize & Hlen & Himages).
  by exists datadict.
Qed.

Lemma cifar100_batch_shape_witness :
  ∃ datadict,
    RawCorpus.files100
      {| RawCorpus.files100 := {[ "leftover" := RawCorpus.empty_batch ]};
         RawCorpus.files10 := ∅ |} !! "leftover" = Some datadict ∧
    Z.of_nat (length (@nil (list R)))
      = expected_samples (RawCorpus.batch_label100 datadict) ∧
    Z.of_nat (length (concat (RawCorpus.data100 datadict)))
      = expected_samples (RawCorpus.batch_label100 datadict) * 3072 ∧
    Forall (fun image => length image = 3072%nat) (@nil (list R)) ∧
    [7] = RawCorpus.fine_labels datadict ∧
    [] = RawCorpus.coarse_labels datadict.
Proof.
  apply (cifar100_batch_shape
           {| RawCorpus.files100 := {[ "leftover" := RawCorpus.empty_batch ]};
              RawCorpus.files10 := ∅ |} "leftover" [] [7] []).
  reflexivity.
Defined.

Lemma mapM_Ok_inv {A B : Type} (f : A → result B) (l : list A) (ps : list B) :
  mapM f l = Ok ps → Forall2 (fun a p => f a = Ok p) l ps.
Proof.
  revert ps. induction l as [|a l IH]; intros ps; cbn.
  - intros [= <-]. constructor.
  - destruct (f a) as [p|e] eqn:Hfa; cbn; [|done].
    destruct (mapM f l) as [ps'|e]; cbn; [|done].
    intros [= <-]. constructor; [done|]. by apply IH.
Qed.

(** The loop of [_load_cifar10] loads the batches in order and appends
    what it gets. *)
Lemma load_batches_spec d ROOT bs xs ys :
  load_batches d ROOT bs xs ys
  = (pairs ← mapM (fun b => RawCorpus._load_cifar10_batch d
                              (path_join ROOT (data_batch b))) bs;
     Ok (xs ++ pairs.*1, ys ++ pairs.*2)).
Proof.
  revert xs ys. induction bs as [|b bs IH]; intros xs ys; cbn.
  - by rewrite !app_nil_r.
  - destruct (RawCorpus._load_cifar10_batch d _) as [[X Y]|e]; cbn; [|done].
    rewrite IH. destruct (mapM _ bs) as [pairs|e]; cbn; [|done].
    by rewrite <- !app_assoc.
Qed.

Lemma cifar10_batch_Ok_inv d filename X Y :
  RawCorpus._load_cifar10_batch d filename = Ok (X, Y) →
  Z.of_nat (length X) = 10000 ∧
  Forall (fun image => length image = 3072%nat) X.
Proof.
  unfold RawCorpus._load_cifar10_batch.
  destruct (files10 d !! filename) as [datadict|]; [|done].
  intros Hrun. apply bind_Ok_inv in Hrun as (X' & HX & [= <- _]).
  apply decode_images_Ok_inv in HX as (_ & Hlen & Himages).
  done.
Qed.

Lemma cifar10_Ok_inv d ROOT raw :
  RawCorpus._load_cifar10 d ROOT = Ok raw →
  Z.of_nat (length (Xtr10 raw)) = 50000 ∧
  Z.of_nat (length (Xte10 raw)) = 10000 ∧
  Forall (fun image => length image = 3072%nat) (Xtr10 raw) ∧
  Forall (fun image => length image = 3072%nat) (Xte10 raw).
Proof.
  unfold RawCorpus._load_cifar10. rewrite load_batches_spec.
  intros Hrun.
  apply bind_Ok_inv in Hrun as ([xs ys] & Hloop & Hrun).
  apply bind_Ok_inv in Hloop as (pairs & Hpairs & [= <- <-]).
  apply bind_Ok_inv in Hrun as ([Xte Yte] & Hte & [= <-]).
  cbn [Xtr10 Xte10 app].
  apply cifar10_batch_Ok_inv in Hte as (HlenTe & HimTe).
  apply mapM_Ok_inv in Hpairs.
  assert (Forall (fun p : list (list R) * list Z =>
                    Z.of_nat (length p.1) = 10000 ∧
                    Forall (fun image => length image = 3072%nat) p.1) pairs)
    as Hall.
  { apply Forall_forall. intros [X Y] [i Hi]%list_elem_of_lookup.
    destruct (Forall2_lookup_r _ _ _ _ _ Hpairs Hi) as (b & _ & Hb).
    by apply cifar10_batch_Ok_inv in Hb. }
  apply Forall2_length in Hpairs. cbn in Hpairs.
  split_and!; [|done| |done].
  - rewrite (concat_length_uniform (Z.to_nat 10000)), length_fmap, <- Hpairs;
      [lia|].
    apply Forall_fmap. eapply Forall_impl; [exact Hall|].
    intros p [? _]. cbn. lia.
  - apply Forall_concat, Forall_fmap.
    eapply Forall_impl; [exact Hall|]. by intros p [_ ?].
Qed.

Lemma cifar100_Ok_inv d ROOT raw :
  RawCorpus._load_cifar100 d ROOT = Ok raw →
  Forall (fun image => length image = 3072%nat) (Xtr raw) ∧
  Forall (fun image => length image = 3072%nat) (Xte raw).
Proof.
  unfold RawCorpus._load_cifar100. intros Hrun.
  apply bind_Ok_inv in Hrun as ([[X1 F1] C1] & Htr & Hrun).
  apply bind_Ok_inv in Hrun as ([[X2 F2] C2] & Hte & [= <-]).
  cbn [Xtr Xte].
  apply cifar100_batch_Ok_inv in Htr as (? & _ & Htr & _).
  apply cifar100_batch_Ok_inv in Hte as (? & _ & Hte & _).
  apply decode_images_Ok_inv in Htr as (_ & _ & Htr).
  apply decode_images_Ok_inv in Hte as (_ & _ & Hte).
  done.
Qed.

Lemma uniform_rectangular (n : nat) (X : list (list R)) :
  Forall (fun image => length image = n) X → Spec.rectangular X.
Proof.
  unfold Spec.rectangular, Spec.positions. intros HX.
  destruct HX as [|image X Himage HX]; [done|].
  cbn [hd]. rewrite Himage. by constructor.
Qed.

(** Whatever corpus the files hold, the training and the test tensor that
    [load_cifar_train_test] returns are rectangular: every image has 3072
    entries (32 by 32 pixels, 3 channels).  For [cifar10] the training
    tensor has 50000 images, the five batches in order, and the test
    tensor 10000. *)
Theorem loaded_tensors_are_rectangular {blob : Type}
    (w : world (list R) blob) (d : disk) (dataset : string)
    (X_train X_test : list (list R)) (y_train y_test : labels) :
  reads_corpus w d →
  DataUtils.load_cifar_train_test w dataset
    = Ok (X_train, y_train, X_test, y_test) →
  Forall (fun image => length image = 3072%nat) (X_train ++ X_test) ∧
  Spec.rectangular X_train ∧ Spec.rectangular X_test ∧
  (dataset = "cifar10" →
   Z.of_nat (length X_train) = 50000 ∧ Z.of_nat (length X_test) = 10000).
Proof.
  intros [H100 H10]. unfold DataUtils.load_cifar_train_test.
  case_bool_decide as Hknown; [|done].
  case_bool_decide as Hds.
  - rewrite H10. intros Hrun.
    apply bind_Ok_inv in Hrun as (raw & Hraw & [= <- _ <- _]).
    apply cifar10_Ok_inv in Hraw as (? & ? & Htr & Hte).
    split_and!; [by apply Forall_app|by eapply uniform_rectangular..|done].
  - rewrite H100. intros Hrun.
    apply bind_Ok_inv in Hrun as (raw & Hraw & Hrun).
    apply bind_Ok_inv in Hrun as (ytr & _ & Hrun).
    apply bind_Ok_inv in Hrun as (yte & _ & [= <- _ <- _]).
    apply cifar100_Ok_inv in Hraw as (Htr & Hte).
    split_and!; [by apply Forall_app|by eapply uniform_rectangular..|done].
Qed.

Lemma mount_reads_corpus {blob : Type} (d : disk) :
  reads_corpus (mount (blob := blob) d) d.
Proof. split; reflexivity. Qed.

Lemma load_cifar10_unfold (d : disk) (ROOT : string) :
  RawCorpus._load_cifar10 d ROOT
  = ('(xs, ys) ← load_batches d ROOT (seq 1 5) [] [];
     '(Xte, Yte) ← RawCorpus._load_cifar10_batch d
                     (path_join ROOT "test_batch");
     Ok {| Xtr10 := concat xs; Ytr10 := concat ys;
           Xte10 := Xte; Yte10 := Yte |}).
Proof. reflexivity. Qed.

Lemma load_cifar_train_test_cifar10 {blob : Type} (w : world (list R) blob)
    (d : disk) (raw : cifar10_raw (list R)) :
  reads_corpus w d →
  RawCorpus._load_cifar10 d CIFAR10_DIR = Ok raw →
  DataUtils.load_cifar_train_test w "cifar10"
  = Ok (Xtr10 raw, Labels1 (Ytr10 raw), Xte10 raw, Labels1 (Yte10 raw)).
Proof.
  intros [_ H10] Hraw. unfold DataUtils.load_cifar_train_test.
  rewrite bool_decide_eq_true_2 by apply list_elem_of_here.
  rewrite bool_decide_eq_true_2 by done.
  by rewrite H10, Hraw.
Qed.

Lemma decode_images_Ok (num_samples : Z) (X : list (list Z)) :
  Z.of_nat (length X) = num_samples →
  Forall (fun row => length row = 3072%nat) X →
  RawCorpus.decode_images num_samples X
  = Ok (fmap (M := list)
          (fun image : list Z => fmap (M := list) IZR (transpose_image image))
          X).
Proof.
  intros HN Hrows. unfold RawCorpus.decode_images, RawCorpus.reshape_images.
  rewrite (concat_length_uniform 3072) by done.
  rewrite decide_True by lia. cbn [mbind result_bind].
  by rewrite <- HN, Nat2Z.id, chunks_concat by done.
Qed.

Lemma cifar10_batch_Ok (d : disk) (filename : string) (datadict : batch10) :
  files10 d !! filename = Some datadict →
  Z.of_nat (length (data10 datadict)) = 10000 →
  Forall (fun row => length row = 3072%nat) (data10 datadict) →
  RawCorpus._load_cifar10_batch d filename
  = Ok (fmap (M := list)
          (fun image : list Z => fmap (M := list) IZR (transpose_image image))
          (data10 datadict),
        labels10 datadict).
Proof.
  intros Hfile Hcount Hrows. unfold RawCorpus._load_cifar10_batch.
  rewrite Hfile, decode_images_Ok by done. reflexivity.
Qed.

Lemma mapM_const {A B : Type} (f : A → result B) (l : list A) (p : B) :
  (∀ a, a ∈ l → f a = Ok p) → mapM f l = Ok (replicate (length l) p).
Proof.
  induction l as [|a l IH]; intros Hf; [done|].
  cbn [mapM length replicate]. rewrite Hf by apply list_elem_of_here.
  cbn [mbind result_bind]. rewrite IH; [done|].
  intros b Hb. by apply Hf, list_elem_of_further.
Qed.

Lemma cifar10_of_equal_batches (d : disk) (ROOT : string)
    (X : list (list R)) (Y : list Z) :
  (∀ b, b ∈ seq 1 5 →
        RawCorpus._load_cifar10_batch d (path_join ROOT (data_batch b))
        = Ok (X, Y)) →
  RawCorpus._load_cifar10_batch d (path_join ROOT "test_batch") = Ok (X, Y) →
  RawCorpus._load_cifar10 d ROOT
  = Ok {| Xtr10 := concat (replicate 5 X); Ytr10 := concat (replicate 5 Y);
          Xte10 := X; Yte10 := Y |}.
Proof.
  intros Hbatches Htest.
  rewrite load_cifar10_unfold, load_batches_spec.
  rewrite (mapM_const _ _ (X, Y)) by exact Hbatches.
  cbn [mbind result_bind]. rewrite Htest. cbn [mbind result_bind].
  by rewrite length_seq, !fmap_replicate.
Qed.

(** Every file of [ramp_disk] decodes to the 10000 images
    [ramp_images]. *)
Lemma ramp_disk_batch (name : string) :
  name ∈ batch_names →
  RawCorpus._load_cifar10_batch ramp_disk (path_join CIFAR10_DIR name)
  = Ok (ramp_images, ramp_labels).
Proof.
  intros Hname.
  apply (cifar10_batch_Ok ramp_disk (path_join CIFAR10_DIR name) ramp_batch).
  - apply lookup_gset_to_gmap_Some. split; [|done].
    apply elem_of_list_to_set, list_elem_of_fmap. by exists name.
  - unfold ramp_batch. cbn [data10]. rewrite length_replicate. lia.
  - unfold ramp_batch. cbn [data10]. apply Forall_replicate.
    unfold ramp_row. by rewrite length_fmap, length_seq.
Qed.

Lemma ramp_disk_cifar10 :
  RawCorpus._load_cifar10 ramp_disk CIFAR10_DIR = Ok ramp_raw.
Proof.
  apply (cifar10_of_equal_batches ramp_disk CIFAR10_DIR
           ramp_images ramp_labels).
  - intros b Hb. apply ramp_disk_batch.
    unfold batch_names. apply elem_of_app. left.
    apply list_elem_of_fmap. by exists b.
  - apply ramp_disk_batch. unfold batch_names. apply elem_of_app.
    right. apply list_elem_of_here.
Qed.

Lemma loaded_tensors_are_rectangular_witness :
  Forall (fun image : list R => length image = 3072%nat)
    (Xtr10 ramp_raw ++ Xte10 ramp_raw) ∧
  Spec.rectangular (Xtr10 ramp_raw) ∧
  Spec.rectangular (Xte10 ramp_raw) ∧
  Z.of_nat (length (Xtr10 ramp_raw)) = 50000 ∧
  Z.of_nat (length (Xte10 ramp_raw)) = 10000.
Proof.
  destruct (loaded_tensors_are_rectangular (blob := unit)
              (mount ramp_disk) ramp_disk "cifar10"
              (Xtr10 ramp_raw) (Xte10 ramp_raw)
              (Labels1 (Ytr10 ramp_raw)) (Labels1 (Yte10 ramp_raw))
              (mount_reads_corpus ramp_disk)
              (load_cifar_train_test_cifar10 (mount ramp_disk) ramp_disk
                 ramp_raw (mount_reads_corpus ramp_disk) ramp_disk_cifar10))
    as (Hentries & Htrain & Htest & Hcount).
  destruct (Hcount eq_refl) as [Hn Hm].
  exact (conj Hentries (conj Htrain (conj Htest (conj Hn Hm)))).
Defined.

(** When the CIFAR-100 training file cannot be read or decoded, its error
    is the outcome of the partitioner and of the normalizer: nothing else
    is read, and the normalizer prints no statistics. *)
Theorem damaged_training_file_stops_loaders {blob : Type} `{Pickle blob}
    (w : world (list R) blob) (d : disk) (e : exn)
    (num_training num_validation num_test : Z) (normalize : bool) :
  reads_corpus w d →
  RawCorpus._load_cifar100_batch d (path_join CIFAR100_DIR "train")
    = Raise e →
  DataUtils.load_cifar_pyramid w = Raise e ∧
  DataUtils.load_cifar w num_training num_validation num_test
    "cifar100" normalize = ([], Raise e).
Proof.
  intros [H100 _] Hbatch.
  assert (RawCorpus._load_cifar100 d CIFAR100_DIR = Raise e) as Hraw.
  { unfold RawCorpus._load_cifar100. by rewrite Hbatch. }
  split.
  - unfold DataUtils.load_cifar_pyramid, DataUtils.load_cifar_train_test.
    rewrite bool_decide_eq_true_2
      by apply list_elem_of_further, list_elem_of_here.
    rewrite bool_decide_eq_false_2 by done.
    by rewrite H100, Hraw.
  - unfold DataUtils.load_cifar, DataUtils.load_cifar_eps.
    rewrite bool_decide_eq_true_2
      by apply list_elem_of_further, list_elem_of_here.
    rewrite bool_decide_eq_false_2 by done.
    by rewrite H100, Hraw.
Qed.

Lemma damaged_training_file_stops_loaders_witness :
  DataUtils.load_cifar_pyramid
    (mount (blob := list (string * list string)) short_disk)
    = Raise ValueError ∧
  DataUtils.load_cifar
    (mount (blob := list (string * list string)) short_disk)
    49000 1000 10000 "cifar100" true = ([], Raise ValueError).
Proof.
  apply (damaged_training_file_stops_loaders
           (mount (blob := list (string * list string)) short_disk)
           short_disk ValueError 49000 1000 10000 true).
  - split; reflexivity.
  - reflexivity.
Defined.

End RawCorpusFacts.

(** ** Training and testing *)

Module DriverFacts.
Import Driver.

Section Run.
Context {blob : Type} `{Pickle blob} {Network Model : Type}.
Variable w : world (list R) blob.
Variable tf : backend Network Model.

Lemma load_data_Done_n_classes dataset num_training num_test r :
  load_data w tf dataset num_training num_test = Done r →
  ∃ n_classes, getitem DATASET_TO_N_CLASSES dataset = Done n_classes.
Proof.
  unfold load_data.
  destruct (if bool_decide (dataset = Some "cifar10") then _ else _)
    as [[[[X Y] X_test] Y_test]|s]; cbn [mbind run_bind]; [|done].
  destruct (getitem DATASET_TO_N_CLASSES dataset) as [n|s]; [|done].
  by exists n.
Qed.

Lemma test_model_unfold model_id dataset :
  test_model w tf model_id dataset
  = match load_data w tf dataset 50000 10000 with
    | Done _ => Stopped (Raised AssertionError)
    | Stopped s => Stopped s
    end.
Proof.
  unfold test_model.
  destruct (load_data w tf dataset 50000 10000)
    as [[[[X Y] X_test] Y_test]|s] eqn:Hdata; cbn [mbind run_bind]; [|done].
  apply load_data_Done_n_classes in Hdata as [n ->].
  reflexivity.
Qed.

End Run.

(** In test mode the program never reports an accuracy, whatever the
    libraries do.  When [load_data] stops, the run stops in the same way.
    When [load_data] returns, [test_model] calls [load_model] with
    [is_training=False] and without [get_hidden_reps], and the first
    statement of [load_model], the assertion that exactly one of the two
    holds, fails: the run ends with [AssertionError] before a model is
    built. *)
Theorem test_mode_never_reports {blob : Type} `{Pickle blob}
    {Network Model : Type} (w : world (list R) blob)
    (tf : backend Network Model)
    (getopt : option (list (string * string) * list string))
    (model_id : string) (checkpoint_model_id : option string)
    (model : model_dict) :
  Cli.read_commandline_args getopt
    = Cli.Returned ("test", model_id, checkpoint_model_id) →
  ALL_MODEL_DICTS !! model_id = Some model →
  main w tf getopt
  = match load_data w tf (dataset model) 50000 10000 with
    | Done _ => Stopped (Raised AssertionError)
    | Stopped s => Stopped s
    end.
Proof.
  intros Hargs Hmodel. unfold main. rewrite Hargs.
  unfold getitem. cbn [mbind option_bind]. rewrite Hmodel.
  cbn [mbind run_bind].
  rewrite (bool_decide_eq_false_2 ("test" = "train")) by done.
  rewrite (bool_decide_eq_true_2 ("test" = "test")) by done.
  rewrite test_model_unfold.
  by destruct (load_data w tf (dataset model) 50000 10000).
Qed.

Lemma test_mode_never_reports_witness :
  main (RawCorpus.mount (blob := list (string * list string))
          RawCorpus.short_disk) offline
    (Some ([("-t", "test"); ("-m", "simple_cnn_cifar100_fine")], []))
  = Stopped (Raised ValueError).
Proof.
  rewrite (test_mode_never_reports _ _ _ "simple_cnn_cifar100_fine" None
             {| network_type := "simple_cnn";
                dataset := Some "cifar100_fine" |});
    reflexivity.
Defined.

(** The program ends with [KeyError], before any data is read and before
    any model is built, when the model is not one of [ALL_MODEL_DICTS],
    whatever the mode, and when the model [simple_cnn_cifar100_joint],
    whose dataset is [None], is to be trained. *)
Theorem model_without_dataset_raises_KeyError {blob : Type} `{Pickle blob}
    {Network Model : Type} (w : world (list R) blob)
    (tf : backend Network Model)
    (getopt : option (list (string * string) * list string))
    (mode model_id : string) (checkpoint_model_id : option string) :
  Cli.read_commandline_args getopt
    = Cli.Returned (mode, model_id, checkpoint_model_id) →
  ALL_MODEL_DICTS !! model_id = None ∨
  (mode = "train" ∧ model_id = "simple_cnn_cifar100_joint") →
  main w tf getopt = Stopped KeyError.
Proof.
  intros Hargs Hcase. unfold main. rewrite Hargs.
  destruct Hcase as [Hmodel|[-> ->]].
  - unfold getitem. cbn [mbind option_bind]. by rewrite Hmodel.
  - reflexivity.
Qed.

Lemma model_without_dataset_raises_KeyError_witness :
  main (RawCorpus.mount (blob := list (string * list string))
          RawCorpus.short_disk) offline
    (Some ([("-m", "simple_cnn_cifar100_joint")], []))
  = Stopped KeyError.
Proof.
  apply (model_without_dataset_raises_KeyError _ _ _
           "train" "simple_cnn_cifar100_joint" None).
  - reflexivity.
  - right. split; reflexivity.
Defined.

End DriverFacts.
